(** * AIBot: a shallow embedding of the task orchestration runtime

    The development follows the Go packages of the repository:
    - [GoInt], [GoStrings]: the fragment of the Go runtime the code relies on
      (64-bit [int] arithmetic, byte strings, [strings.Contains] and friends);
    - [ctxmgr]: package [internal/context] (token counter and message history);
    - [browser]: the page registry of [internal/browser/manager.go];
    - [agent]: the orchestration loop of [internal/agent/agent.go] together
      with the [browser.Manager] action methods, [security] and
      [ai.Client.MakeDecision], written against an explicit environment that
      answers every call leaving the repository (Playwright, OpenAI, stdin).

    Part I holds the embedding, Part II the properties. *)

From Stdlib Require Import ZArith String Ascii List Lia DecimalString.
From stdpp Require Import base gmap strings list.

Local Open Scope Z_scope.

(** * Part I: the embedding *)

(** ** Go's [int] on a 64-bit platform *)

Module GoInt.

Definition int_min : Z := - 2 ^ 63.
Definition int_max : Z := 2 ^ 63 - 1.

(** Two's complement wrap-around of an exact result into the [int] range. *)
Definition wrap (z : Z) : Z := (z + 2 ^ 63) mod 2 ^ 64 - 2 ^ 63.

Definition in_range (z : Z) : Prop := int_min <= z <= int_max.

Definition add (x y : Z) : Z := wrap (x + y).
Definition sub (x y : Z) : Z := wrap (x - y).

(** [x / y] on [int] truncates toward zero. *)
Definition quot (x y : Z) : Z := Z.quot x y.

End GoInt.

(** ** Go strings: byte sequences, and the [strings]/[fmt] helpers in use *)

Module GoStrings.

(** An [error] is represented by its [Error()] text; [nil] is [None].
    Wrapping with [%w] is concatenation of the texts, which is all the
    repository ever inspects ([err != nil] and [strings.Contains(err.Error(), _)]). *)
Definition error : Type := string.

(** [len(s)]: the number of bytes. *)
Definition len (s : string) : Z := Z.of_nat (String.length s).

(** [len(xs)] of a slice. *)
Definition slice_len {A} (l : list A) : Z := Z.of_nat (length l).

(** [%d] *)
Definition itoa (z : Z) : string := NilZero.string_of_int (Z.to_int z).

(** The double quote and the line feed, which a string literal cannot spell here. *)
Definition dq : string := String (ascii_of_nat 34) EmptyString.
Definition nl : string := String (ascii_of_nat 10) EmptyString.

(** [strings.HasPrefix(s, p)] *)
Definition HasPrefix (s p : string) : bool := String.prefix p s.

(** [strings.Contains(s, substr)] *)
Fixpoint Contains (s substr : string) : bool :=
  String.prefix substr s ||
  match s with
  | EmptyString => false
  | String _ s' => Contains s' substr
  end.

(** [strings.SplitN(s, "\n", 2)]: the text before the first line feed and the
    text after it, or the single part [s] when there is none. *)
Fixpoint SplitN_nl_2 (s : string) : string * option string :=
  match s with
  | EmptyString => (EmptyString, None)
  | String c s' =>
      if Ascii.eqb c (ascii_of_nat 10) then (EmptyString, Some s')
      else let '(a, b) := SplitN_nl_2 s' in (String c a, b)
  end.

(** [strings.LastIndex(s, substr)], [None] standing for [-1]. *)
Fixpoint LastIndex (s substr : string) : option nat :=
  match s with
  | EmptyString => if String.prefix substr EmptyString then Some 0%nat else None
  | String _ s' =>
      match LastIndex s' substr with
      | Some i => Some (S i)
      | None => if String.prefix substr s then Some 0%nat else None
      end
  end.

(** [s[:n]] *)
Definition slice_to (s : string) (n : nat) : string := String.substring 0 n s.

End GoStrings.

(** ** Package [internal/context] *)

Module ctxmgr.
Import GoInt GoStrings.

(** TokenCounter tracks token usage *)
Record TokenCounter : Type := mkTokenCounter {
  PromptTokens : Z;
  CompletionTokens : Z;
  TotalTokens : Z;
  MaxTokens : Z
}.

Definition NewTokenCounter (maxTokens : Z) : TokenCounter :=
  {| PromptTokens := 0; CompletionTokens := 0; TotalTokens := 0; MaxTokens := maxTokens |}.

(** [tc.TotalTokens+needed <= tc.MaxTokens] *)
Definition CanAddTokens (tc : TokenCounter) (needed : Z) : bool :=
  add (TotalTokens tc) needed <=? MaxTokens tc.

(** [tc.MaxTokens - tc.TotalTokens] *)
Definition RemainingTokens (tc : TokenCounter) : Z :=
  sub (MaxTokens tc) (TotalTokens tc).

(** [Add]: the three assignments come first, the comparison with the maximum
    only afterwards; the returned pair is the counter as the call leaves it
    and the error. *)
Definition Add (tc : TokenCounter) (prompt completion : Z) : TokenCounter * option error :=
  let p := add (PromptTokens tc) prompt in
  let c := add (CompletionTokens tc) completion in
  let t := add p c in
  let tc' := {| PromptTokens := p; CompletionTokens := c; TotalTokens := t;
                MaxTokens := MaxTokens tc |} in
  if t >? MaxTokens tc
  then (tc', Some ("token limit exceeded: " +:+ itoa t +:+ "/" +:+ itoa (MaxTokens tc)))
  else (tc', None).

(** Message represents a message in context *)
Record Message : Type := mkMessage {
  Role : string;
  Content : string
}.

(** ContextManager manages conversation history and token limits.  The Go
    struct holds a pointer to its counter; nothing else aliases it, so the
    counter is a field here. *)
Record ContextManager : Type := mkContextManager {
  messages : list Message;
  tokenCounter : TokenCounter;
  maxHistorySize : Z
}.

Definition NewContextManager (maxTokens maxHistorySize : Z) : ContextManager :=
  {| messages := []; tokenCounter := NewTokenCounter maxTokens;
     maxHistorySize := maxHistorySize |}.

Definition set_messages (cm : ContextManager) (ms : list Message) : ContextManager :=
  {| messages := ms; tokenCounter := tokenCounter cm; maxHistorySize := maxHistorySize cm |}.

Definition set_tokenCounter (cm : ContextManager) (tc : TokenCounter) : ContextManager :=
  {| messages := messages cm; tokenCounter := tc; maxHistorySize := maxHistorySize cm |}.

(** The body of [for i, msg := range cm.messages { if i >= start { append } }],
    [i] being the index of the head of [l]. *)
Fixpoint keepFrom (start i : Z) (l : list Message) : list Message :=
  match l with
  | [] => []
  | msg :: rest =>
      if start <=? i then msg :: keepFrom start (i + 1) rest
      else keepFrom start (i + 1) rest
  end.

(** AddMessage adds a message to history *)
Definition AddMessage (cm : ContextManager) (role content : string) : ContextManager :=
  let ms := messages cm ++ [{| Role := role; Content := content |}] in
  if slice_len ms >? maxHistorySize cm
  then set_messages cm (keepFrom (sub (slice_len ms) (maxHistorySize cm)) 0 ms)
  else set_messages cm ms.

Definition GetMessages (cm : ContextManager) : list Message := messages cm.

Definition ClearContext (cm : ContextManager) : ContextManager := set_messages cm [].

Definition ResetTokenCounter (cm : ContextManager) : ContextManager :=
  set_tokenCounter cm
    {| PromptTokens := 0; CompletionTokens := 0; TotalTokens := 0;
       MaxTokens := MaxTokens (tokenCounter cm) |}.

(** RemoveOldest removes the oldest [count] messages from history *)
Definition RemoveOldest (cm : ContextManager) (count : Z) : ContextManager :=
  if (count <=? 0) || (slice_len (messages cm) =? 0) then cm
  else if count >=? slice_len (messages cm) then set_messages cm []
  else set_messages cm (drop (Z.to_nat count) (messages cm)).

(** EstimateTokens: [(len(text) + 3) / 4] *)
Definition EstimateTokens (text : string) : Z := quot (add (len text) 3) 4.

End ctxmgr.

(** ** Library functions taken as given

    [strings.TrimSpace] and [strings.ToLower] follow Unicode tables,
    [strconv.Atoi] and [%q] have their own grammars; the repository only
    passes values through them, so they are parameters of the embedding. *)

Class GoText : Type := {
  TrimSpace : string -> string;
  ToLower : string -> string;
  Atoi : string -> option Z;
  Quote : string -> string
}.

(** ** Package [internal/browser]: the page registry *)

Module browser.
Import GoInt GoStrings.

(** A [playwright.Page] handle.  The registry never looks inside it; it only
    prints its address with [%p]. *)
Record Page : Type := mkPage { page_addr : string }.

(** [fmt.Sprintf("%p", page)] *)
Definition pageIdentifier (page : Page) : string := "0x" +:+ page_addr page.

(** ElementInfo represents a single interactive element *)
Module ElementInfo.
Record t : Type := mk {
  Type_ : string;
  Text : string;
  Href : string;
  Selector : string;
  Index : Z
}.
End ElementInfo.

(** PageContent represents extracted page information *)
Module PageContent.
Record t : Type := mk {
  Title : string;
  URL : string;
  Elements : list ElementInfo.t;
  MainText : string
}.
End PageContent.

(** TabInfo describes an open browser tab. *)
Module TabInfo.
Record t : Type := mk {
  Index : Z;
  Title : string;
  URL : string;
  Active : bool
}.
End TabInfo.

(** The registry fields of [Manager].  [page] is the active handle, [None]
    for [nil]; [pageListeners] is a [map[string]struct{}], that is a set. *)
Record Manager : Type := mkManager {
  page : option Page;
  pageListeners : gset string;
  pages : gmap string Page;
  pageOrder : list string;
  activePageID : string
}.

(** The registry as [NewManager] creates it, before [rebuildPageTracking]. *)
Definition emptyManager : Manager :=
  {| page := None; pageListeners := ∅; pages := ∅; pageOrder := []; activePageID := "" |}.

(** [setActivePage]; the [BringToFront] call on the driver and its warning
    do not touch the registry and are left out. *)
Definition setActivePage (m : Manager) (pageID : string) (bringToFront : bool) : Manager :=
  match pages m !! pageID with
  | None => m
  | Some pg =>
      {| page := Some pg; pageListeners := pageListeners m; pages := pages m;
         pageOrder := pageOrder m; activePageID := pageID |}
  end.

(** [attachPageListeners]: the key is recorded once per handle. *)
Definition attachPageListeners (m : Manager) (pg : option Page) : Manager :=
  match pg with
  | None => m
  | Some p =>
      let key := pageIdentifier p in
      if decide (key ∈ pageListeners m) then m
      else {| page := page m; pageListeners := {[key]} ∪ pageListeners m; pages := pages m;
              pageOrder := pageOrder m; activePageID := activePageID m |}
  end.

Definition registerPage (m : Manager) (pg : option Page) (activate : bool) : Manager :=
  match pg with
  | None => m
  | Some p =>
      let id := pageIdentifier p in
      match pages m !! id with
      | Some _ => m
      | None =>
          let m1 := {| page := page m; pageListeners := pageListeners m;
                       pages := <[id := p]> (pages m);
                       pageOrder := pageOrder m ++ [id];
                       activePageID := activePageID m |} in
          let m2 := attachPageListeners m1 (Some p) in
          if activate || String.eqb (activePageID m2) ""
          then setActivePage m2 id activate
          else m2
      end
  end.

(** The loop of [handlePageClosed] over [pageOrder]: the first entry equal
    to [id] is cut out, then [break]. *)
Fixpoint removeFirst (id : string) (order : list string) : list string :=
  match order with
  | [] => []
  | pageID :: rest => if String.eqb pageID id then rest else pageID :: removeFirst id rest
  end.

Definition handlePageClosed (m : Manager) (pg : option Page) : Manager :=
  match pg with
  | None => m
  | Some p =>
      let id := pageIdentifier p in
      let m1 := {| page := page m; pageListeners := pageListeners m ∖ {[id]};
                   pages := delete id (pages m);
                   pageOrder := removeFirst id (pageOrder m);
                   activePageID := activePageID m |} in
      if String.eqb (activePageID m1) id then
        let m2 := {| page := None; pageListeners := pageListeners m1; pages := pages m1;
                     pageOrder := pageOrder m1; activePageID := "" |} in
        match last (pageOrder m2) with
        | Some lastID => setActivePage m2 lastID true
        | None => m2
        end
      else m1
  end.

(** [cleanupCurrentContext], as far as the registry goes. *)
Definition cleanupCurrentContext (m : Manager) : Manager :=
  {| page := None; pageListeners := ∅; pages := ∅; pageOrder := []; activePageID := "" |}.

(** [rebuildPageTracking]; [ctxPages] is [browserCtx.Pages()], [None] a nil
    context. *)
Definition rebuildPageTracking (m : Manager) (ctxPages : option (list Page)) : Manager :=
  match ctxPages with
  | None => m
  | Some pgs =>
      let m0 := {| page := None; pageListeners := ∅; pages := ∅; pageOrder := [];
                   activePageID := "" |} in
      let m1 := fold_left
                  (fun m pg =>
                     let activate := (slice_len (pageOrder m) =? 0)
                                     && String.eqb (activePageID m) "" in
                     registerPage m (Some pg) activate)
                  pgs m0 in
      match pageOrder m1 with
      | first :: _ =>
          if String.eqb (activePageID m1) "" then setActivePage m1 first false else m1
      | [] => m1
      end
  end.

(** What [ensureBrowser] does to the registry.  The liveness probe and the
    two recovery tiers talk to the driver; their result is one of: the page
    answered, a context was (re)created with the given pages, or every
    attempt failed after [cleanupCurrentContext] had run. *)
Inductive EnsureOutcome : Type :=
| Alive
| Recovered (ctxPages : list Page)
| Unrecoverable (err : error).

Definition ensureBrowser (m : Manager) (o : EnsureOutcome) : Manager * option error :=
  match o with
  | Alive => (m, None)
  | Recovered pgs => (rebuildPageTracking (cleanupCurrentContext m) (Some pgs), None)
  | Unrecoverable e => (cleanupCurrentContext m, Some e)
  end.

(** How a registry command ends: [nil], an error, or a nil-handle panic. *)
Inductive Outcome : Type :=
| Ok
| Err (e : error)
| Panic.

Section WithDriver.
Context `{GoText}.

(** What the driver answers for [page.Title()] and [page.URL()] at the time
    of the call. *)
Variable pageTitle : Page -> string.
Variable pageURL : Page -> string.

(** ListOpenPages returns metadata about all tracked tabs. *)
Fixpoint listFrom (m : Manager) (idx : Z) (order : list string) : list TabInfo.t :=
  match order with
  | [] => []
  | pageID :: rest =>
      match pages m !! pageID with
      | None => listFrom m (idx + 1) rest
      | Some pg =>
          let title := pageTitle pg in
          let title := if String.eqb title "" then "Unknown" else title in
          {| TabInfo.Index := idx + 1; TabInfo.Title := title; TabInfo.URL := pageURL pg;
             TabInfo.Active := String.eqb pageID (activePageID m) |}
          :: listFrom m (idx + 1) rest
      end
  end.

Definition ListOpenPages (m : Manager) : list TabInfo.t := listFrom m 0 (pageOrder m).

(** The title/URL search of [SwitchToPage]; [m.pages[id]] of an untracked id
    is a nil handle, and calling [Title] on it panics. *)
Fixpoint switchByMatch (m : Manager) (lower target : string) (order : list string)
  : Manager * Outcome :=
  match order with
  | [] => (m, Err ("no page matches target " +:+ Quote target))
  | id :: rest =>
      match pages m !! id with
      | None => (m, Panic)
      | Some pg =>
          if Contains (ToLower (pageTitle pg)) lower || Contains (ToLower (pageURL pg)) lower
          then (setActivePage m id true, Ok)
          else switchByMatch m lower target rest
      end
  end.

(** SwitchToPage selects a browser tab either by index or substring match on
    title/URL. *)
Definition SwitchToPage (m : Manager) (o : EnsureOutcome) (target : string)
  : Manager * Outcome :=
  match ensureBrowser m o with
  | (m, Some err) => (m, Err ("browser not available: " +:+ err))
  | (m, None) =>
      match last (pageOrder m) with
      | None => (m, Err "no open pages to switch")
      | Some nextID =>
          let target := TrimSpace target in
          if String.eqb target "" then (setActivePage m nextID true, Ok)
          else
            match Atoi target with
            | Some idx =>
                if (idx <? 1) || (idx >? slice_len (pageOrder m))
                then (m, Err ("tab index " +:+ itoa idx +:+ " out of range"))
                else
                  match pageOrder m !! Z.to_nat (idx - 1) with
                  | Some id => (setActivePage m id true, Ok)
                  | None => (m, Panic)
                  end
            | None => switchByMatch m (ToLower target) target (pageOrder m)
            end
      end
  end.

End WithDriver.

(** The commands and notifications that touch the registry. *)
Inductive RegistryOp : Type :=
| OpPageOpened (pg : option Page)                     (* OnPage: registerPage(p, true) *)
| OpRegister (pg : option Page) (activate : bool)
| OpPageClosed (pg : option Page)                     (* OnClose: handlePageClosed(p) *)
| OpSwitchTab (o : EnsureOutcome) (target : string)
      (pageTitle pageURL : Page -> string)
| OpEnsure (o : EnsureOutcome)                        (* any command's ensureBrowser *)
| OpRebuild (ctxPages : option (list Page))
| OpCleanup.

Definition applyOp `{GoText} (m : Manager) (op : RegistryOp) : Manager :=
  match op with
  | OpPageOpened pg => registerPage m pg true
  | OpRegister pg activate => registerPage m pg activate
  | OpPageClosed pg => handlePageClosed m pg
  | OpSwitchTab o target title url => (SwitchToPage title url m o target).1
  | OpEnsure o => (ensureBrowser m o).1
  | OpRebuild ctxPages => rebuildPageTracking m ctxPages
  | OpCleanup => cleanupCurrentContext m
  end.

End browser.

(** ** Package [internal/ai]: the decision record *)

Module ai.

Record DecisionResponse : Type := mkDecisionResponse {
  Action : string;
  Selector : string;
  Text : string;
  URL : string;
  Reasoning : string;
  IsComplete : bool;
  NextStep : string;
  NeedsConfirm : bool
}.

(** The zero value [DecisionResponse{}]. *)
Definition zero : DecisionResponse :=
  {| Action := ""; Selector := ""; Text := ""; URL := ""; Reasoning := "";
     IsComplete := false; NextStep := ""; NeedsConfirm := false |}.

End ai.

(** [encoding/json] on a [DecisionResponse] and the [%+v] verb, taken as
    given: [jsonUnmarshal] is [json.Unmarshal([]byte(content), &decision)]
    on a zero-valued [decision], its error text on the right. *)
Class GoJSON : Type := {
  jsonUnmarshal : string -> ai.DecisionResponse + GoStrings.error;
  jsonMarshal : ai.DecisionResponse -> string;
  fmtPlusV : ai.DecisionResponse -> string
}.

(** ** Package [internal/security]: the confirmation request *)

Module security.

Record DestructiveAction : Type := mkDestructiveAction {
  Type_ : string;
  Description : string;
  Target : string;
  Severity : string
}.

End security.

(** ** The environment

    Every call that leaves the repository is a [Call]; the environment
    answers it knowing the calls made so far (most recent first), and the
    embedded code threads the growing trace.  [ensureBrowser], the element
    extraction behind [GetPageContent], [ListOpenPages], [SwitchToPage],
    [PlanTask] and the polling loop [waitForCaptchaSolution] are represented
    by their results; the registry side of the first three is embedded in
    [browser]. *)

Module world.
Import GoStrings.

Inductive ChatResult : Type :=
| ChatError (err : error)
| ChatChoices (contents : list string).

Inductive Call : Type :=
(* the Playwright driver, through the active page *)
| EnsureBrowser
| PageGoto (url : string)
| PageClick (selector : string)
| PageFill (selector text : string)
| PageFocus (selector : string)
| PageType (selector text : string)
| KeyboardPress (key : string)
| PageWaitForLoadState
| PageSnapshot
| ListOpenPages
| SwitchToPage (target : string)
(* the OpenAI client *)
| CreateChatCompletion (system user : string)
| PlanTask (task pageContext : string)
(* the process *)
| StdinReadLine
| Stdout (text : string)
| Log (text : string)
| Sleep (seconds : Z)
| WaitForCaptchaSolution.

Definition Resp (c : Call) : Type :=
  match c with
  | EnsureBrowser | PageGoto _ | PageClick _ | PageFill _ _ | PageFocus _
  | PageType _ _ | KeyboardPress _ | PageWaitForLoadState | SwitchToPage _
  | WaitForCaptchaSolution => option error
  | PageSnapshot => browser.PageContent.t
  | ListOpenPages => list browser.TabInfo.t
  | CreateChatCompletion _ _ => ChatResult
  | PlanTask _ _ => (list string * option error)%type
  | StdinReadLine => (string * option error)%type
  | Stdout _ | Log _ | Sleep _ => unit
  end.

Definition Trace : Type := list Call.

Definition Env : Type := forall (h : Trace) (c : Call), Resp c.

(** A computation reads and extends the trace; [None] means that a loop
    without a bound ran out of the fuel it was given. *)
Definition M (A : Type) : Type := Trace -> option (A * Trace).

Definition ret {A} (a : A) : M A := fun h => Some (a, h).

Definition bind {A B} (m : M A) (k : A -> M B) : M B :=
  fun h => match m h with
           | Some (a, h') => k a h'
           | None => None
           end.

Definition call (env : Env) (c : Call) : M (Resp c) :=
  fun h => Some (env h c, c :: h).

Definition when (b : bool) (m : M unit) : M unit := if b then m else ret tt.

End world.

Declare Scope world_scope.
Delimit Scope world_scope with world.
Notation "x <- m ;; k" := (world.bind m (fun x => k))
  (at level 100, m at next level, right associativity) : world_scope.
Notation "m ;;; k" := (world.bind m (fun _ => k))
  (at level 100, right associativity) : world_scope.

(** ** [browser.Manager]: the action methods *)

Module manager.
Import GoStrings world.
Local Open Scope world_scope.

Section Methods.
Context `{GoText}.
Variable env : Env.

Definition normalizeURL (url : string) : string :=
  let url := TrimSpace url in
  if String.eqb url "" then url
  else if HasPrefix url "http://" || HasPrefix url "https://" then url
  else "https://" +:+ url.

(** [strings.Contains(errMsg, "Page closed") || strings.Contains(errMsg, "page closed")] *)
Definition pageClosed (errMsg : string) : bool :=
  Contains errMsg "Page closed" || Contains errMsg "page closed".

(** Navigate goes to a specific URL *)
Definition Navigate (url : string) : M (option error) :=
  e <- call env EnsureBrowser ;;
  match e with
  | Some err => ret (Some ("browser not available: " +:+ err))
  | None =>
      let url := normalizeURL url in
      g <- call env (PageGoto url) ;;
      match g with
      | Some err =>
          if pageClosed err then
            call env (Log ("Warning: page closed during navigation to " +:+ url
                           +:+ ": " +:+ err +:+ nl)) ;;;
            ret (Some "page closed during navigation (possibly due to CAPTCHA) - retrying may help")
          else ret (Some ("failed to navigate to " +:+ url +:+ ": " +:+ err))
      | None => ret None
      end
  end.

(** The shape shared by Click, Fill, Focus, TypeText and PressKey. *)
Definition pageAction (op : Call) (answer : Resp op -> option error)
    (what failure : string) : M (option error) :=
  e <- call env EnsureBrowser ;;
  match e with
  | Some err => ret (Some ("browser not available: " +:+ err))
  | None =>
      r <- call env op ;;
      match answer r with
      | Some err =>
          if pageClosed err then
            call env (Log ("Warning: page closed during " +:+ what
                           +:+ " (possibly CAPTCHA): " +:+ err +:+ nl)) ;;;
            ret None
          else ret (Some (failure +:+ ": " +:+ err))
      | None => ret None
      end
  end.

(** Click clicks on an element by selector *)
Definition Click (selector : string) : M (option error) :=
  pageAction (PageClick selector) id "click" "failed to click element".

(** Fill fills a form field *)
Definition Fill (selector text : string) : M (option error) :=
  pageAction (PageFill selector text) id "fill" "failed to fill form".

(** Focus brings focus to an element *)
Definition Focus (selector : string) : M (option error) :=
  pageAction (PageFocus selector) id "focus" "failed to focus element".

(** TypeText types into an element *)
Definition TypeText (selector text : string) : M (option error) :=
  pageAction (PageType selector text) id "type" "failed to type text".

(** PressKey sends a keyboard key press *)
Definition PressKey (key : string) : M (option error) :=
  pageAction (KeyboardPress key) id "key press" "failed to press key".

(** WaitForNavigation: no [ensureBrowser] here. *)
Definition WaitForNavigation : M (option error) :=
  w <- call env PageWaitForLoadState ;;
  match w with
  | Some err =>
      if pageClosed err then
        call env (Log ("Warning: page closed during wait (possibly due to CAPTCHA): "
                       +:+ err +:+ nl)) ;;;
        ret None
      else ret (Some ("failed to wait for navigation: " +:+ err))
  | None => ret None
  end.

(** GetPageContent: after [ensureBrowser] the extraction never fails (a
    failing title, element query or body read is replaced by a default). *)
Definition emptyPageContent : browser.PageContent.t :=
  {| browser.PageContent.Title := ""; browser.PageContent.URL := "";
     browser.PageContent.Elements := []; browser.PageContent.MainText := "" |}.

Definition GetPageContent : M (browser.PageContent.t * option error) :=
  e <- call env EnsureBrowser ;;
  match e with
  | Some err => ret (emptyPageContent, Some ("browser not available: " +:+ err))
  | None => pc <- call env PageSnapshot ;; ret (pc, None)
  end.

End Methods.
End manager.

(** ** [security.Validator] and [security.LogAction] *)

Module validator.
Import GoStrings world security.
Local Open Scope world_scope.

Section Validator.
Context `{GoText}.
Variable env : Env.

Definition RequestConfirmation (action : DestructiveAction) : M (bool * option error) :=
  call env (Stdout (nl +:+ "⚠️  SECURITY CONFIRMATION REQUIRED" +:+ nl)) ;;;
  call env (Stdout ("Action Type: " +:+ Type_ action +:+ " (" +:+ Severity action
                    +:+ " severity)" +:+ nl)) ;;;
  call env (Stdout ("Description: " +:+ Description action +:+ nl)) ;;;
  when (negb (String.eqb (Target action) ""))
       (call env (Stdout ("Target: " +:+ Target action +:+ nl))) ;;;
  call env (Stdout (nl +:+ "Do you want to proceed? (yes/no): ")) ;;;
  line <- call env StdinReadLine ;;
  let '(response, err) := line in
  match err with
  | Some e => ret (false, Some e)
  | None =>
      let response := ToLower (TrimSpace response) in
      ret (String.eqb response "yes" || String.eqb response "y", None)
  end.

Definition LogAction (actionType description : string) (approved : bool) : M unit :=
  let status := if approved then "APPROVED" else "DENIED" in
  call env (Stdout ("[SECURITY LOG] " +:+ status +:+ " - Type: " +:+ actionType
                    +:+ ", Description: " +:+ description +:+ nl)).

End Validator.
End validator.

(** ** [ai.Client.MakeDecision] *)

Module client.
Import GoStrings world ai.
Local Open Scope world_scope.

Section Client.
Context `{GoText} `{GoJSON}.
Variable env : Env.

(** The fence stripping of [MakeDecision]: what is handed to the decoder. *)
Definition stripFence (raw : string) : string :=
  let content := TrimSpace raw in
  if HasPrefix content "```" then
    match SplitN_nl_2 content with
    | (_, Some rest) =>
        let content := TrimSpace rest in
        match LastIndex content "```" with
        | Some idx => TrimSpace (slice_to content idx)
        | None => content
        end
    | (_, None) => content
    end
  else content.

(** The synthetic decision of the parse-failure branch. *)
Definition errorDecision (reasoning : string) : DecisionResponse :=
  {| Action := "error"; Selector := ""; Text := ""; URL := ""; Reasoning := reasoning;
     IsComplete := false; NextStep := ""; NeedsConfirm := false |}.

Definition MakeDecision (systemPrompt userInput : string)
  : M (DecisionResponse * option error) :=
  resp <- call env (CreateChatCompletion systemPrompt userInput) ;;
  match resp with
  | ChatError err => ret (zero, Some ("failed to call OpenAI: " +:+ err))
  | ChatChoices [] => ret (zero, Some "empty response from OpenAI")
  | ChatChoices (raw :: _) =>
      match jsonUnmarshal (stripFence raw) with
      | inr err => ret (errorDecision raw, Some ("failed to parse decision JSON: " +:+ err))
      | inl decision => ret (decision, None)
      end
  end.

End Client.
End client.

(** ** Package [internal/agent] *)

Module agent.
Import GoInt GoStrings world ai ctxmgr.
Local Open Scope world_scope.

(** The fields of [Agent] that the task loop reads or writes; the browser
    manager, the AI client and the validator are reached through the
    environment. *)
Record Agent : Type := mkAgent {
  contextMgr : ContextManager;
  currentTask : string;
  maxIterations : Z;
  verbose : bool
}.

Definition NewAgent (verbose : bool) : Agent :=
  {| contextMgr := NewContextManager 8000 20; currentTask := "";
     maxIterations := 20; verbose := verbose |}.

Definition set_contextMgr (a : Agent) (cm : ContextManager) : Agent :=
  {| contextMgr := cm; currentTask := currentTask a; maxIterations := maxIterations a;
     verbose := verbose a |}.

Definition set_currentTask (a : Agent) (task : string) : Agent :=
  {| contextMgr := contextMgr a; currentTask := task; maxIterations := maxIterations a;
     verbose := verbose a |}.

(** The system prompt of [analyzeAndDecide]. *)
Definition analyzeSystemPrompt : string :=
"You are an intelligent web automation agent. Your task is to complete user requests by interacting with web pages.
You can:
- Click on buttons and links (action " +:+ dq +:+ "click" +:+ dq +:+ ")
- Fill or type into form fields (actions " +:+ dq +:+ "fill" +:+ dq +:+ " or " +:+ dq +:+ "type" +:+ dq +:+ "; provide text to enter)
- Focus an element before typing if necessary (action " +:+ dq +:+ "focus" +:+ dq +:+ ")
- Navigate to URLs (action " +:+ dq +:+ "navigate" +:+ dq +:+ ")
- Switch between open tabs (action " +:+ dq +:+ "switch_tab" +:+ dq +:+ "; specify tab index or a fragment of the tab title/URL)
- Press keyboard keys (action " +:+ dq +:+ "press" +:+ dq +:+ "; set text to the key name, e.g. " +:+ dq +:+ "Enter" +:+ dq +:+ ")
- Read page content
- Wait for page load or manual intervention (action " +:+ dq +:+ "wait" +:+ dq +:+ ")

IMPORTANT INSTRUCTIONS:
- If you encounter a CAPTCHA or security challenge, use the " +:+ dq +:+ "wait" +:+ dq +:+ " action to give the user time to solve it manually. Do NOT use " +:+ dq +:+ "error" +:+ dq +:+ ".
- After waiting, try to navigate again or continue the task.
- Be systematic, logical, and report when the task is complete.
- If no progress can be made after several retries on the same page, only then use " +:+ dq +:+ "error" +:+ dq +:+ " action.".

(** The two fixed parts of the user input of [analyzeAndDecide] around the
    page description. *)
Definition analyzeUserHead : string := "

Current page state:
".

Definition analyzeUserTail : string := "

Based on the page content, what should be the next action? Respond with a clear decision.
Return a JSON object with:
- action: the action to take (navigate, click, fill, focus, type, press, switch_tab, wait, complete, error)
- selector: CSS selector for the element (if clicking or filling)
- text: text to fill (if filling a form)
- url: URL to navigate to (if navigating)
- reasoning: explanation of your decision
- is_complete: whether the task is complete
- needs_confirm: whether this action needs user confirmation
".

Definition analyzeUserInput (task pageDescription : string) : string :=
  "Current task: " +:+ task +:+ analyzeUserHead +:+ pageDescription +:+ analyzeUserTail.

(** The system prompt of a plan step. *)
Definition stepSystemPrompt : string :=
"You are an intelligent web automation agent. Provide a single concise action to accomplish the given step on the current page.
Valid actions: navigate, click, fill, focus, type, press, wait, switch_tab, complete, error.
Use " +:+ dq +:+ "focus" +:+ dq +:+ " before typing if needed, " +:+ dq +:+ "type" +:+ dq +:+ " for freeform text entry (text field provided in the decision), and " +:+ dq +:+ "press" +:+ dq +:+ " for keyboard keys like Enter.
Use " +:+ dq +:+ "switch_tab" +:+ dq +:+ " when you must operate on a different browser tab (specify tab index or part of the title/URL).".

Definition stepUserInput (task step pageDescription : string) : string :=
  "Task: " +:+ task +:+ nl +:+ "Plan step: " +:+ step +:+ nl +:+ "Current page:" +:+ nl
  +:+ pageDescription +:+ nl +:+ nl +:+ "Return a single JSON decision as before.".

(** The element lines of [buildPageDescription], [i] the index of the head. *)
Fixpoint elementLines (i : Z) (elems : list browser.ElementInfo.t) : string :=
  match elems with
  | [] => EmptyString
  | elem :: rest =>
      (itoa (i + 1) +:+ ". [" +:+ browser.ElementInfo.Type_ elem +:+ "] "
       +:+ browser.ElementInfo.Text elem +:+ " (selector: "
       +:+ browser.ElementInfo.Selector elem +:+ ")" +:+ nl)
      +:+ elementLines (i + 1) rest
  end.

Fixpoint tabLines (tabs : list browser.TabInfo.t) : string :=
  match tabs with
  | [] => EmptyString
  | tab :: rest =>
      let state := if browser.TabInfo.Active tab then "*" else " " in
      ("[" +:+ state +:+ "] " +:+ itoa (browser.TabInfo.Index tab) +:+ ". "
       +:+ browser.TabInfo.Title tab +:+ " (" +:+ browser.TabInfo.URL tab +:+ ")" +:+ nl)
      +:+ tabLines rest
  end.

Definition buildPageDescription (pageContent : browser.PageContent.t)
    (tabs : list browser.TabInfo.t) : string :=
  let desc := "Title: " +:+ browser.PageContent.Title pageContent +:+ nl
              +:+ "URL: " +:+ browser.PageContent.URL pageContent +:+ nl +:+ nl
              +:+ "Interactive Elements:" +:+ nl in
  let desc := desc +:+ elementLines 0 (browser.PageContent.Elements pageContent) in
  if slice_len tabs >? 0
  then (desc +:+ (nl +:+ "Open Tabs:" +:+ nl)) +:+ tabLines tabs
  else desc.

Definition blockedPatterns : list string :=
  [ "captcha"; "showcaptcha"; "challenge"; "security check"; "verify"; "bot-check";
    "robot"; "access denied"; "403"; "blocked" ].

(** The eviction loop of [analyzeAndDecide]:
    [for !CanAddTokens(needed) { RemoveOldest(1) }].  [fuel] bounds the
    number of times the condition is evaluated. *)
Fixpoint makeRoom (fuel : nat) (cm : ContextManager) (needed : Z) : option ContextManager :=
  match fuel with
  | O => None
  | S fuel' =>
      if CanAddTokens (tokenCounter cm) needed then Some cm
      else makeRoom fuel' (RemoveOldest cm 1) needed
  end.

Section Agent.
Context `{GoText} `{GoJSON}.
Variable env : Env.

Definition isBlockedPage (pageContent : browser.PageContent.t) : bool :=
  let url := ToLower (browser.PageContent.URL pageContent) in
  let title := ToLower (browser.PageContent.Title pageContent) in
  existsb (fun pattern => Contains url pattern || Contains title pattern) blockedPatterns.

Definition executeAction (a : Agent) (decision : DecisionResponse) : M (option error) :=
  gate <-
    (if NeedsConfirm decision then
       let destructiveAction :=
         {| security.Type_ := Action decision;
            security.Description := Reasoning decision;
            security.Target := "";
            security.Severity := "high" |} in
       answer <- validator.RequestConfirmation env destructiveAction ;;
       let '(approved, err) := answer in
       match err with
       | Some e => ret (Some ("confirmation check failed: " +:+ e))
       | None =>
           validator.LogAction env (Action decision) (Reasoning decision) approved ;;;
           if negb approved then ret (Some "action denied by user") else ret None
       end
     else ret None) ;;
  match gate with
  | Some e => ret (Some e)
  | None =>
      let action := ToLower (Action decision) in
      if String.eqb action "navigate" then
        if negb (String.eqb (URL decision) "") then
          r <- manager.Navigate env (URL decision) ;;
          match r with
          | Some err =>
              if Contains err "page closed" then
                when (verbose a) (call env (Log ("Navigate: " +:+ err +:+ " (will retry)" +:+ nl))) ;;;
                ret None
              else ret (Some err)
          | None => manager.WaitForNavigation env ;;; ret None
          end
        else ret None
      else if String.eqb action "click" then
        if negb (String.eqb (Selector decision) "") then
          r <- manager.Click env (Selector decision) ;;
          match r with
          | Some err => ret (Some err)
          | None => manager.WaitForNavigation env ;;; ret None
          end
        else ret None
      else if String.eqb action "fill" || String.eqb action "input" then
        if negb (String.eqb (Selector decision) "") && negb (String.eqb (Text decision) "") then
          r <- manager.Fill env (Selector decision) (Text decision) ;;
          match r with
          | Some err => ret (Some err)
          | None => ret None
          end
        else ret None
      else if String.eqb action "focus" then
        if negb (String.eqb (Selector decision) "") then
          r <- manager.Focus env (Selector decision) ;;
          match r with
          | Some err => ret (Some err)
          | None => ret None
          end
        else ret None
      else if String.eqb action "type" then
        if negb (String.eqb (Selector decision) "") && negb (String.eqb (Text decision) "") then
          r <- manager.TypeText env (Selector decision) (Text decision) ;;
          match r with
          | Some err => ret (Some err)
          | None => ret None
          end
        else ret None
      else if String.eqb action "press" || String.eqb action "keypress"
              || String.eqb action "key" then
        if negb (String.eqb (Text decision) "") then
          r <- manager.PressKey env (Text decision) ;;
          match r with
          | Some err => ret (Some err)
          | None => ret None
          end
        else ret None
      else if String.eqb action "switch_tab" || String.eqb action "switch" then
        let target := Text decision in
        let target := if String.eqb target "" then URL decision else target in
        r <- call env (SwitchToPage target) ;;
        match r with
        | Some err => ret (Some err)
        | None => ret None
        end
      else if String.eqb action "wait" then
        call env (Sleep 2) ;;; ret None
      else if String.eqb action "complete" then
        ret None
      else if String.eqb action "error" then
        call env (Sleep 1) ;;; ret None
      else ret (Some ("unknown action: " +:+ Action decision))
  end.

(** [analyzeAndDecide]; the pair with the decision is the agent as the call
    leaves it.  The error result is always [nil]. *)
Definition analyzeAndDecide (fuel : nat) (a : Agent) (pageContent : browser.PageContent.t)
  : M (DecisionResponse * option error * Agent) :=
  tabs <- call env ListOpenPages ;;
  let pageDescription := buildPageDescription pageContent tabs in
  let systemPrompt := analyzeSystemPrompt in
  let userInput := analyzeUserInput (currentTask a) pageDescription in
  let cm := AddMessage (contextMgr a) "system" systemPrompt in
  let cm := AddMessage cm "user" userInput in
  let needed := add (add (EstimateTokens systemPrompt) (EstimateTokens userInput)) 400 in
  match makeRoom fuel cm needed with
  | None => fun _ => None
  | Some cm =>
      made <- client.MakeDecision env systemPrompt userInput ;;
      let '(decision, err) := made in
      match err with
      | Some e =>
          call env (Log ("AI MakeDecision error: " +:+ e)) ;;;
          ret (client.errorDecision e, None, set_contextMgr a cm)
      | None =>
          let cm :=
            if negb (String.eqb (Reasoning decision) "")
            then AddMessage cm "assistant" (Reasoning decision)
            else AddMessage cm "assistant" (jsonMarshal decision) in
          let promptTokens := add (EstimateTokens systemPrompt) (EstimateTokens userInput) in
          let completionTokens := EstimateTokens (Reasoning decision) in
          let '(tc, addErr) := Add (tokenCounter cm) promptTokens completionTokens in
          let cm := set_tokenCounter cm tc in
          cm <- match addErr with
                | Some e =>
                    when (verbose a)
                      (call env (Log ("Token limit exceeded after add: " +:+ e
                                      +:+ ". Pruning history..." +:+ nl))) ;;;
                    let cm := RemoveOldest cm 1 in
                    let '(tc, _) := Add (tokenCounter cm) promptTokens completionTokens in
                    ret (set_tokenCounter cm tc)
                | None => ret cm
                end ;;
          when (verbose a) (call env (Log ("AI Decision: " +:+ fmtPlusV decision +:+ nl))) ;;;
          ret (decision, None, set_contextMgr a cm)
      end
  end.

(** The fallback loop of [ExecuteTask] (iterative mode): [remaining] counts
    the iterations still allowed by [iteration < a.maxIterations]. *)
Fixpoint iterateLoop (fuel : nat) (remaining : nat) (iteration : Z) (a : Agent)
  : M (option error * Agent) :=
  match remaining with
  | O =>
      ret (Some ("max iterations (" +:+ itoa (maxIterations a)
                 +:+ ") reached without completing task: " +:+ currentTask a), a)
  | S remaining' =>
      when (verbose a)
        (call env (Log (nl +:+ "=== Iteration " +:+ itoa (iteration + 1) +:+ " ===" +:+ nl))) ;;;
      got <- manager.GetPageContent env ;;
      let '(pageContent, err) := got in
      match err with
      | Some e => ret (Some ("failed to get page content: " +:+ e), a)
      | None =>
          if isBlockedPage pageContent then
            call env (Log ("CAPTCHA detected on " +:+ browser.PageContent.URL pageContent
                           +:+ ". Waiting for you to solve it..." +:+ nl)) ;;;
            w <- call env WaitForCaptchaSolution ;;
            match w with
            | Some e => ret (Some ("CAPTCHA wait failed: " +:+ e), a)
            | None =>
                call env (Log ("CAPTCHA solved, continuing task..." +:+ nl)) ;;;
                iterateLoop fuel remaining' (iteration + 1) a
            end
          else
            decided <- analyzeAndDecide fuel a pageContent ;;
            let '(decision, err, a) := decided in
            match err with
            | Some e => ret (Some ("decision making failed: " +:+ e), a)
            | None =>
                when (verbose a)
                  (call env (Log ("Decision: " +:+ Reasoning decision +:+ nl))) ;;;
                if IsComplete decision then
                  when (verbose a) (call env (Log ("Task completed successfully" +:+ nl))) ;;;
                  ret (None, a)
                else
                  r <- executeAction a decision ;;
                  match r with
                  | Some e =>
                      when (verbose a)
                        (call env (Log ("Action failed, attempting recovery: " +:+ e +:+ nl))) ;;;
                      iterateLoop fuel remaining' (iteration + 1) a
                  | None =>
                      call env (Sleep 1) ;;;
                      iterateLoop fuel remaining' (iteration + 1) a
                  end
            end
      end
  end.

(** The loop over the plan ([for idx, step := range steps]); [total] is
    [len(steps)] of the whole plan.  [Some] is an early [return]. *)
Fixpoint planLoop (total idx : Z) (steps : list string) (a : Agent)
  : M (option error * Agent) :=
  match steps with
  | [] => ret (None, a)
  | step :: rest =>
      when (verbose a)
        (call env (Log (nl +:+ "--- Executing plan step " +:+ itoa (idx + 1) +:+ "/"
                        +:+ itoa total +:+ ": " +:+ step +:+ nl))) ;;;
      got <- manager.GetPageContent env ;;
      let '(pc, err) := got in
      match err with
      | Some e => ret (Some ("failed to get page content: " +:+ e), a)
      | None =>
          solved <-
            (if isBlockedPage pc then
               call env (Log ("CAPTCHA detected on " +:+ browser.PageContent.URL pc
                              +:+ ". Waiting for you to solve it..." +:+ nl)) ;;;
               w <- call env WaitForCaptchaSolution ;;
               match w with
               | Some e => ret (Some ("CAPTCHA wait failed: " +:+ e))
               | None => call env (Log ("CAPTCHA solved, continuing plan..." +:+ nl)) ;;; ret None
               end
             else ret None) ;;
          match solved with
          | Some e => ret (Some e, a)
          | None =>
              let systemPrompt := stepSystemPrompt in
              tabs <- call env ListOpenPages ;;
              let userInput :=
                stepUserInput (currentTask a) step (buildPageDescription pc tabs) in
              let a := set_contextMgr a
                         (AddMessage (AddMessage (contextMgr a) "system" systemPrompt)
                                     "user" userInput) in
              made <- client.MakeDecision env systemPrompt userInput ;;
              let '(decision, err) := made in
              match err with
              | Some e =>
                  ret (Some ("MakeDecision failed for step " +:+ itoa (idx + 1) +:+ ": " +:+ e), a)
              | None =>
                  when (verbose a)
                    (call env (Log ("Decision for step " +:+ itoa (idx + 1) +:+ ": "
                                    +:+ Reasoning decision +:+ nl))) ;;;
                  r <- executeAction a decision ;;
                  match r with
                  | Some e =>
                      when (verbose a)
                        (call env (Log ("Execution of step " +:+ itoa (idx + 1) +:+ " failed: "
                                        +:+ e +:+ nl))) ;;;
                      planLoop total (idx + 1) rest a
                  | None =>
                      manager.WaitForNavigation env ;;;
                      call env (Sleep 1) ;;;
                      planLoop total (idx + 1) rest a
                  end
              end
          end
      end
  end.

Definition ExecuteTask (fuel : nat) (a : Agent) (task initialURL : string)
  : M (option error * Agent) :=
  let a := set_currentTask a task in
  let a := set_contextMgr a (ResetTokenCounter (ClearContext (contextMgr a))) in
  when (verbose a)
    (call env (Log ("Starting task: " +:+ task +:+ nl)) ;;;
     call env (Log ("Initial URL: " +:+ initialURL +:+ nl))) ;;;
  nav <-
    (if negb (String.eqb initialURL "") && negb (String.eqb initialURL "about:blank") then
       r <- manager.Navigate env initialURL ;;
       match r with
       | Some e => ret (Some ("failed to navigate to initial URL: " +:+ e))
       | None =>
           w <- manager.WaitForNavigation env ;;
           match w with
           | Some e => call env (Log ("Warning: navigation wait failed: " +:+ e +:+ nl)) ;;; ret None
           | None => ret None
           end
       end
     else ret None) ;;
  match nav with
  | Some e => ret (Some e, a)
  | None =>
      got <- manager.GetPageContent env ;;
      let '(pageContent, err) := got in
      match err with
      | Some e => ret (Some ("failed to get page content for planning: " +:+ e), a)
      | None =>
          tabs <- call env ListOpenPages ;;
          let pageDesc := buildPageDescription pageContent tabs in
          plan <- call env (PlanTask task pageDesc) ;;
          let '(steps, err) := plan in
          match err with
          | Some e =>
              when (verbose a)
                (call env (Log ("Planning failed, falling back to iterative mode: "
                                +:+ e +:+ nl))) ;;;
              iterateLoop fuel (Z.to_nat (maxIterations a)) 0 a
          | None =>
              when (verbose a)
                (call env (Log ("Plan generated with " +:+ itoa (slice_len steps)
                                +:+ " steps. Executing each step once." +:+ nl))) ;;;
              done <- planLoop (slice_len steps) 0 steps a ;;
              let '(err, a) := done in
              match err with
              | Some e => ret (Some e, a)
              | None =>
                  when (verbose a)
                    (call env (Log ("Plan completed (all steps attempted)." +:+ nl))) ;;;
                  ret (None, a)
              end
          end
      end
  end.

End Agent.
End agent.

(** ** [browser.Manager]: selectors for the extracted elements *)

Module selectors.
Import GoStrings.

(** [strings.ReplaceAll(s, old, new)] for a pattern [old] of one byte. *)
Fixpoint replaceByte (old : ascii) (new : string) (s : string) : string :=
  match s with
  | EmptyString => EmptyString
  | String c rest =>
      if Ascii.eqb c old then new +:+ replaceByte old new rest
      else String c (replaceByte old new rest)
  end.

Definition backslash : ascii := ascii_of_nat 92.
Definition quote : ascii := ascii_of_nat 34.

(** [cssEscapeAttrValue]: backslashes are doubled first, then every double
    quote gets a backslash in front. *)
Definition cssEscapeAttrValue (value : string) : string :=
  let value := replaceByte backslash (String backslash (String backslash EmptyString)) value in
  let value := replaceByte quote (String backslash (String quote EmptyString)) value in
  value.

(** What the driver answers about an element handle: its [id] and [name]
    attributes ([GetAttribute] returns a string and an error), the tag name
    that the script of [getTagName] evaluates to and the path that the
    script of [getSelector] evaluates to ([None] for an error or a value
    that is not a string). *)
Record ElementHandle : Type := mkElementHandle {
  attrId : string * option error;
  attrName : string * option error;
  evalTagName : option string;
  evalPath : option string
}.

(** [getTagName]; [None] is the nil handle. *)
Definition getTagName (element : option ElementHandle) : string :=
  match element with
  | None => EmptyString
  | Some el =>
      match evalTagName el with
      | Some tagStr => tagStr
      | None => EmptyString
      end
  end.

(** getSelector generates a CSS selector for an element: by [id], else by
    [name], else by the path that the script computes. *)
Definition getSelector (element : option ElementHandle) : string * option error :=
  match element with
  | None => (EmptyString, Some "nil element handle")
  | Some el =>
      let byPath :=
        match evalPath el with
        | Some selectorStr => (selectorStr, None)
        | None => (EmptyString, Some "failed to get selector")
        end in
      let byName :=
        match attrName el with
        | (name, None) =>
            if negb (String.eqb name "") then
              let tagName := getTagName element in
              let tagName := if String.eqb tagName "" then "*" else tagName in
              (tagName +:+ "[name=" +:+ dq +:+ cssEscapeAttrValue name +:+ dq +:+ "]", None)
            else byPath
        | (_, Some _) => byPath
        end in
      match attrId el with
      | (id, None) =>
          if negb (String.eqb id "") then
            ("[id=" +:+ dq +:+ cssEscapeAttrValue id +:+ dq +:+ "]", None)
          else byName
      | (_, Some _) => byName
      end
  end.

(** An element as a query returns it: the handle with what the driver
    answers for the text content and the attributes that [extractElements]
    reads (a failing read leaves the empty string, and the error is
    dropped). *)
Record Queried : Type := mkQueried {
  handle : ElementHandle;
  textContent : string;
  attrHref : string;
  attrPlaceholder : string;
  attrType : string;
  attrAriaLabel : string
}.

(** The five loops of [extractElements]; [i] is the index of the head in
    its query result. *)
Fixpoint extractButtons (i : Z) (buttons : list Queried) : list browser.ElementInfo.t :=
  match buttons with
  | [] => []
  | btn :: rest =>
      let text := textContent btn in
      let selector := (getSelector (Some (handle btn))).1 in
      if negb (String.eqb text "") then
        {| browser.ElementInfo.Type_ := "button"; browser.ElementInfo.Text := text;
           browser.ElementInfo.Href := ""; browser.ElementInfo.Selector := selector;
           browser.ElementInfo.Index := i |} :: extractButtons (i + 1) rest
      else extractButtons (i + 1) rest
  end.

Fixpoint extractLinks (i : Z) (links : list Queried) : list browser.ElementInfo.t :=
  match links with
  | [] => []
  | link :: rest =>
      let text := textContent link in
      let href := attrHref link in
      let selector := (getSelector (Some (handle link))).1 in
      if negb (String.eqb text "") then
        {| browser.ElementInfo.Type_ := "link"; browser.ElementInfo.Text := text;
           browser.ElementInfo.Href := href; browser.ElementInfo.Selector := selector;
           browser.ElementInfo.Index := i |} :: extractLinks (i + 1) rest
      else extractLinks (i + 1) rest
  end.

Fixpoint extractInputs (i : Z) (inputs : list Queried) : list browser.ElementInfo.t :=
  match inputs with
  | [] => []
  | input :: rest =>
      let placeholder := attrPlaceholder input in
      let inputType := attrType input in
      let selector := (getSelector (Some (handle input))).1 in
      let label := if String.eqb placeholder "" then inputType else placeholder in
      {| browser.ElementInfo.Type_ := "input"; browser.ElementInfo.Text := label;
         browser.ElementInfo.Href := ""; browser.ElementInfo.Selector := selector;
         browser.ElementInfo.Index := i |} :: extractInputs (i + 1) rest
  end.

Fixpoint extractTextareas (i : Z) (textareas : list Queried) : list browser.ElementInfo.t :=
  match textareas with
  | [] => []
  | ta :: rest =>
      let placeholder := attrPlaceholder ta in
      let selector := (getSelector (Some (handle ta))).1 in
      let label := if String.eqb placeholder "" then "textarea" else placeholder in
      {| browser.ElementInfo.Type_ := "textarea"; browser.ElementInfo.Text := label;
         browser.ElementInfo.Href := ""; browser.ElementInfo.Selector := selector;
         browser.ElementInfo.Index := i |} :: extractTextareas (i + 1) rest
  end.

Fixpoint extractEditables (i : Z) (editables : list Queried) : list browser.ElementInfo.t :=
  match editables with
  | [] => []
  | elem :: rest =>
      let selector := (getSelector (Some (handle elem))).1 in
      let label := attrAriaLabel elem in
      let label := if String.eqb label "" then attrPlaceholder elem else label in
      let label := if String.eqb label "" then "text field" else label in
      {| browser.ElementInfo.Type_ := "editable"; browser.ElementInfo.Text := label;
         browser.ElementInfo.Href := ""; browser.ElementInfo.Selector := selector;
         browser.ElementInfo.Index := i |} :: extractEditables (i + 1) rest
  end.

(** extractElements finds all interactive elements on the page; the
    arguments are the results of its five queries (empty for a query that
    fails). *)
Definition extractElements (buttons links inputs textareas contentEditable : list Queried)
  : list browser.ElementInfo.t * option error :=
  let elements := [] in
  let elements := elements ++ extractButtons 0 buttons in
  let elements := elements ++ extractLinks 0 links in
  let elements := elements ++ extractInputs 0 inputs in
  let elements := elements ++ extractTextareas 0 textareas in
  let elements := elements ++ extractEditables 0 contentEditable in
  (elements, None).

End selectors.

(** ** [ai.Client.PlanTask] *)

(** [json.Unmarshal] into a [[]string]: the slice as the decoder leaves it
    (empty when the text is not JSON at all, possibly filled in part when
    an element has the wrong type) and the error. *)
Class GoJSONSteps : Type := {
  unmarshalSteps : string -> list string * option GoStrings.error
}.

Module planner.
Import GoStrings world.
Local Open Scope world_scope.

(** [strings.Split(s, "\n")] *)
Fixpoint Split_nl (s : string) : list string :=
  match s with
  | EmptyString => [EmptyString]
  | String c rest =>
      if Ascii.eqb c (ascii_of_nat 10) then EmptyString :: Split_nl rest
      else
        match Split_nl rest with
        | first :: others => String c first :: others
        | [] => [String c EmptyString]
        end
  end.

(** [strings.TrimPrefix(s, prefix)] *)
Definition TrimPrefix (s prefix : string) : string :=
  if String.prefix prefix s
  then String.substring (String.length prefix) (String.length s - String.length prefix) s
  else s.

Definition isDigit (c : ascii) : bool :=
  (48 <=? nat_of_ascii c)%nat && (nat_of_ascii c <=? 57)%nat.

Definition planSystemPrompt : string :=
  "You convert user tasks into step-by-step actionable plans for a browser automation agent.".

Definition planPrompt (task pageContext : string) : string :=
  "You are a planner for a web automation agent." +:+ nl
  +:+ "Given the high-level task: " +:+ dq +:+ task +:+ dq +:+ nl
  +:+ "and the current page context (brief):" +:+ nl
  +:+ pageContext +:+ nl +:+ nl
  +:+ "Break the task into a concise, ordered list of concrete steps that an automated agent can perform in sequence. Each step should be a single short sentence or instruction. Return the result as a JSON array of strings only. Example:"
  +:+ nl
  +:+ "[" +:+ dq +:+ "Open the images tab" +:+ dq +:+ ", " +:+ dq +:+ "Click the first image"
  +:+ dq +:+ ", " +:+ dq +:+ "Save image URL" +:+ dq +:+ "]" +:+ nl.

Section Planner.
Context `{GoText} `{GoJSONSteps}.
Variable env : Env.

(** What the fallback does to a line that is not blank, already trimmed:
    a leading "- ", then a leading "*", then a leading digit and dot go. *)
Definition cleanLine (l : string) : string :=
  let l := TrimPrefix l "- " in
  let l := TrimPrefix l "*" in
  match l with
  | String c0 (String c1 (String c2 rest)) =>
      if Ascii.eqb c1 "." && isDigit c0 then TrimSpace (String c2 rest) else l
  | _ => l
  end.

(** The loop over the lines of a reply that is not a JSON array; [steps] is
    the slice being appended to. *)
Fixpoint planLines (steps : list string) (lines : list string) : list string :=
  match lines with
  | [] => steps
  | l :: rest =>
      let l := TrimSpace l in
      if String.eqb l "" then planLines steps rest
      else planLines (steps ++ [cleanLine l]) rest
  end.

Definition PlanTask (task pageContext : string) : M (list string * option error) :=
  resp <- call env (CreateChatCompletion planSystemPrompt (planPrompt task pageContext)) ;;
  match resp with
  | ChatError err => ret ([], Some ("failed to call OpenAI for planning: " +:+ err))
  | ChatChoices [] => ret ([], Some "empty planning response from OpenAI")
  | ChatChoices (content :: _) =>
      let raw := TrimSpace content in
      let raw :=
        if HasPrefix raw "```" then
          match SplitN_nl_2 raw with
          | (_, Some rest) =>
              let raw := TrimSpace rest in
              match LastIndex raw "```" with
              | Some idx => TrimSpace (slice_to raw idx)
              | None => raw
              end
          | (_, None) => raw
          end
        else raw in
      match unmarshalSteps raw with
      | (steps, None) => ret (steps, None)
      | (steps, Some err) =>
          let steps := planLines steps (Split_nl raw) in
          if slice_len steps =? 0
          then ret ([], Some ("failed to parse plan JSON: " +:+ err))
          else ret (steps, None)
      end
  end.

End Planner.
End planner.

(** ** A runnable instance of the library parameters

    Used to run the embedding on concrete inputs: ASCII case folding and
    trimming (what [strings.ToLower] and [strings.TrimSpace] do on ASCII
    text), decimal [Atoi], a [%q] without escapes, and a JSON codec for
    decisions whose strings need no escaping; the decoder knows exactly the
    documents in [sample.documents] and rejects everything else. *)

Module sample.
Import GoInt GoStrings ai.

Definition lowerAscii (c : ascii) : ascii :=
  let n := nat_of_ascii c in
  if (65 <=? n)%nat && (n <=? 90)%nat then ascii_of_nat (n + 32) else c.

Fixpoint toLower (s : string) : string :=
  match s with
  | EmptyString => EmptyString
  | String c s' => String (lowerAscii c) (toLower s')
  end.

Definition isSpace (c : ascii) : bool :=
  let n := nat_of_ascii c in
  ((9 <=? n)%nat && (n <=? 13)%nat) || (n =? 32)%nat.

Fixpoint trimLeft (s : string) : string :=
  match s with
  | EmptyString => EmptyString
  | String c s' => if isSpace c then trimLeft s' else s
  end.

(** Trailing white space goes when everything after a position is space. *)
Fixpoint trimRight (s : string) : string :=
  match s with
  | EmptyString => EmptyString
  | String c s' =>
      match trimRight s' with
      | EmptyString => if isSpace c then EmptyString else String c EmptyString
      | t => String c t
      end
  end.

Definition trimSpace (s : string) : string := trimRight (trimLeft s).

Fixpoint digits (acc : Z) (s : string) : option Z :=
  match s with
  | EmptyString => Some acc
  | String c s' =>
      let n := nat_of_ascii c in
      if (48 <=? n)%nat && (n <=? 57)%nat
      then digits (10 * acc + Z.of_nat (n - 48)) s'
      else None
  end.

Definition atoi (s : string) : option Z :=
  let signed (sign : Z) (body : string) :=
    match body with
    | EmptyString => None
    | _ => match digits 0 body with
           | Some n => if (int_min <=? sign * n) && (sign * n <=? int_max)
                       then Some (sign * n) else None
           | None => None
           end
    end in
  match s with
  | String "-" body => signed (-1) body
  | String "+" body => signed 1 body
  | _ => signed 1 s
  end.

#[export] Instance asciiText : GoText :=
  {| TrimSpace := trimSpace; ToLower := toLower; Atoi := atoi;
     Quote := fun s => dq +:+ s +:+ dq |}.

Definition jsonString (s : string) : string := dq +:+ s +:+ dq.
Definition jsonBool (b : bool) : string := if b then "true" else "false".

Definition omitEmpty (key value : string) : string :=
  if String.eqb value EmptyString then EmptyString
  else "," +:+ jsonString key +:+ ":" +:+ jsonString value.

Definition marshal (d : DecisionResponse) : string :=
  "{" +:+ jsonString "action" +:+ ":" +:+ jsonString (Action d)
  +:+ omitEmpty "selector" (Selector d)
  +:+ omitEmpty "text" (Text d)
  +:+ omitEmpty "url" (URL d)
  +:+ "," +:+ jsonString "reasoning" +:+ ":" +:+ jsonString (Reasoning d)
  +:+ "," +:+ jsonString "is_complete" +:+ ":" +:+ jsonBool (IsComplete d)
  +:+ omitEmpty "next_step" (NextStep d)
  +:+ "," +:+ jsonString "needs_confirm" +:+ ":" +:+ jsonBool (NeedsConfirm d)
  +:+ "}".

(** A decision that asks to wait and never completes the task. *)
Definition waitDecision : DecisionResponse :=
  {| Action := "wait"; Selector := ""; Text := ""; URL := "";
     Reasoning := "page still loading"; IsComplete := false; NextStep := "";
     NeedsConfirm := false |}.

(** A navigation without a destination. *)
Definition navigateNowhere : DecisionResponse :=
  {| Action := "navigate"; Selector := ""; Text := ""; URL := "";
     Reasoning := "open the site"; IsComplete := false; NextStep := "";
     NeedsConfirm := false |}.

Definition clickLogin : DecisionResponse :=
  {| Action := "click"; Selector := "#login"; Text := ""; URL := "";
     Reasoning := "log in"; IsComplete := false; NextStep := "";
     NeedsConfirm := false |}.

(** An action that [executeAction] does not know. *)
Definition danceDecision : DecisionResponse :=
  {| Action := "dance"; Selector := ""; Text := ""; URL := "";
     Reasoning := "celebrate"; IsComplete := false; NextStep := "";
     NeedsConfirm := false |}.

Definition documents : list DecisionResponse :=
  [waitDecision; navigateNowhere; clickLogin; danceDecision].

Definition unmarshal (content : string) : DecisionResponse + error :=
  match List.find (fun d => String.eqb content (marshal d)) documents with
  | Some d => inl d
  | None => inr "invalid character in JSON document"
  end.

#[export] Instance sampleJSON : GoJSON :=
  {| jsonUnmarshal := unmarshal; jsonMarshal := marshal; fmtPlusV := marshal |}.

(** An environment in which the browser is alive, every page operation
    succeeds on a blank page without tabs, nobody is at the keyboard,
    planning fails, and the oracle answers every request with [reply]. *)
Definition blankPage : browser.PageContent.t :=
  {| browser.PageContent.Title := "Example Domain";
     browser.PageContent.URL := "https://example.com/";
     browser.PageContent.Elements := [];
     browser.PageContent.MainText := "" |}.

Definition steady (reply : string) : world.Env :=
  fun h c =>
    match c return world.Resp c with
    | world.EnsureBrowser => None
    | world.PageGoto _ => None
    | world.PageClick _ => None
    | world.PageFill _ _ => None
    | world.PageFocus _ => None
    | world.PageType _ _ => None
    | world.KeyboardPress _ => None
    | world.PageWaitForLoadState => None
    | world.PageSnapshot => blankPage
    | world.ListOpenPages => []
    | world.SwitchToPage _ => None
    | world.CreateChatCompletion _ _ => world.ChatChoices [reply]
    | world.PlanTask _ _ => ([], Some "planning request failed")
    | world.StdinReadLine => (EmptyString, Some "EOF")
    | world.Stdout _ => tt
    | world.Log _ => tt
    | world.Sleep _ => tt
    | world.WaitForCaptchaSolution => None
    end.

(** The same, with a plan made of the given steps. *)
Definition planned (steps : list string) (reply : string) : world.Env :=
  fun h c =>
    match c return world.Resp c with
    | world.PlanTask _ _ => (steps, None)
    | c => steady reply h c
    end.




End sample.

(** A decoder of plans for the runs below: it knows the JSON text of a few
    plans and rejects everything else without decoding any of it. *)
Module sample_plans.
Import GoStrings.

Fixpoint joinComma (items : list string) : string :=
  match items with
  | [] => EmptyString
  | [item] => item
  | item :: rest => item +:+ "," +:+ joinComma rest
  end.

Definition marshalSteps (steps : list string) : string :=
  "[" +:+ joinComma (map sample.jsonString steps) +:+ "]".

Definition plans : list (list string) :=
  [ []; ["Open the images tab"; "Click the first image"; "Save image URL"] ].

Definition unmarshalPlan (content : string) : list string * option error :=
  match List.find (fun steps => String.eqb content (marshalSteps steps)) plans with
  | Some steps => (steps, None)
  | None => ([], Some "invalid character in JSON document")
  end.

#[export] Instance samplePlans : GoJSONSteps := {| unmarshalSteps := unmarshalPlan |}.

End sample_plans.

(** More inputs for the runs below. *)
Module sample_more.
Import GoStrings ai.

(** A decision that clicks and declares the task complete. *)
Definition doneDecision : DecisionResponse :=
  {| Action := "click"; Selector := "#submit"; Text := ""; URL := "";
     Reasoning := "submit the form"; IsComplete := true; NextStep := "";
     NeedsConfirm := false |}.

(** A deletion that asks for confirmation. *)
Definition deleteAccount : DecisionResponse :=
  {| Action := "click"; Selector := "#delete-account"; Text := ""; URL := "";
     Reasoning := "delete the account"; IsComplete := false; NextStep := "";
     NeedsConfirm := true |}.

(** The codec of [sample], knowing [doneDecision] as well. *)
Definition unmarshalDone (content : string) : DecisionResponse + error :=
  if String.eqb content (sample.marshal doneDecision) then inl doneDecision
  else sample.unmarshal content.

Definition doneJSON : GoJSON :=
  {| jsonUnmarshal := unmarshalDone; jsonMarshal := sample.marshal;
     fmtPlusV := sample.marshal |}.

(** The same as [sample.steady], except that the browser cannot be brought
    up. *)
Definition down (reply : string) : world.Env :=
  fun h c =>
    match c return world.Resp c with
    | world.EnsureBrowser => Some "failed to restart browser context: no display"
    | c => sample.steady reply h c
    end.

(** What the driver reports for the pages of the runs: the title and the
    URL carry the address of the handle. *)
Definition titleOf (pg : browser.Page) : string := "Tab " +:+ browser.page_addr pg.
Definition urlOf (pg : browser.Page) : string :=
  "https://example.com/" +:+ browser.page_addr pg.

Definition tab1 : browser.Page := {| browser.page_addr := "c000010000" |}.
Definition tab2 : browser.Page := {| browser.page_addr := "c000020000" |}.

(** Two element handles with an [id]. *)
Definition loginButton : selectors.ElementHandle :=
  {| selectors.attrId := ("login", None); selectors.attrName := ("", None);
     selectors.evalTagName := Some "button"; selectors.evalPath := Some "button:nth-of-type(1)" |}.

Definition searchBox : selectors.ElementHandle :=
  {| selectors.attrId := ("q", None); selectors.attrName := ("q", None);
     selectors.evalTagName := Some "input"; selectors.evalPath := Some "input:nth-of-type(1)" |}.

End sample_more.

(** * Part II: properties *)

(** ** Arithmetic and string facts *)

Module GoFacts.
Import GoInt GoStrings.

Lemma wrap_in_range (z : Z) : in_range z -> wrap z = z.
Proof.
  unfold in_range, int_min, int_max, wrap. intros Hz.
  rewrite Z.mod_small by lia. lia.
Qed.

Lemma wrap_range (z : Z) : in_range (wrap z).
Proof.
  unfold in_range, int_min, int_max, wrap.
  pose proof (Z.mod_pos_bound (z + 2 ^ 63) (2 ^ 64) ltac:(lia)). lia.
Qed.

Lemma wrap_add_l (a b : Z) : wrap (wrap a + b) = wrap (a + b).
Proof.
  unfold wrap. f_equal.
  replace ((a + 2 ^ 63) mod 2 ^ 64 - 2 ^ 63 + b + 2 ^ 63)
    with ((a + 2 ^ 63) mod 2 ^ 64 + b) by lia.
  rewrite Zplus_mod_idemp_l. f_equal. lia.
Qed.

Lemma wrap_add_r (a b : Z) : wrap (a + wrap b) = wrap (a + b).
Proof. rewrite (Z.add_comm a (wrap b)), wrap_add_l. f_equal. lia. Qed.

Lemma length_append (s1 s2 : string) :
  String.length (s1 +:+ s2) = (String.length s1 + String.length s2)%nat.
Proof. induction s1 as [|c s1 IH]; simpl; [reflexivity | now rewrite IH]. Qed.



Lemma Contains_here (s substr : string) :
  String.prefix substr s = true -> Contains s substr = true.
Proof. intros Hp. destruct s; simpl in *; rewrite Hp; reflexivity. Qed.

End GoFacts.

(** ** The token counter and the message history *)

Module ctxmgr_props.
Import GoInt GoStrings GoFacts ctxmgr.

(** A run of [Add] calls from a given counter, errors ignored as a caller
    that keeps going would. *)
Definition AddAll (tc : TokenCounter) (calls : list (Z * Z)) : TokenCounter :=
  fold_left (fun tc pc => (Add tc pc.1 pc.2).1) calls tc.

Definition sumZ (l : list Z) : Z := fold_right Z.add 0 l.

(** A run of [AddMessage] calls. *)
Definition AddMessages (cm : ContextManager) (msgs : list Message) : ContextManager :=
  fold_left (fun cm msg => AddMessage cm (Role msg) (Content msg)) msgs cm.

Lemma Add_fst (tc : TokenCounter) (p c : Z) :
  (Add tc p c).1 =
  {| PromptTokens := add (PromptTokens tc) p;
     CompletionTokens := add (CompletionTokens tc) c;
     TotalTokens := add (add (PromptTokens tc) p) (add (CompletionTokens tc) c);
     MaxTokens := MaxTokens tc |}.
Proof. unfold Add. destruct (_ >? _); reflexivity. Qed.

Lemma Add_snd (tc : TokenCounter) (p c : Z) :
  (Add tc p c).2 = None <-> TotalTokens (Add tc p c).1 <= MaxTokens tc.
Proof.
  rewrite Add_fst. unfold Add. simpl.
  destruct (Z.gtb_spec (add (add (PromptTokens tc) p) (add (CompletionTokens tc) c))
              (MaxTokens tc)); simpl; split; intros; try lia; try discriminate; reflexivity.
Qed.

Lemma AddAll_snoc (tc : TokenCounter) (calls : list (Z * Z)) (pc : Z * Z) :
  AddAll tc (calls ++ [pc]) = (Add (AddAll tc calls) pc.1 pc.2).1.
Proof. unfold AddAll. rewrite fold_left_app. reflexivity. Qed.

Lemma sumZ_snoc (l : list Z) (x : Z) : sumZ (l ++ [x]) = sumZ l + x.
Proof. induction l as [|y l IH]; simpl; [lia | rewrite IH; lia]. Qed.

Lemma AddAll_counters (M : Z) (calls : list (Z * Z)) :
  let tc := AddAll (NewTokenCounter M) calls in
  PromptTokens tc = wrap (sumZ calls.*1) /\
  CompletionTokens tc = wrap (sumZ calls.*2) /\
  TotalTokens tc = wrap (sumZ calls.*1 + sumZ calls.*2) /\
  MaxTokens tc = M.
Proof.
  induction calls as [|pc calls IH] using rev_ind.
  - simpl. repeat split; reflexivity.
  - destruct IH as (HP & HC & _ & HM). cbv zeta.
    rewrite AddAll_snoc, Add_fst, !fmap_app. simpl.
    rewrite !sumZ_snoc, HP, HC, HM. unfold add.
    repeat split.
    + apply wrap_add_l.
    + apply wrap_add_l.
    + rewrite !wrap_add_l, wrap_add_r, <- !Z.add_assoc, wrap_add_l. reflexivity.
Qed.

Lemma keepFrom_drop (start i : Z) (l : list Message) :
  keepFrom start i l = drop (Z.to_nat (start - i)) l.
Proof.
  revert i. induction l as [|msg l IH]; intros i; simpl.
  - now rewrite drop_nil.
  - destruct (Z.leb_spec start i) as [Hle|Hgt].
    + rewrite IH. replace (Z.to_nat (start - i)) with 0%nat by lia.
      replace (Z.to_nat (start - (i + 1))) with 0%nat by lia. reflexivity.
    + rewrite IH. replace (Z.to_nat (start - i)) with (S (Z.to_nat (start - (i + 1)))) by lia.
      reflexivity.
Qed.

Lemma AddMessage_maxHistorySize (cm : ContextManager) (role content : string) :
  maxHistorySize (AddMessage cm role content) = maxHistorySize cm.
Proof. unfold AddMessage. destruct (_ >? _); reflexivity. Qed.

Lemma AddMessage_tokenCounter (cm : ContextManager) (role content : string) :
  tokenCounter (AddMessage cm role content) = tokenCounter cm.
Proof. unfold AddMessage. destruct (_ >? _); reflexivity. Qed.

(** One [AddMessage] on a history that respects a bound [0 <= K]: the new
    history is the old one with the message appended, cut to its last [K]. *)
Lemma AddMessage_window (cm : ContextManager) (role content : string) :
  0 <= maxHistorySize cm <= int_max ->
  slice_len (messages cm) <= maxHistorySize cm ->
  let ms := messages cm ++ [{| Role := role; Content := content |}] in
  messages (AddMessage cm role content)
  = drop (length ms - Z.to_nat (maxHistorySize cm)) ms.
Proof.
  intros HK Hlen ms. unfold AddMessage. fold ms.
  assert (Hms : slice_len ms = slice_len (messages cm) + 1).
  { unfold ms, slice_len. rewrite length_app. simpl. lia. }
  unfold slice_len in *.
  destruct (Z.gtb_spec (Z.of_nat (length ms)) (maxHistorySize cm)) as [Hgt|Hle]; simpl.
  - rewrite keepFrom_drop. f_equal. unfold sub.
    rewrite wrap_in_range by (unfold in_range, int_min, int_max in *; lia). lia.
  - replace (length ms - Z.to_nat (maxHistorySize cm))%nat with 0%nat by lia. reflexivity.
Qed.

Lemma AddMessages_window (K maxTokens : Z) (msgs : list Message) :
  0 <= K <= int_max ->
  let cm := AddMessages (NewContextManager maxTokens K) msgs in
  maxHistorySize cm = K /\
  messages cm = drop (length msgs - Z.to_nat K) msgs.
Proof.
  intros HK. induction msgs as [|msg msgs IH] using rev_ind.
  - simpl. split; reflexivity.
  - destruct IH as [IHK IHm]. cbv zeta. unfold AddMessages in *.
    rewrite fold_left_app. simpl.
    set (cm := fold_left _ msgs _) in *.
    split; [now rewrite AddMessage_maxHistorySize|].
    rewrite AddMessage_window.
    + rewrite IHK, IHm. destruct msg as [role content]. simpl.
      rewrite !drop_app, drop_drop, !length_app, !length_drop. simpl.
      f_equal; f_equal; lia.
    + now rewrite IHK.
    + rewrite IHK, IHm. unfold slice_len. rewrite length_drop. lia.
Qed.

(** C1 (counterexample): with maximum 10, [Add(8, 5)] reports failure, yet
    the counters have moved: the total is left at 13, above the maximum, and
    [RemainingTokens] is negative. *)
Lemma Add_failure_still_mutates :
  let tc := NewTokenCounter 10 in
  let r := Add tc 8 5 in
  r.2 = Some "token limit exceeded: 13/10" /\
  r.1 <> tc /\
  TotalTokens r.1 = 13 /\ MaxTokens r.1 = 10 /\
  RemainingTokens r.1 = -3.
Proof. cbv zeta. vm_compute. repeat split; congruence. Qed.

(** C1 (amended): for every counter with maximum [M] and every sequence of
    [Add] calls, each call adds its prompt and completion counts to the
    counters whether or not it succeeds (the counters are the wrapped sums
    of everything ever passed in), and it reports failure exactly when the
    total it leaves exceeds [M].  So the total is at most [M] (and
    [RemainingTokens] non-negative) after a successful call, and above [M]
    (and [RemainingTokens] negative) after a failed one. *)
Theorem Add_accounts_then_reports (M : Z) (calls : list (Z * Z)) (prompt completion : Z) :
  let tc := AddAll (NewTokenCounter M) calls in
  let r := Add tc prompt completion in
  PromptTokens r.1 = wrap (sumZ calls.*1 + prompt) /\
  CompletionTokens r.1 = wrap (sumZ calls.*2 + completion) /\
  TotalTokens r.1 = wrap (sumZ calls.*1 + prompt + (sumZ calls.*2 + completion)) /\
  MaxTokens r.1 = M /\
  (r.2 = None <-> TotalTokens r.1 <= M) /\
  (r.2 = None -> in_range (M - TotalTokens r.1) -> 0 <= RemainingTokens r.1) /\
  (r.2 <> None -> in_range (M - TotalTokens r.1) -> RemainingTokens r.1 < 0).
Proof.
  cbv zeta.
  destruct (AddAll_counters M calls) as (HP & HC & _ & HM).
  set (tc := AddAll (NewTokenCounter M) calls) in *.
  pose proof (Add_snd tc prompt completion) as Hsnd.
  pose proof (Add_fst tc prompt completion) as Hfst.
  destruct (Add tc prompt completion) as [tc' err]. simpl in *. subst tc'.
  unfold RemainingTokens, sub, add in *. simpl in *. rewrite HP, HC, HM in *.
  assert (HT : wrap (wrap (wrap (sumZ calls.*1) + prompt)
                     + wrap (wrap (sumZ calls.*2) + completion))
               = wrap (sumZ calls.*1 + prompt + (sumZ calls.*2 + completion))).
  { rewrite !wrap_add_l, wrap_add_r, <- !Z.add_assoc, wrap_add_l. reflexivity. }
  rewrite HT in *.
  set (T := wrap (sumZ calls.*1 + prompt + (sumZ calls.*2 + completion))) in *.
  repeat split.
  - apply wrap_add_l.
  - apply wrap_add_l.
  - apply Hsnd.
  - apply Hsnd.
  - intros Hok Hr. rewrite wrap_in_range by assumption. apply Hsnd in Hok. lia.
  - intros Herr Hr. rewrite wrap_in_range by assumption.
    destruct (Z.le_gt_cases T M) as [Hle|Hgt]; [|lia].
    exfalso. apply Herr. apply Hsnd. exact Hle.
Qed.

(** C6: a history configured with maximum entry count [K] holds, after any
    sequence of [AddMessage] calls, at most [K] entries, and they are
    exactly the last [K] messages appended, in arrival order (all of them
    when fewer than [K] were appended). *)
Theorem AddMessage_sliding_window (K maxTokens : Z) (msgs : list Message) :
  0 <= K <= int_max ->
  let cm := AddMessages (NewContextManager maxTokens K) msgs in
  slice_len (GetMessages cm) <= K /\
  GetMessages cm = drop (length msgs - Z.to_nat K) msgs /\
  (slice_len msgs <= K -> GetMessages cm = msgs).
Proof.
  intros HK. cbv zeta.
  destruct (AddMessages_window K maxTokens msgs HK) as [_ Hm].
  unfold GetMessages. rewrite Hm. unfold slice_len. rewrite length_drop.
  repeat split.
  - lia.
  - intros Hle. replace (length msgs - Z.to_nat K)%nat with 0%nat by lia. reflexivity.
Qed.

Lemma AddMessage_sliding_window_witness :
  let msgs := [ {| Role := "user"; Content := "a" |};
                {| Role := "assistant"; Content := "b" |};
                {| Role := "system"; Content := "c" |} ] in
  let cm := AddMessages (NewContextManager 8000 2) msgs in
  slice_len (GetMessages cm) <= 2 /\
  GetMessages cm = drop (length msgs - Z.to_nat 2) msgs /\
  (slice_len msgs <= 2 -> GetMessages cm = msgs).
Proof.
  apply (AddMessage_sliding_window 2 8000). unfold int_max. lia.
Defined.

(** A negative bound is not a count: every append then empties the history. *)
Lemma AddMessage_negative_bound (cm : ContextManager) (role content : string) :
  int_min <= maxHistorySize cm < 0 ->
  slice_len (messages cm) < int_max + maxHistorySize cm ->
  messages (AddMessage cm role content) = [].
Proof.
  intros HK Hlen. unfold AddMessage.
  set (ms := messages cm ++ _).
  assert (Hms : slice_len ms = slice_len (messages cm) + 1).
  { unfold ms, slice_len. rewrite length_app. simpl. lia. }
  unfold slice_len, int_min, int_max in *.
  destruct (Z.gtb_spec (Z.of_nat (length ms)) (maxHistorySize cm)) as [Hgt|Hle]; [|lia].
  simpl. rewrite keepFrom_drop. apply drop_ge. unfold sub.
  rewrite wrap_in_range by (unfold in_range, int_min, int_max; lia). lia.
Qed.

End ctxmgr_props.

(** ** The page registry *)

Module browser_props.
Import GoStrings browser.

(** The registry is consistent: the active id is empty or tracked, the
    active handle is the one filed under the active id, the ordering list
    lists exactly the tracked ids, each once, and no page is filed under
    the empty id. *)
Record Inv (m : Manager) : Prop := mkInv {
  inv_active : activePageID m = "" \/ is_Some (pages m !! activePageID m);
  inv_page : page m = pages m !! activePageID m;
  inv_nodup : NoDup (pageOrder m);
  inv_order : forall id, id ∈ pageOrder m <-> is_Some (pages m !! id);
  inv_empty : pages m !! "" = None
}.

Lemma pageIdentifier_nonempty (pg : Page) : pageIdentifier pg <> "".
Proof. unfold pageIdentifier. simpl. discriminate. Qed.

Lemma eqb_eq_dec (a b : string) : String.eqb a b = bool_decide (a = b).
Proof.
  destruct (String.eqb_spec a b) as [->|Hne].
  - now rewrite bool_decide_eq_true_2.
  - now rewrite bool_decide_eq_false_2.
Qed.

Lemma emptyManager_Inv : Inv emptyManager.
Proof.
  constructor; simpl.
  - now left.
  - now rewrite lookup_empty.
  - constructor.
  - intros id. rewrite lookup_empty. split; [intros Hin; inversion Hin | intros [? ?]; discriminate].
  - apply lookup_empty.
Qed.

Lemma cleanupCurrentContext_Inv (m : Manager) : Inv (cleanupCurrentContext m).
Proof. apply emptyManager_Inv. Qed.

(** [setActivePage] on a registry that is consistent except, possibly, for
    its active slot. *)
Lemma setActivePage_Inv (m : Manager) (id : string) (b : bool) :
  Inv m -> Inv (setActivePage m id b).
Proof.
  intros [Ha Hp Hn Ho He]. unfold setActivePage.
  destruct (pages m !! id) as [pg|] eqn:Hid; [|now constructor].
  constructor; simpl; try assumption.
  - right. rewrite Hid. eauto.
  - now rewrite Hid.
Qed.

Lemma setActivePage_active (m : Manager) (id : string) (b : bool) :
  is_Some (pages m !! id) -> activePageID (setActivePage m id b) = id.
Proof. intros [pg Hpg]. unfold setActivePage. now rewrite Hpg. Qed.

Lemma setActivePage_frame (m : Manager) (id : string) (b : bool) :
  pages (setActivePage m id b) = pages m /\
  pageOrder (setActivePage m id b) = pageOrder m.
Proof. unfold setActivePage. destruct (pages m !! id); split; reflexivity. Qed.

Lemma attachPageListeners_frame (m : Manager) (pg : option Page) :
  page (attachPageListeners m pg) = page m /\
  pages (attachPageListeners m pg) = pages m /\
  pageOrder (attachPageListeners m pg) = pageOrder m /\
  activePageID (attachPageListeners m pg) = activePageID m.
Proof.
  unfold attachPageListeners. destruct pg as [p|]; [|repeat split].
  destruct (decide _); repeat split.
Qed.

Lemma registerPage_Inv (m : Manager) (pg : option Page) (activate : bool) :
  Inv m -> Inv (registerPage m pg activate).
Proof.
  intros HI. unfold registerPage. destruct pg as [p|]; [|assumption].
  destruct (pages m !! pageIdentifier p) eqn:Hfresh; [assumption|].
  set (id := pageIdentifier p) in *.
  set (m1 := {| page := page m; pageListeners := pageListeners m;
                pages := <[id:=p]> (pages m); pageOrder := pageOrder m ++ [id];
                activePageID := activePageID m |}).
  assert (HI2 : Inv (attachPageListeners m1 (Some p))).
  { destruct HI as [Ha Hp Hn Ho He].
    destruct (attachPageListeners_frame m1 (Some p)) as (F1 & F2 & F3 & F4).
    constructor; rewrite ?F1, ?F2, ?F3, ?F4; simpl.
    - destruct Ha as [Ha|[pg' Ha]]; [now left|right].
      rewrite lookup_insert_ne; [eauto|]. intros ->. congruence.
    - rewrite Hp. destruct (decide (id = activePageID m)) as [Heq|Hne].
      + rewrite <- Heq, Hfresh. rewrite <- Heq in Ha.
        destruct Ha as [Ha|[? Ha]]; [|congruence].
        exfalso. now apply (pageIdentifier_nonempty p).
      + now rewrite lookup_insert_ne.
    - apply NoDup_app. split; [assumption|]. split.
      + intros x Hx Hx'. apply list_elem_of_singleton in Hx'. subst x.
        apply Ho in Hx. destruct Hx as [? Hx]. congruence.
      + apply NoDup_singleton.
    - intros x. rewrite elem_of_app, list_elem_of_singleton, Ho.
      destruct (decide (id = x)) as [->|Hne].
      + rewrite lookup_insert_eq. split; eauto.
      + rewrite lookup_insert_ne by assumption. split; [intros [?|?]; [assumption|congruence]|auto].
    - rewrite lookup_insert_ne; [assumption|]. apply pageIdentifier_nonempty. }
  destruct (_ || _); [now apply setActivePage_Inv|assumption].
Qed.

Lemma registerPage_order (m : Manager) (pg : Page) (activate : bool) :
  pages m !! pageIdentifier pg = None ->
  pageOrder (registerPage m (Some pg) activate) = pageOrder m ++ [pageIdentifier pg].
Proof.
  intros Hfresh. unfold registerPage. rewrite Hfresh.
  destruct (_ || _).
  - destruct (setActivePage_frame
                (attachPageListeners
                   {| page := page m; pageListeners := pageListeners m;
                      pages := <[pageIdentifier pg:=pg]> (pages m);
                      pageOrder := pageOrder m ++ [pageIdentifier pg];
                      activePageID := activePageID m |} (Some pg))
                (pageIdentifier pg) activate) as [_ ->].
    apply attachPageListeners_frame.
  - apply attachPageListeners_frame.
Qed.

Lemma removeFirst_notin (id : string) (l : list string) :
  id ∉ l -> removeFirst id l = l.
Proof.
  induction l as [|x l IH]; intros Hn; simpl; [reflexivity|].
  apply not_elem_of_cons in Hn as [Hne Hn].
  destruct (String.eqb_spec x id) as [->|_]; [congruence|]. now rewrite IH.
Qed.

Lemma removeFirst_elem_of (id x : string) (l : list string) :
  NoDup l -> x ∈ removeFirst id l <-> x ∈ l /\ x <> id.
Proof.
  induction l as [|y l IH]; intros Hnd; simpl.
  - split; [intros Hin; inversion Hin | intros [Hin _]; inversion Hin].
  - apply NoDup_cons in Hnd as [Hy Hnd].
    destruct (String.eqb_spec y id) as [->|Hne].
    + rewrite elem_of_cons. split.
      * intros Hx. split; [now right|]. intros ->. contradiction.
      * intros [[->|Hx] Hne]; [congruence|assumption].
    + rewrite !elem_of_cons, IH by assumption. split.
      * intros [->|[Hx Hxid]]; split; auto.
      * intros [[->|Hx] Hxid]; auto.
Qed.

Lemma removeFirst_NoDup (id : string) (l : list string) :
  NoDup l -> NoDup (removeFirst id l).
Proof.
  induction l as [|y l IH]; intros Hnd; simpl; [constructor|].
  apply NoDup_cons in Hnd as [Hy Hnd].
  destruct (String.eqb_spec y id) as [->|Hne]; [assumption|].
  apply NoDup_cons. split; [|now apply IH].
  rewrite removeFirst_elem_of by assumption. intros [? _]. contradiction.
Qed.

Lemma last_elem_of (l : list string) (x : string) : last l = Some x -> x ∈ l.
Proof.
  intros Hl. destruct l as [|y l] using rev_ind; [discriminate|].
  rewrite last_snoc in Hl. injection Hl as ->. apply elem_of_app. right. now left.
Qed.

(** The registry right after the bookkeeping of [handlePageClosed], with the
    active slot emptied when it held the closed page. *)
Lemma handlePageClosed_spec (m : Manager) (pg : Page) :
  Inv m ->
  let id := pageIdentifier pg in
  let m' := handlePageClosed m (Some pg) in
  Inv m' /\
  pageOrder m' = removeFirst id (pageOrder m) /\
  pages m' = delete id (pages m) /\
  (activePageID m = id -> activePageID m' = default "" (last (pageOrder m'))) /\
  (activePageID m <> id -> activePageID m' = activePageID m).
Proof.
  intros [Ha Hp Hn Ho He] id m'. subst m'. unfold handlePageClosed. fold id. simpl.
  assert (Hord : forall x, x ∈ removeFirst id (pageOrder m)
                           <-> is_Some (delete id (pages m) !! x)).
  { intros x. rewrite removeFirst_elem_of by assumption. rewrite Ho.
    destruct (decide (id = x)) as [->|Hne].
    - rewrite lookup_delete_eq. split; [intros [_ ?]; congruence|intros [? ?]; discriminate].
    - rewrite lookup_delete_ne by assumption. split; [intros [? _]; assumption|auto]. }
  assert (Hemp : delete id (pages m) !! "" = None).
  { rewrite lookup_delete_ne; [assumption|]. apply pageIdentifier_nonempty. }
  destruct (String.eqb_spec (activePageID m) id) as [Heq|Hne].
  - set (m2 := {| page := None; pageListeners := pageListeners m ∖ {[id]};
                  pages := delete id (pages m);
                  pageOrder := removeFirst id (pageOrder m); activePageID := "" |}).
    assert (HI2 : Inv m2).
    { constructor; simpl; auto using removeFirst_NoDup. }
    destruct (last (removeFirst id (pageOrder m))) as [lastID|] eqn:Hlast.
    + destruct (setActivePage_frame m2 lastID true) as [Fp Fo].
      split_and!.
      * now apply setActivePage_Inv.
      * now rewrite Fo.
      * now rewrite Fp.
      * intros _. rewrite Fo. simpl. rewrite Hlast. simpl.
        apply setActivePage_active. simpl. apply Hord. now apply last_elem_of.
      * intros Hc. contradiction.
    + split_and!; try assumption; try reflexivity; simpl.
      * intros _. now rewrite Hlast.
      * intros Hc. contradiction.
  - split_and!; simpl; auto.
    + constructor; simpl; auto using removeFirst_NoDup.
      * destruct Ha as [Ha|Ha]; [now left|right].
        rewrite lookup_delete_ne; [assumption|congruence].
      * rewrite Hp. rewrite lookup_delete_ne; [reflexivity|congruence].
    + intros Hc. contradiction.
Qed.

Lemma handlePageClosed_Inv (m : Manager) (pg : option Page) :
  Inv m -> Inv (handlePageClosed m pg).
Proof.
  intros HI. destruct pg as [p|]; [|assumption].
  apply (handlePageClosed_spec m p HI).
Qed.

Lemma rebuildPageTracking_Inv (m : Manager) (ctxPages : option (list Page)) :
  Inv m -> Inv (rebuildPageTracking m ctxPages).
Proof.
  intros HI. unfold rebuildPageTracking. destruct ctxPages as [pgs|]; [|assumption].
  set (m0 := {| page := None; pageListeners := ∅; pages := ∅; pageOrder := [];
                activePageID := "" |}).
  assert (H0 : Inv m0) by apply emptyManager_Inv.
  clearbody m0. clear HI m.
  set (step := fun (m : Manager) (pg : Page) => registerPage m (Some pg) _).
  assert (Hfold : Inv (fold_left step pgs m0)).
  { revert m0 H0. induction pgs as [|pg pgs IH]; intros m0 H0; simpl; [assumption|].
    apply IH. unfold step. now apply registerPage_Inv. }
  destruct (pageOrder (fold_left step pgs m0)); [assumption|].
  destruct (String.eqb _ _); [now apply setActivePage_Inv|assumption].
Qed.

Lemma ensureBrowser_Inv (m : Manager) (o : EnsureOutcome) :
  Inv m -> Inv (ensureBrowser m o).1.
Proof.
  intros HI. destruct o as [|pgs|e]; unfold ensureBrowser; cbn [fst].
  - assumption.
  - apply rebuildPageTracking_Inv, cleanupCurrentContext_Inv.
  - apply cleanupCurrentContext_Inv.
Qed.

Section Commands.
Context `{GoText}.

Lemma switchByMatch_Inv (title url : Page -> string) (m : Manager)
    (lower target : string) (order : list string) :
  Inv m -> Inv (switchByMatch title url m lower target order).1.
Proof.
  intros HI. induction order as [|id order IH]; simpl; [assumption|].
  destruct (pages m !! id); [|assumption].
  destruct (_ || _); [now apply setActivePage_Inv|assumption].
Qed.

Lemma SwitchToPage_Inv (title url : Page -> string) (m : Manager)
    (o : EnsureOutcome) (target : string) :
  Inv m -> Inv (SwitchToPage title url m o target).1.
Proof.
  intros HI. unfold SwitchToPage.
  pose proof (ensureBrowser_Inv m o HI) as HE.
  destruct (ensureBrowser m o) as [m1 [err|]]; simpl in *; [assumption|].
  destruct (last (pageOrder m1)); [|assumption].
  destruct (String.eqb _ _); [now apply setActivePage_Inv|].
  destruct (Atoi _) as [idx|].
  - destruct (_ || _); [assumption|].
    destruct (pageOrder m1 !! _); [now apply setActivePage_Inv|assumption].
  - now apply switchByMatch_Inv.
Qed.

Lemma applyOp_Inv (m : Manager) (op : RegistryOp) : Inv m -> Inv (applyOp m op).
Proof.
  intros HI. destruct op; simpl.
  - now apply registerPage_Inv.
  - now apply registerPage_Inv.
  - now apply handlePageClosed_Inv.
  - now apply SwitchToPage_Inv.
  - now apply ensureBrowser_Inv.
  - now apply rebuildPageTracking_Inv.
  - apply cleanupCurrentContext_Inv.
Qed.

Lemma reachable_Inv (ops : list RegistryOp) : Inv (fold_left applyOp ops emptyManager).
Proof.
  induction ops as [|op ops IH] using rev_ind; [apply emptyManager_Inv|].
  rewrite fold_left_app. simpl. now apply applyOp_Inv.
Qed.


End Commands.

(** The scenario of the specification: three pages opened one after the
    other, the third being active; it closes and the second takes over;
    closing the remaining pages one by one ends with no active page. *)
Definition p1 : Page := {| page_addr := "c000010000" |}.
Definition p2 : Page := {| page_addr := "c000020000" |}.
Definition p3 : Page := {| page_addr := "c000030000" |}.

Definition threeTabs : Manager :=
  registerPage (registerPage (registerPage emptyManager (Some p1) true) (Some p2) true)
               (Some p3) true.

Example close_active_of_three :
  activePageID threeTabs = pageIdentifier p3 /\
  activePageID (handlePageClosed threeTabs (Some p3)) = pageIdentifier p2 /\
  pageOrder (handlePageClosed threeTabs (Some p3)) = [pageIdentifier p1; pageIdentifier p2] /\
  activePageID (handlePageClosed (handlePageClosed (handlePageClosed threeTabs (Some p3))
                                                   (Some p2)) (Some p1)) = "".
Proof. vm_compute. repeat split. Qed.

End browser_props.

(** ** Computations against the environment *)

Module world_props.
Import GoStrings world.
Local Open Scope world_scope.

(** [m] always returns, having only added calls that satisfy [P]. *)
Definition adds (P : Call -> Prop) {A} (m : M A) : Prop :=
  forall h, exists a new, m h = Some (a, new ++ h) /\ Forall P new.

Lemma adds_ret (P : Call -> Prop) {A} (a : A) : adds P (ret a).
Proof. intros h. exists a, []. split; [reflexivity|constructor]. Qed.

Lemma adds_call (P : Call -> Prop) (env : Env) (c : Call) : P c -> adds P (call env c).
Proof.
  intros Hc h. exists (env h c), [c]. split; [reflexivity|].
  constructor; [assumption|constructor].
Qed.

Lemma adds_bind (P : Call -> Prop) {A B} (m : M A) (k : A -> M B) :
  adds P m -> (forall a, adds P (k a)) -> adds P (bind m k).
Proof.
  intros Hm Hk h. destruct (Hm h) as (a & new & Hrun & Hnew).
  destruct (Hk a (new ++ h)) as (b & new' & Hrun' & Hnew').
  exists b, (new' ++ new). unfold bind. rewrite Hrun, Hrun'.
  split; [now rewrite app_assoc|]. now apply Forall_app.
Qed.

Lemma adds_when (P : Call -> Prop) (b : bool) (m : M unit) :
  adds P m -> adds P (when b m).
Proof. intros Hm. destruct b; [assumption|apply adds_ret]. Qed.

Lemma adds_weaken (P Q : Call -> Prop) {A} (m : M A) :
  (forall c, P c -> Q c) -> adds P m -> adds Q m.
Proof.
  intros HPQ Hm h. destruct (Hm h) as (a & new & Hrun & Hnew).
  exists a, new. split; [assumption|]. eapply Forall_impl; eauto.
Qed.

Lemma bind_run {A B} (m : M A) (k : A -> M B) (h h' : Trace) (a : A) :
  m h = Some (a, h') -> bind m k h = k a h'.
Proof. intros Hm. unfold bind. now rewrite Hm. Qed.


Lemma bind_call {B} (env : Env) (c : Call) (k : Resp c -> M B) (h : Trace) :
  bind (call env c) k h = k (env h c) (c :: h).
Proof. reflexivity. Qed.

Lemma bind_ret {A B} (a : A) (k : A -> M B) (h : Trace) : bind (ret a) k h = k a h.
Proof. reflexivity. Qed.

Lemma bind_assoc {A B C} (m : M A) (f : A -> M B) (g : B -> M C) (h : Trace) :
  bind (bind m f) g h = bind m (fun x => bind (f x) g) h.
Proof. unfold bind. destruct (m h) as [[a h']|]; reflexivity. Qed.

(** A requests to the oracle. *)
Definition isChat (c : Call) : bool :=
  match c with
  | CreateChatCompletion _ _ => true
  | _ => false
  end.

Definition notChat (c : Call) : Prop := isChat c = false.

Definition isSnapshot (c : Call) : bool :=
  match c with
  | PageSnapshot => true
  | _ => false
  end.

Definition isLog (c : Call) : bool :=
  match c with
  | Log _ => true
  | _ => false
  end.

(** Neither a request to the oracle nor a page snapshot. *)
Definition plain (c : Call) : Prop := isChat c || isSnapshot c = false.

Lemma plain_notChat (c : Call) : plain c -> notChat c.
Proof. unfold plain, notChat. destruct (isChat c); [discriminate|reflexivity]. Qed.




(** The oracle requests of a trace, as (system prompt, user input). *)
Fixpoint chatCalls (h : Trace) : list (string * string) :=
  match h with
  | [] => []
  | CreateChatCompletion s u :: rest => (s, u) :: chatCalls rest
  | _ :: rest => chatCalls rest
  end.

Lemma chatCalls_app (h1 h2 : Trace) : chatCalls (h1 ++ h2) = chatCalls h1 ++ chatCalls h2.
Proof.
  induction h1 as [|c h1 IH]; [reflexivity|].
  destruct c; simpl; rewrite ?IH; reflexivity.
Qed.

Lemma chatCalls_quiet (h : Trace) : Forall notChat h -> chatCalls h = [].
Proof.
  induction 1 as [|c h Hc _ IH]; [reflexivity|].
  destruct c; simpl; try assumption. discriminate Hc.
Qed.

(** Unfolds the structure of a computation to show that it always returns
    and adds only calls satisfying the predicate at hand. *)
Ltac adds_step :=
  first
    [ apply adds_ret
    | match goal with
      | |- adds ?P (call ?env ?c) =>
          refine (adds_call P env c _); first [reflexivity | exact I]
      end
    | apply adds_when
    | apply adds_bind; [|intros ?]
    | match goal with
      | |- adds _ (match ?x with _ => _ end) => destruct x
      | |- adds _ (if ?b then _ else _) => destruct b
      | |- adds _ (let '(_, _) := ?x in _) => destruct x
      end ].

End world_props.

(** ** [browser.Manager] action methods and [executeAction] *)

Module action_props.
Import GoStrings GoFacts world ai world_props.
Local Open Scope world_scope.

Section Actions.
Context `{GoText}.
Variable env : Env.

Lemma Navigate_adds (P : Call -> Prop) (url : string) :
  (forall c, plain c -> P c) -> adds P (manager.Navigate env url).
Proof.
  intros HP. apply (adds_weaken plain); [exact HP|].
  unfold manager.Navigate. repeat adds_step.
Qed.


Lemma WaitForNavigation_adds (P : Call -> Prop) :
  (forall c, plain c -> P c) -> adds P (manager.WaitForNavigation env).
Proof.
  intros HP. apply (adds_weaken plain); [exact HP|].
  unfold manager.WaitForNavigation. repeat adds_step.
Qed.





(** The error a driver operation answered with, if any. *)
Definition failure (c : Call) : Resp c -> option error :=
  match c return Resp c -> option error with
  | EnsureBrowser | PageGoto _ | PageClick _ | PageFill _ _ | PageFocus _
  | PageType _ _ | KeyboardPress _ | PageWaitForLoadState | SwitchToPage _
  | WaitForCaptchaSolution => fun r => r
  | _ => fun _ => None
  end.







End Actions.
End action_props.

Module executeAction_props.
Import GoStrings GoFacts world ai world_props action_props.
Local Open Scope world_scope.

Section Dispatching.
Context `{GoText}.
Variable env : Env.

(** A recognised action that lacks the parameter its handler needs. *)
Definition missingParameter (d : DecisionResponse) : Prop :=
  let action := ToLower (Action d) in
  (action = "navigate" /\ URL d = "") \/
  ((action = "click" \/ action = "focus") /\ Selector d = "") \/
  ((action = "fill" \/ action = "type") /\ (Selector d = "" \/ Text d = "")) \/
  (action = "press" /\ Text d = "").

(** Without a confirmation flag, [executeAction] is its [switch]. *)
Lemma executeAction_unconfirmed (a : agent.Agent) (d : DecisionResponse) (h : Trace) :
  NeedsConfirm d = false ->
  agent.executeAction env a d h =
  (let action := ToLower (Action d) in
   if String.eqb action "navigate" then
     if negb (String.eqb (URL d) "") then
       r <- manager.Navigate env (URL d) ;;
       match r with
       | Some err =>
           if Contains err "page closed" then
             when (agent.verbose a)
               (call env (Log ("Navigate: " +:+ err +:+ " (will retry)" +:+ nl))) ;;;
             ret None
           else ret (Some err)
       | None => manager.WaitForNavigation env ;;; ret None
       end
     else ret None
   else if String.eqb action "click" then
     if negb (String.eqb (Selector d) "") then
       r <- manager.Click env (Selector d) ;;
       match r with
       | Some err => ret (Some err)
       | None => manager.WaitForNavigation env ;;; ret None
       end
     else ret None
   else if String.eqb action "fill" || String.eqb action "input" then
     if negb (String.eqb (Selector d) "") && negb (String.eqb (Text d) "") then
       r <- manager.Fill env (Selector d) (Text d) ;;
       match r with
       | Some err => ret (Some err)
       | None => ret None
       end
     else ret None
   else if String.eqb action "focus" then
     if negb (String.eqb (Selector d) "") then
       r <- manager.Focus env (Selector d) ;;
       match r with
       | Some err => ret (Some err)
       | None => ret None
       end
     else ret None
   else if String.eqb action "type" then
     if negb (String.eqb (Selector d) "") && negb (String.eqb (Text d) "") then
       r <- manager.TypeText env (Selector d) (Text d) ;;
       match r with
       | Some err => ret (Some err)
       | None => ret None
       end
     else ret None
   else if String.eqb action "press" || String.eqb action "keypress"
           || String.eqb action "key" then
     if negb (String.eqb (Text d) "") then
       r <- manager.PressKey env (Text d) ;;
       match r with
       | Some err => ret (Some err)
       | None => ret None
       end
     else ret None
   else if String.eqb action "switch_tab" || String.eqb action "switch" then
     let target := Text d in
     let target := if String.eqb target "" then URL d else target in
     r <- call env (SwitchToPage target) ;;
     match r with
     | Some err => ret (Some err)
     | None => ret None
     end
   else if String.eqb action "wait" then
     call env (Sleep 2) ;;; ret None
   else if String.eqb action "complete" then
     ret None
   else if String.eqb action "error" then
     call env (Sleep 1) ;;; ret None
   else ret (Some ("unknown action: " +:+ Action d))) h.
Proof. intros Hc. unfold agent.executeAction. rewrite Hc. reflexivity. Qed.

(** C10: a decision without confirmation flag whose action is recognised
    but whose required parameter is absent (navigate without url, click or
    focus without selector, fill or type without selector or text, press
    without text) makes [executeAction] return [nil] without a single call
    to the browser or to anything else: the trace is unchanged. *)
Theorem executeAction_missing_parameter_is_noop
    (a : agent.Agent) (d : DecisionResponse) (h : Trace) :
  NeedsConfirm d = false ->
  missingParameter d ->
  agent.executeAction env a d h = Some (None, h).
Proof.
  intros Hc Hmiss. rewrite executeAction_unconfirmed by assumption. cbv zeta.
  unfold missingParameter in Hmiss. cbv zeta in Hmiss.
  destruct Hmiss as [[Ha Hp]|[[[Ha|Ha] Hp]|[[[Ha|Ha] [Hp|Hp]]|[Ha Hp]]]];
    rewrite Ha, ?Hp; cbn [String.eqb Ascii.eqb Bool.eqb orb andb negb];
    try reflexivity;
    destruct (String.eqb (Selector d) ""); reflexivity.
Qed.


End Dispatching.
End executeAction_props.

(** ** [ExecuteTask]: plan mode *)

Module plan_props.
Import GoStrings GoFacts world ai world_props action_props.
Local Open Scope world_scope.

(** [m] always returns, only extends the trace and leaves the oracle alone. *)
Definition quiet {A} (m : M A) : Prop :=
  forall h, exists a h',
    m h = Some (a, h') /\ chatCalls h' = chatCalls h /\ h `suffix_of` h'.

Lemma adds_quiet {A} (m : M A) : adds notChat m -> quiet m.
Proof.
  intros Hm h. destruct (Hm h) as (a & new & Hrun & Hnew).
  exists a, (new ++ h). split; [assumption|]. split.
  - now rewrite chatCalls_app, (chatCalls_quiet new Hnew).
  - now apply suffix_app_r.
Qed.

Lemma quiet_log (env : Env) (b : bool) (text : string) : quiet (when b (call env (Log text))).
Proof. apply adds_quiet. repeat adds_step. Qed.

Ltac run H := rewrite (bind_run _ _ _ _ _ H); cbv beta iota.


Section Plan.
Context `{GoText} `{GoJSON}.
Variable env : Env.

(** The browser stays available. *)
Definition browserAlive : Prop := forall h, env h EnsureBrowser = None.

(** Every wait for a challenge ends with the challenge solved. *)
Definition challengesSolved : Prop := forall h, env h WaitForCaptchaSolution = None.


(** The oracle answers every request with a reply that does not decode. *)
Definition oracleMalformed : Prop :=
  forall h s u, exists raw rest e,
    env h (CreateChatCompletion s u) = ChatChoices (raw :: rest) /\
    jsonUnmarshal (client.stripFence raw) = inr e.







Lemma GetPageContent_alive (h : Trace) :
  browserAlive ->
  manager.GetPageContent env h
  = Some ((env (EnsureBrowser :: h) PageSnapshot, None), PageSnapshot :: EnsureBrowser :: h).
Proof.
  intros Halive. unfold manager.GetPageContent. rewrite bind_call, Halive, bind_call.
  reflexivity.
Qed.

Lemma MakeDecision_decoded (s u raw : string) (rest : list string) (d : DecisionResponse)
    (h : Trace) :
  env h (CreateChatCompletion s u) = ChatChoices (raw :: rest) ->
  jsonUnmarshal (client.stripFence raw) = inl d ->
  client.MakeDecision env s u h = Some ((d, None), CreateChatCompletion s u :: h).
Proof.
  intros Hreply Hdec. unfold client.MakeDecision. rewrite bind_call, Hreply, Hdec.
  reflexivity.
Qed.

Lemma MakeDecision_malformed (s u raw : string) (rest : list string) (e : error) (h : Trace) :
  env h (CreateChatCompletion s u) = ChatChoices (raw :: rest) ->
  jsonUnmarshal (client.stripFence raw) = inr e ->
  client.MakeDecision env s u h
  = Some ((client.errorDecision raw, Some ("failed to parse decision JSON: " +:+ e)),
          CreateChatCompletion s u :: h).
Proof.
  intros Hreply Hdec. unfold client.MakeDecision. rewrite bind_call, Hreply, Hdec.
  reflexivity.
Qed.

(** The challenge gate of a plan step. *)
Lemma challenge_gate_quiet (pc : browser.PageContent.t) :
  challengesSolved ->
  forall h, exists h',
    (if agent.isBlockedPage pc then
       call env (Log ("CAPTCHA detected on " +:+ browser.PageContent.URL pc
                      +:+ ". Waiting for you to solve it..." +:+ nl)) ;;;
       w <- call env WaitForCaptchaSolution ;;
       match w with
       | Some e => ret (Some ("CAPTCHA wait failed: " +:+ e))
       | None => call env (Log ("CAPTCHA solved, continuing plan..." +:+ nl)) ;;; ret None
       end
     else ret None) h = Some (None, h') /\
    chatCalls h' = chatCalls h /\ h `suffix_of` h'.
Proof.
  intros Hsolved h. destruct (agent.isBlockedPage pc).
  - rewrite bind_call, bind_call, Hsolved, bind_call. eexists. split; [reflexivity|].
    split; [reflexivity|]. do 3 apply suffix_cons_r. reflexivity.
  - eexists. split; [reflexivity|]. split; reflexivity.
Qed.




(** C7 (amended): when the oracle's reply does not decode, [MakeDecision]
    returns the synthetic decision (action "error", reasoning the raw reply,
    not complete) together with the non-nil error "failed to parse decision
    JSON: ...".  Its callers go by the error: a plan step ends [ExecuteTask]
    with "MakeDecision failed for step k: ...", while [analyzeAndDecide]
    (iterative mode) logs it and carries on with a fresh "error" decision
    whose reasoning is the error text, returning no error. *)
Theorem malformed_reply_handling
    (a : agent.Agent) (pc : browser.PageContent.t) (step : string) (rest : list string)
    (total idx : Z) (fuel : nat) (h : Trace) :
  browserAlive -> challengesSolved -> oracleMalformed ->
  (forall s u h0, exists raw more e,
      env h0 (CreateChatCompletion s u) = ChatChoices (raw :: more) /\
      client.MakeDecision env s u h0
      = Some ((client.errorDecision raw, Some ("failed to parse decision JSON: " +:+ e)),
              CreateChatCompletion s u :: h0)) /\
  (exists e a' h',
      agent.planLoop env total idx (step :: rest) a h
      = Some ((Some ("MakeDecision failed for step " +:+ itoa (idx + 1)
                     +:+ ": failed to parse decision JSON: " +:+ e), a'), h')) /\
  (let userInput := agent.analyzeUserInput (agent.currentTask a)
                      (agent.buildPageDescription pc (env h ListOpenPages)) in
   ctxmgr.CanAddTokens (ctxmgr.tokenCounter (agent.contextMgr a))
     (GoInt.add (GoInt.add (ctxmgr.EstimateTokens agent.analyzeSystemPrompt)
                           (ctxmgr.EstimateTokens userInput)) 400) = true ->
   exists e a' h',
     agent.analyzeAndDecide env (S fuel) a pc h
     = Some ((client.errorDecision ("failed to parse decision JSON: " +:+ e), None, a'),
             Log ("AI MakeDecision error: failed to parse decision JSON: " +:+ e) :: h')).
Proof.
  intros Halive Hsolved Hmal. split; [|split].
  - intros s u h0. destruct (Hmal h0 s u) as (raw & more & e & Hreply & Hdec).
    exists raw, more, e. split; [assumption|].
    exact (MakeDecision_malformed s u raw more e h0 Hreply Hdec).
  - cbn [agent.planLoop].
    destruct (quiet_log env (agent.verbose a)
                (nl +:+ "--- Executing plan step " +:+ itoa (idx + 1) +:+ "/"
                 +:+ itoa total +:+ ": " +:+ step +:+ nl) h) as (u1 & h1 & R1 & _).
    run R1. run (GetPageContent_alive h1 Halive).
    destruct (challenge_gate_quiet (env (EnsureBrowser :: h1) PageSnapshot) Hsolved
                (PageSnapshot :: EnsureBrowser :: h1)) as (h3 & R3 & _).
    run R3. rewrite bind_call. cbv zeta.
    match goal with
    | |- context [client.MakeDecision env ?s ?u] =>
        destruct (Hmal (ListOpenPages :: h3) s u) as (raw & more & e & Hreply & Hdec);
        run (MakeDecision_malformed s u raw more e _ Hreply Hdec)
    end.
    now eexists e, _, _.
  - intros userInput Hroom. unfold agent.analyzeAndDecide. rewrite bind_call. cbv zeta.
    fold userInput. cbn [agent.makeRoom].
    rewrite !ctxmgr_props.AddMessage_tokenCounter, Hroom.
    match goal with
    | |- context [client.MakeDecision env ?s ?u] =>
        destruct (Hmal (ListOpenPages :: h) s u) as (raw & more & e & Hreply & Hdec);
        run (MakeDecision_malformed s u raw more e _ Hreply Hdec)
    end.
    rewrite bind_call. now eexists e, _, _.
Qed.

End Plan.
End plan_props.

(** ** [ExecuteTask]: iterative mode and the token budget *)

Module iterate_props.
Import GoInt GoStrings GoFacts world ai ctxmgr world_props action_props plan_props.
Local Open Scope world_scope.

Lemma RemoveOldest_tokenCounter (cm : ContextManager) (count : Z) :
  tokenCounter (RemoveOldest cm count) = tokenCounter cm.
Proof.
  unfold RemoveOldest. destruct (_ || _); [reflexivity|]. destruct (_ >=? _); reflexivity.
Qed.

(** Evicting history never changes what [CanAddTokens] sees. *)
Lemma makeRoom_stuck (cm : ContextManager) (needed : Z) :
  CanAddTokens (tokenCounter cm) needed = false ->
  forall fuel, agent.makeRoom fuel cm needed = None.
Proof.
  intros Hfull fuel. revert cm Hfull.
  induction fuel as [|fuel IH]; intros cm Hfull; simpl; [reflexivity|].
  rewrite Hfull. apply IH. now rewrite RemoveOldest_tokenCounter.
Qed.

Lemma makeRoom_dichotomy (fuel : nat) (cm : ContextManager) (needed : Z) :
  agent.makeRoom fuel cm needed = None \/
  (CanAddTokens (tokenCounter cm) needed = true /\
   agent.makeRoom fuel cm needed = Some cm).
Proof.
  destruct (CanAddTokens (tokenCounter cm) needed) eqn:Hroom.
  - destruct fuel as [|fuel]; [now left|]. right. simpl. now rewrite Hroom.
  - left. now apply makeRoom_stuck.
Qed.







Section Iterate.
Context `{GoText} `{GoJSON}.
Variable env : Env.

(** No snapshot looks like a challenge page. *)
Definition neverBlocked : Prop := forall h, agent.isBlockedPage (env h PageSnapshot) = false.



(** Planning fails, so that [ExecuteTask] falls back to iterative mode. *)
Definition planningFails : Prop :=
  forall h t d, exists steps e, env h (PlanTask t d) = (steps, Some e).






(** [analyzeAndDecide] entered without room for its prompt. *)
Lemma analyzeAndDecide_stuck (a : agent.Agent) (pc : browser.PageContent.t) (h : Trace)
    (fuel : nat) :
  CanAddTokens (tokenCounter (agent.contextMgr a))
    (add (add (EstimateTokens agent.analyzeSystemPrompt)
              (EstimateTokens (agent.analyzeUserInput (agent.currentTask a)
                                 (agent.buildPageDescription pc (env h ListOpenPages)))))
         400) = false ->
  agent.analyzeAndDecide env fuel a pc h = None.
Proof.
  intros Hfull. unfold agent.analyzeAndDecide. rewrite bind_call. cbv zeta.
  rewrite makeRoom_stuck; [reflexivity|].
  now rewrite !ctxmgr_props.AddMessage_tokenCounter.
Qed.

(** C2: the eviction loop of [analyzeAndDecide] returns only when there was
    room at its first test, in which case it has evicted nothing; when
    there is no room it never returns, however much fuel it is given,
    because [RemoveOldest] does not touch the counter that [CanAddTokens]
    reads.  So a call of [analyzeAndDecide] whose prompt does not fit the
    remaining budget never returns, and no failure is reported. *)
Theorem make_room_loop_cannot_make_room :
  (forall fuel cm needed,
      agent.makeRoom fuel cm needed = None \/
      (CanAddTokens (tokenCounter cm) needed = true /\
       agent.makeRoom fuel cm needed = Some cm)) /\
  (forall cm needed,
      CanAddTokens (tokenCounter (RemoveOldest cm 1)) needed
      = CanAddTokens (tokenCounter cm) needed) /\
  (forall a pc h fuel,
      CanAddTokens (tokenCounter (agent.contextMgr a))
        (add (add (EstimateTokens agent.analyzeSystemPrompt)
                  (EstimateTokens (agent.analyzeUserInput (agent.currentTask a)
                                     (agent.buildPageDescription pc (env h ListOpenPages)))))
             400) = false ->
      agent.analyzeAndDecide env fuel a pc h = None).
Proof.
  split; [exact makeRoom_dichotomy|]. split.
  - intros cm needed. now rewrite RemoveOldest_tokenCounter.
  - exact analyzeAndDecide_stuck.
Qed.

(** *** Running to the cap *)




Section Cap.
(** The task, a bound on the size of page descriptions, a bound on the size
    of the oracle's rationales, and the token budget. *)
Variables (task : string) (D R M : Z).





Hypothesis task_modest : len task < 2 ^ 32.
Hypothesis D_modest : 0 <= D < 2 ^ 32.
Hypothesis R_modest : 0 <= R < 2 ^ 32.
Hypothesis M_modest : M < 2 ^ 60.






End Cap.


End Iterate.
End iterate_props.

(** ** The properties on concrete runs *)

Module scenarios.
Import GoInt GoStrings GoFacts world ai ctxmgr world_props action_props plan_props.
Import executeAction_props iterate_props sample.

(** The oracle's reply in the runs below: a well-formed decision to wait. *)
Definition waitReply : string := marshal waitDecision.

Definition loginPlan : list string := ["open the login page"; "click the login button"].

(** An agent that has accounted 7600 of its 8000 tokens. *)
Definition nearlyFull : agent.Agent :=
  agent.set_contextMgr (agent.set_currentTask (agent.NewAgent false) "log in")
    {| messages := [ {| Role := "user"; Content := "log in" |} ];
       tokenCounter := {| PromptTokens := 5000; CompletionTokens := 2600;
                          TotalTokens := 7600; MaxTokens := 8000 |};
       maxHistorySize := 20 |}.




Lemma planned_alive (steps : list string) (reply : string) : browserAlive (planned steps reply).
Proof. intros h. reflexivity. Qed.

Lemma planned_solved (steps : list string) (reply : string) :
  challengesSolved (planned steps reply).
Proof. intros h. reflexivity. Qed.

(** C2 on a concrete input: with 7600 of 8000 tokens accounted, the next
    prompt needs more than the 400 left, and [analyzeAndDecide] never
    returns, whatever the fuel. *)
Lemma analyzeAndDecide_hangs_when_nearly_full (fuel : nat) :
  agent.analyzeAndDecide (steady waitReply) fuel nearlyFull blankPage [] = None.
Proof.
  apply analyzeAndDecide_stuck. vm_compute. reflexivity.
Qed.







(** C7 (counterexample): the oracle wraps free text in a code fence.
    [MakeDecision] builds the synthetic decision carrying the raw reply, but
    returns it with an error; the plan step does not look at the decision
    and [ExecuteTask] ends with that error: the task is aborted. *)
Lemma undecodable_reply_aborts_the_plan :
  let raw := "```json" +:+ nl +:+ "I cannot decide yet" +:+ nl +:+ "```" in
  let env := planned ["open the login page"] raw in
  client.MakeDecision env "system" "user" []
  = Some ((client.errorDecision raw,
           Some ("failed to parse decision JSON: " +:+ "invalid character in JSON document")),
          [CreateChatCompletion "system" "user"]) /\
  option_map (fun r => r.1.1)
    (agent.ExecuteTask env 0 (agent.NewAgent false) "log in" "" [])
  = Some (Some ("MakeDecision failed for step 1: failed to parse decision JSON: "
                +:+ "invalid character in JSON document")).
Proof. cbv zeta. split; vm_compute; reflexivity. Qed.

Lemma malformed_reply_handling_witness :
  oracleMalformed (planned loginPlan "not json") /\
  exists e a' h',
    agent.planLoop (planned loginPlan "not json") 2 0
      ("open the login page" :: ["click the login button"]) (agent.NewAgent false) []
    = Some ((Some ("MakeDecision failed for step " +:+ itoa (0 + 1)
                   +:+ ": failed to parse decision JSON: " +:+ e), a'), h').
Proof.
  assert (Hmal : oracleMalformed (planned loginPlan "not json")).
  { intros h s u. exists "not json", [], "invalid character in JSON document".
    split; [reflexivity|]. vm_compute. reflexivity. }
  split; [exact Hmal|].
  apply (malformed_reply_handling (planned loginPlan "not json") (agent.NewAgent false)
           blankPage "open the login page" ["click the login button"] 2 0 0 []).
  - apply planned_alive.
  - apply planned_solved.
  - exact Hmal.
Defined.



Lemma executeAction_missing_parameter_is_noop_witness :
  missingParameter navigateNowhere /\
  agent.executeAction (steady waitReply) (agent.NewAgent false) navigateNowhere []
  = Some (None, []).
Proof.
  assert (Hmiss : missingParameter navigateNowhere).
  { left. split; reflexivity. }
  split; [exact Hmiss|].
  apply (executeAction_missing_parameter_is_noop (steady waitReply) (agent.NewAgent false)
           navigateNowhere []).
  - reflexivity.
  - exact Hmiss.
Defined.

End scenarios.

(** ** More on the token counter and the history *)

Module history_props.
Import GoInt GoStrings GoFacts ctxmgr ctxmgr_props world.

(** X1: [RemoveOldest(count)] removes the [count] oldest messages and keeps
    the others in order; a count of zero or less removes nothing, a count
    of the length or more removes everything.  The token counter and the
    history bound are left alone. *)
Theorem RemoveOldest_drops_the_oldest (cm : ContextManager) (count : Z) :
  messages (RemoveOldest cm count) = drop (Z.to_nat count) (messages cm) /\
  tokenCounter (RemoveOldest cm count) = tokenCounter cm /\
  maxHistorySize (RemoveOldest cm count) = maxHistorySize cm.
Proof.
  unfold RemoveOldest, slice_len.
  destruct (Z.leb_spec count 0) as [Hle|Hpos]; simpl.
  - replace (Z.to_nat count) with 0%nat by lia. repeat split.
  - destruct (Z.eqb_spec (Z.of_nat (length (messages cm))) 0) as [Hz|Hnz]; simpl.
    + destruct (messages cm); [|simpl in Hz; lia]. rewrite drop_nil. repeat split.
    + destruct (Z.geb_spec count (Z.of_nat (length (messages cm)))) as [Hge|Hlt]; simpl.
      * rewrite drop_ge by lia. repeat split.
      * repeat split.
Qed.

(** X2: on a counter reached from [NewTokenCounter] by any calls of [Add],
    [CanAddTokens(prompt + completion)] answers true exactly when
    [Add(prompt, completion)] would return no error, wrap-around of the
    sums included. *)
Theorem CanAddTokens_predicts_Add (M : Z) (calls : list (Z * Z)) (prompt completion : Z) :
  let tc := AddAll (NewTokenCounter M) calls in
  CanAddTokens tc (add prompt completion) = true <-> (Add tc prompt completion).2 = None.
Proof.
  cbv zeta. destruct (AddAll_counters M calls) as (HP & HC & HT & HM).
  set (tc := AddAll (NewTokenCounter M) calls) in *.
  rewrite Add_snd, Add_fst. cbn [TotalTokens].
  unfold CanAddTokens. rewrite Z.leb_le.
  replace (add (TotalTokens tc) (add prompt completion))
    with (add (add (PromptTokens tc) prompt) (add (CompletionTokens tc) completion));
    [reflexivity|].
  rewrite HT, HP, HC. unfold add.
  repeat (rewrite wrap_add_l || rewrite wrap_add_r).
  rewrite <- !Z.add_assoc, wrap_add_l. f_equal. lia.
Qed.

(** X3: a negative [maxHistorySize] does not switch the bound off: every
    [AddMessage] then leaves the history empty. *)
Theorem negative_history_bound_empties_history
    (cm : ContextManager) (role content : string) :
  int_min <= maxHistorySize cm < 0 ->
  slice_len (messages cm) < int_max + maxHistorySize cm ->
  messages (AddMessage cm role content) = [].
Proof. apply AddMessage_negative_bound. Qed.

Lemma negative_history_bound_empties_history_witness :
  messages (AddMessage (NewContextManager 8000 (-1)) "user" "Hello") = [].
Proof.
  apply (negative_history_bound_empties_history (NewContextManager 8000 (-1)) "user" "Hello").
  - unfold int_min. simpl. lia.
  - vm_compute. reflexivity.
Defined.

Section Tasks.
Context `{GoText} `{GoJSON}.
Variable env : Env.

(** X4: [ExecuteTask] starts from an empty history and a zeroed counter:
    what an earlier task left in the agent (its task text, its messages,
    its token usage) has no influence on the run.  Two agents with the same
    iteration cap, verbosity, token maximum and history bound run a task
    alike. *)
Theorem ExecuteTask_forgets_the_previous_task
    (fuel : nat) (a b : agent.Agent) (task initialURL : string) (h : Trace) :
  agent.maxIterations a = agent.maxIterations b ->
  agent.verbose a = agent.verbose b ->
  MaxTokens (tokenCounter (agent.contextMgr a)) = MaxTokens (tokenCounter (agent.contextMgr b)) ->
  maxHistorySize (agent.contextMgr a) = maxHistorySize (agent.contextMgr b) ->
  agent.ExecuteTask env fuel a task initialURL h
  = agent.ExecuteTask env fuel b task initialURL h.
Proof.
  intros Hcap Hverbose Hmax Hbound. unfold agent.ExecuteTask. cbv zeta.
  replace (agent.set_contextMgr (agent.set_currentTask a task)
             (ResetTokenCounter (ClearContext (agent.contextMgr (agent.set_currentTask a task)))))
    with (agent.set_contextMgr (agent.set_currentTask b task)
            (ResetTokenCounter (ClearContext (agent.contextMgr (agent.set_currentTask b task)))));
    [reflexivity|].
  destruct a as [cma ta ma va], b as [cmb tb mb vb]. simpl in *. subst.
  unfold agent.set_contextMgr, agent.set_currentTask, ResetTokenCounter, ClearContext,
    set_tokenCounter, set_messages. simpl. now rewrite Hmax, Hbound.
Qed.

End Tasks.
End history_props.

(** ** More on the page registry *)

Module registry_props.
Import GoInt GoStrings browser browser_props.

Lemma registerPage_pages (m : Manager) (p : Page) (activate : bool) :
  pages m !! pageIdentifier p = None ->
  pages (registerPage m (Some p) activate) = <[pageIdentifier p := p]> (pages m).
Proof.
  intros Hfresh. unfold registerPage. rewrite Hfresh.
  set (m1 := {| page := page m; pageListeners := pageListeners m;
                pages := <[pageIdentifier p:=p]> (pages m);
                pageOrder := pageOrder m ++ [pageIdentifier p];
                activePageID := activePageID m |}).
  destruct (attachPageListeners_frame m1 (Some p)) as (_ & F2 & _ & _).
  destruct (_ || _); [|exact F2].
  destruct (setActivePage_frame (attachPageListeners m1 (Some p)) (pageIdentifier p) activate)
    as [-> _]. exact F2.
Qed.

Lemma registerPage_active (m : Manager) (p : Page) (activate : bool) :
  pages m !! pageIdentifier p = None ->
  activePageID (registerPage m (Some p) activate)
  = (if activate || String.eqb (activePageID m) "" then pageIdentifier p else activePageID m) /\
  page (registerPage m (Some p) activate)
  = (if activate || String.eqb (activePageID m) "" then Some p else page m).
Proof.
  intros Hfresh. unfold registerPage. rewrite Hfresh.
  set (m1 := {| page := page m; pageListeners := pageListeners m;
                pages := <[pageIdentifier p:=p]> (pages m);
                pageOrder := pageOrder m ++ [pageIdentifier p];
                activePageID := activePageID m |}).
  destruct (attachPageListeners_frame m1 (Some p)) as (F1 & F2 & _ & F4).
  rewrite F4. cbn [activePageID m1].
  destruct (_ || _); [|now rewrite F1, F4].
  unfold setActivePage. rewrite F2. cbn [pages m1]. rewrite lookup_insert_eq.
  split; reflexivity.
Qed.

Lemma handlePageClosed_listeners (m : Manager) (p : Page) :
  pageListeners (handlePageClosed m (Some p)) = pageListeners m ∖ {[pageIdentifier p]}.
Proof.
  unfold handlePageClosed. cbn.
  destruct (String.eqb _ _); [|reflexivity].
  destruct (last _); [|reflexivity].
  unfold setActivePage. cbn. destruct (_ !! _); reflexivity.
Qed.

(** X5: registering a page a second time changes nothing: a handle that is
    already tracked is not filed, ordered or activated again. *)
Theorem registering_twice_is_registering_once
    (m : Manager) (pg : option Page) (first second : bool) :
  registerPage (registerPage m pg first) pg second = registerPage m pg first.
Proof.
  destruct pg as [p|]; [|reflexivity].
  destruct (pages m !! pageIdentifier p) as [q|] eqn:Hm.
  - assert (Hsame : registerPage m (Some p) first = m).
    { unfold registerPage. now rewrite Hm. }
    rewrite Hsame. unfold registerPage. now rewrite Hm.
  - pose proof (registerPage_pages m p first Hm) as Hpages.
    unfold registerPage at 1. rewrite Hpages, lookup_insert_eq. reflexivity.
Qed.

Section Reachable.
Context `{GoText}.
Variable ops : list RegistryOp.

Let m : Manager := fold_left applyOp ops emptyManager.

(** X6: a close notification delivered twice for the same page has no
    further effect, on any registry that the operations can reach. *)
Theorem closing_twice_is_closing_once (pg : option Page) :
  handlePageClosed (handlePageClosed m pg) pg = handlePageClosed m pg.
Proof.
  destruct pg as [p|]; [|reflexivity].
  pose proof (reachable_Inv ops) as HI. fold m in HI.
  destruct (handlePageClosed_spec m p HI) as (HI1 & Ho & Hp & Hyes & Hno).
  cbv zeta in *. set (m1 := handlePageClosed m (Some p)) in *.
  set (id := pageIdentifier p) in *.
  assert (Hgone : id ∉ pageOrder m1).
  { rewrite Ho, removeFirst_elem_of by apply HI. intros [_ Hne]. congruence. }
  assert (Hact : activePageID m1 <> id).
  { intros Heq. destruct (inv_active m1 HI1) as [He|Hs].
    - rewrite He in Heq. symmetry in Heq. now apply (pageIdentifier_nonempty p).
    - apply (inv_order m1 HI1) in Hs. congruence. }
  pose proof (handlePageClosed_listeners m p) as Hlisten. fold m1 id in Hlisten.
  unfold handlePageClosed at 1. fold id. cbn [activePageID].
  destruct (String.eqb_spec (activePageID m1) id) as [Heq|_]; [contradiction|].
  destruct m1 as [pg1 l1 ps1 o1 a1]. cbn in *. subst ps1 l1.
  rewrite removeFirst_notin by assumption.
  f_equal.
  - apply set_eq. intros x. rewrite !elem_of_difference. tauto.
  - apply delete_id, lookup_delete_eq.
Qed.

(** X7: a page that opens and closes again leaves the tracked pages and
    their order as they were.  The active page is as before when the page
    was opened in the background next to an active one; when it was opened
    in front, the last page of the order is active afterwards, whichever
    page was active before. *)
Theorem open_then_close_restores_tabs (p : Page) (activate : bool) :
  pages m !! pageIdentifier p = None ->
  let m' := handlePageClosed (registerPage m (Some p) activate) (Some p) in
  pages m' = pages m /\
  pageOrder m' = pageOrder m /\
  (activate = false -> activePageID m <> "" ->
   activePageID m' = activePageID m /\ page m' = page m) /\
  (activate = true -> activePageID m' = default "" (last (pageOrder m))).
Proof.
  intros Hfresh. cbv zeta.
  pose proof (reachable_Inv ops) as HI. fold m in HI.
  pose proof (registerPage_Inv m (Some p) activate HI) as HI1.
  pose proof (registerPage_pages m p activate Hfresh) as Hpages.
  pose proof (registerPage_order m p activate Hfresh) as Horder.
  destruct (registerPage_active m p activate Hfresh) as [Hactive Hpage].
  destruct (handlePageClosed_spec _ p HI1) as (HI2 & Ho & Hp & Hyes & Hno).
  cbv zeta in *. set (m1 := registerPage m (Some p) activate) in *.
  set (id := pageIdentifier p) in *.
  assert (Hnotin : id ∉ pageOrder m).
  { intros Hin. apply (inv_order m HI) in Hin. destruct Hin as [? Hin]. congruence. }
  assert (Horder' : pageOrder (handlePageClosed m1 (Some p)) = pageOrder m).
  { rewrite Ho, Horder. clear -Hnotin.
    induction (pageOrder m) as [|x l IH]; simpl.
    - now rewrite String.eqb_refl.
    - apply not_elem_of_cons in Hnotin as [Hne Hnotin].
      destruct (String.eqb_spec x id) as [->|_]; [congruence|]. now rewrite IH. }
  split; [rewrite Hp, Hpages; now apply delete_insert_id|].
  split; [exact Horder'|]. split.
  - intros -> Hsome. rewrite orb_false_l in Hactive, Hpage.
    destruct (String.eqb_spec (activePageID m) "") as [|_]; [contradiction|].
    assert (Hne : activePageID m1 <> id).
    { rewrite Hactive. intros Heq. destruct (inv_active m HI) as [?|Hs]; [contradiction|].
      rewrite Heq in Hs. destruct Hs as [? Hs]. congruence. }
    split; [now rewrite (Hno Hne)|].
    rewrite (inv_page _ HI2), (Hno Hne), Hp, Hactive.
    rewrite lookup_delete_ne by congruence.
    rewrite Hpages, lookup_insert_ne by congruence. symmetry. apply HI.
  - intros ->. rewrite orb_true_l in Hactive.
    now rewrite (Hyes Hactive), Horder'.
Qed.

End Reachable.

Section Tabs.
Context `{GoText}.
Variables (pageTitle pageURL : Page -> string).

(** What [ListOpenPages] shows for the page [pg] filed under [id] at
    position [i] of the order. *)
Definition shows (m : Manager) (i : nat) (id : string) (pg : Page) (tab : TabInfo.t) : Prop :=
  TabInfo.Index tab = Z.of_nat i + 1 /\
  TabInfo.Title tab = (if String.eqb (pageTitle pg) "" then "Unknown" else pageTitle pg) /\
  TabInfo.URL tab = pageURL pg /\
  (TabInfo.Active tab = true <-> id = activePageID m).

Lemma listFrom_tracked (m : Manager) (order : list string) :
  (forall id, id ∈ order -> is_Some (pages m !! id)) ->
  forall idx : nat,
    length (listFrom pageTitle pageURL m (Z.of_nat idx) order) = length order /\
    (forall i tab,
        listFrom pageTitle pageURL m (Z.of_nat idx) order !! i = Some tab ->
        exists id pg, order !! i = Some id /\ pages m !! id = Some pg /\
                      shows m (idx + i) id pg tab) /\
    length (List.filter TabInfo.Active (listFrom pageTitle pageURL m (Z.of_nat idx) order))
    = length (List.filter (fun id => String.eqb id (activePageID m)) order).
Proof.
  induction order as [|id order IH]; intros Htracked idx.
  - simpl. split; [reflexivity|]. split; [|reflexivity]. intros i tab Hi. discriminate.
  - destruct (Htracked id) as [pg Hpg]; [now left|].
    destruct (IH (fun x Hx => Htracked x (list_elem_of_further _ _ _ Hx)) (S idx))
      as (Hlen & Hshow & Hcount).
    replace (Z.of_nat (S idx)) with (Z.of_nat idx + 1) in * by lia.
    cbn [listFrom]. rewrite Hpg. split; [simpl; now rewrite Hlen|]. split.
    + intros [|i] tab Hi.
      * injection Hi as <-. exists id, pg. split; [reflexivity|]. split; [assumption|].
        unfold shows. cbn. rewrite Nat.add_0_r. split; [reflexivity|].
        split; [reflexivity|]. split; [reflexivity|].
        destruct (String.eqb_spec id (activePageID m)); split; auto; discriminate.
      * destruct (Hshow i tab Hi) as (id' & pg' & Ho & Hp' & Hs).
        exists id', pg'. split; [assumption|]. split; [assumption|].
        now replace (idx + S i)%nat with (S idx + i)%nat by lia.
    + cbn [List.filter TabInfo.Active].
      destruct (String.eqb id (activePageID m)); simpl; now rewrite Hcount.
Qed.

Lemma count_NoDup (a : string) (order : list string) :
  NoDup order ->
  length (List.filter (fun id => String.eqb id a) order)
  = (if decide (a ∈ order) then 1 else 0)%nat.
Proof.
  induction order as [|x order IH]; intros Hnd; [reflexivity|].
  apply NoDup_cons in Hnd as [Hx Hnd]. cbn [List.filter].
  destruct (String.eqb_spec x a) as [->|Hne]; cbn [length]; rewrite (IH Hnd).
  - destruct (decide (a ∈ order)); [contradiction|].
    destruct (decide (a ∈ a :: order)) as [|Hn]; [reflexivity|].
    exfalso. apply Hn. now left.
  - destruct (decide (a ∈ order)) as [Hin|Hout].
    + rewrite decide_True; [reflexivity|now right].
    + rewrite decide_False; [reflexivity|].
      intros Hin. apply elem_of_cons in Hin as [->|Hin]; contradiction.
Qed.

Lemma ListOpenPages_consistent (m : Manager) :
  Inv m ->
  length (ListOpenPages pageTitle pageURL m) = length (pageOrder m) /\
  (forall i tab,
      ListOpenPages pageTitle pageURL m !! i = Some tab ->
      exists id pg, pageOrder m !! i = Some id /\ pages m !! id = Some pg /\
                    shows m i id pg tab) /\
  length (List.filter TabInfo.Active (ListOpenPages pageTitle pageURL m))
  = (if String.eqb (activePageID m) "" then 0 else 1)%nat.
Proof.
  intros HI. unfold ListOpenPages.
  destruct (listFrom_tracked m (pageOrder m) (fun id Hid => proj1 (inv_order m HI id) Hid) 0)
    as (Hlen & Hshow & Hcount).
  change (Z.of_nat 0) with 0 in *.
  split; [exact Hlen|]. split; [exact Hshow|].
  rewrite Hcount, (count_NoDup _ _ (inv_nodup m HI)).
  destruct (String.eqb_spec (activePageID m) "") as [He|Hne].
  - rewrite decide_False; [reflexivity|]. rewrite He. intros Hin.
    apply (inv_order m HI) in Hin. rewrite (inv_empty m HI) in Hin.
    destruct Hin as [? Hin]. discriminate.
  - rewrite decide_True; [reflexivity|].
    apply (inv_order m HI). destruct (inv_active m HI); [contradiction|assumption].
Qed.

(** X8: on every registry that the operations can reach, [ListOpenPages]
    shows each tracked page once, in the order of registration, numbered
    from 1, with the title (or "Unknown" for an empty one) and URL that the
    driver reports; the tab of the active page is the only one marked
    active, and none is when no page is active. *)
Theorem ListOpenPages_shows_every_tab_once (ops : list RegistryOp) :
  let m := fold_left applyOp ops emptyManager in
  let tabs := ListOpenPages pageTitle pageURL m in
  length tabs = length (pageOrder m) /\
  (forall i tab,
      tabs !! i = Some tab ->
      exists id pg, pageOrder m !! i = Some id /\ pages m !! id = Some pg /\
                    shows m i id pg tab) /\
  length (List.filter TabInfo.Active tabs)
  = (if String.eqb (activePageID m) "" then 0 else 1)%nat.
Proof. cbv zeta. apply ListOpenPages_consistent, reachable_Inv. Qed.

Lemma switchByMatch_safe (m : Manager) (lower target : string) (order : list string) :
  (forall id, id ∈ order -> is_Some (pages m !! id)) ->
  let r := switchByMatch pageTitle pageURL m lower target order in
  r.2 <> Panic /\
  (forall e, r.2 = Err e -> r.1 = m) /\
  (r.2 = Ok -> is_Some (pages r.1 !! activePageID r.1)).
Proof.
  induction order as [|id order IH]; intros Htracked; cbn [switchByMatch].
  - cbv zeta. cbn. split; [discriminate|]. split; [reflexivity|discriminate].
  - destruct (Htracked id) as [pg Hpg]; [now left|]. rewrite Hpg.
    destruct (_ || _).
    + cbv zeta. cbn [fst snd]. split; [discriminate|]. split; [discriminate|].
      intros _. rewrite (setActivePage_active m id true) by eauto.
      destruct (setActivePage_frame m id true) as [-> _]. eauto.
    + apply IH. intros x Hx. apply Htracked. now right.
Qed.

(** X9: on every registry that the operations can reach, and whatever the
    liveness check finds, [SwitchToPage] never dereferences a nil page
    handle; when it reports success a tracked page is active; and when it
    fails while the browser is alive the registry is as it was. *)
Theorem SwitchToPage_is_safe
    (ops : list RegistryOp) (o : EnsureOutcome) (target : string) :
  let m := fold_left applyOp ops emptyManager in
  let r := SwitchToPage pageTitle pageURL m o target in
  r.2 <> Panic /\
  (r.2 = Ok -> is_Some (pages r.1 !! activePageID r.1)) /\
  (forall e, o = Alive -> r.2 = Err e -> r.1 = m).
Proof.
  cbv zeta. pose proof (reachable_Inv ops) as HI.
  set (m := fold_left applyOp ops emptyManager) in *.
  pose proof (ensureBrowser_Inv m o HI) as HE.
  assert (Halive : o = Alive -> (ensureBrowser m o).1 = m) by (now intros ->).
  unfold SwitchToPage.
  destruct (ensureBrowser m o) as [m1 [err|]]; cbn [fst] in *.
  { cbn. split; [discriminate|]. split; [discriminate|]. intros e Ho _. now apply Halive. }
  destruct (last (pageOrder m1)) as [nextID|] eqn:Hlast.
  2:{ cbn. split; [discriminate|]. split; [discriminate|]. intros e Ho _. now apply Halive. }
  assert (Hset : forall id, id ∈ pageOrder m1 ->
                   is_Some (pages (setActivePage m1 id true)
                              !! activePageID (setActivePage m1 id true))).
  { intros id Hid. apply (inv_order m1 HE) in Hid.
    rewrite (setActivePage_active m1 id true Hid).
    now destruct (setActivePage_frame m1 id true) as [-> _]. }
  destruct (String.eqb _ _).
  { cbn. split; [discriminate|]. split; [|discriminate].
    intros _. apply Hset. now apply last_elem_of. }
  destruct (Atoi _) as [idx|].
  - destruct (_ || _) eqn:Hrange.
    + cbn. split; [discriminate|]. split; [discriminate|]. intros e Ho _. now apply Halive.
    + apply orb_false_iff in Hrange as [Hlo Hhi].
      apply Z.ltb_ge in Hlo. rewrite Z.gtb_ltb in Hhi. apply Z.ltb_ge in Hhi.
      unfold slice_len in Hhi.
      destruct (lookup_lt_is_Some_2 (pageOrder m1) (Z.to_nat (idx - 1))) as [id Hid]; [lia|].
      rewrite Hid. cbn. split; [discriminate|]. split; [|discriminate].
      intros _. apply Hset. eapply list_elem_of_lookup_2, Hid.
  - destruct (switchByMatch_safe m1 (ToLower (TrimSpace target)) (TrimSpace target)
                (pageOrder m1) (fun id Hid => proj1 (inv_order m1 HE id) Hid))
      as (Hsafe & Herr & Hok).
    split; [exact Hsafe|]. split; [exact Hok|].
    intros e Ho He. rewrite (Herr e He). now apply Halive.
Qed.

(** X10: switching to the number that [ListOpenPages] shows for a tab makes
    that tab, and no other, the active one, and leaves the tracked pages
    and their order alone.  [i] is what [strconv.Atoi] reads in the trimmed
    target. *)
Theorem SwitchToPage_by_number (ops : list RegistryOp) (target : string) (i : Z) :
  let m := fold_left applyOp ops emptyManager in
  TrimSpace target <> "" ->
  Atoi (TrimSpace target) = Some i ->
  1 <= i <= slice_len (pageOrder m) ->
  exists m',
    SwitchToPage pageTitle pageURL m Alive target = (m', Ok) /\
    pages m' = pages m /\
    pageOrder m' = pageOrder m /\
    forall tab, tab ∈ ListOpenPages pageTitle pageURL m' ->
                (TabInfo.Active tab = true <-> TabInfo.Index tab = i).
Proof.
  cbv zeta. pose proof (reachable_Inv ops) as HI.
  set (m := fold_left applyOp ops emptyManager) in *.
  intros Htarget Hatoi Hrange. unfold slice_len in Hrange.
  unfold SwitchToPage. cbn [ensureBrowser].
  destruct (last (pageOrder m)) as [nextID|] eqn:Hlast.
  2:{ apply last_None in Hlast. rewrite Hlast in Hrange. simpl in Hrange. lia. }
  destruct (String.eqb_spec (TrimSpace target) "") as [|_]; [contradiction|].
  rewrite Hatoi.
  replace ((i <? 1) || (i >? slice_len (pageOrder m))) with false.
  2:{ symmetry. apply orb_false_iff. split; [apply Z.ltb_ge; lia|].
      rewrite Z.gtb_ltb. apply Z.ltb_ge. unfold slice_len. lia. }
  destruct (lookup_lt_is_Some_2 (pageOrder m) (Z.to_nat (i - 1))) as [id Hid]; [lia|].
  rewrite Hid. exists (setActivePage m id true). split; [reflexivity|].
  destruct (setActivePage_frame m id true) as [Hpages Horder].
  split; [exact Hpages|]. split; [exact Horder|].
  assert (Htracked : is_Some (pages m !! id)).
  { apply (inv_order m HI). eapply list_elem_of_lookup_2, Hid. }
  pose proof (setActivePage_active m id true Htracked) as Hactive.
  destruct (ListOpenPages_consistent _ (setActivePage_Inv m id true HI)) as (_ & Hshow & _).
  intros tab Htab. apply list_elem_of_lookup_1 in Htab as [j Hj].
  destruct (Hshow j tab Hj) as (id' & pg & Ho & _ & Hindex & _ & _ & Hact).
  rewrite Hact, Hactive, Hindex. rewrite Horder in Ho. split.
  - intros ->. pose proof (NoDup_lookup _ _ _ _ (inv_nodup m HI) Ho Hid). lia.
  - intros Hij. replace j with (Z.to_nat (i - 1)) in Ho by lia. congruence.
Qed.

(** [pg] matches the lower-cased target: its title or its URL contains it,
    case folded. *)
Definition matches (lower : string) (pg : Page) : bool :=
  Contains (ToLower (pageTitle pg)) lower || Contains (ToLower (pageURL pg)) lower.

Lemma switchByMatch_first (m : Manager) (lower target : string) (order : list string) :
  (forall id, id ∈ order -> is_Some (pages m !! id)) ->
  match switchByMatch pageTitle pageURL m lower target order with
  | (m', Ok) =>
      exists i id pg,
        order !! i = Some id /\ pages m !! id = Some pg /\ matches lower pg = true /\
        m' = setActivePage m id true /\
        forall j id' pg', (j < i)%nat -> order !! j = Some id' -> pages m !! id' = Some pg' ->
                          matches lower pg' = false
  | (m', Err e) =>
      m' = m /\ e = "no page matches target " +:+ Quote target /\
      forall id pg, id ∈ order -> pages m !! id = Some pg -> matches lower pg = false
  | (_, Panic) => False
  end.
Proof.
  induction order as [|id order IH]; intros Htracked; cbn [switchByMatch].
  - split; [reflexivity|]. split; [reflexivity|]. intros id pg Hin. inversion Hin.
  - destruct (Htracked id) as [pg Hpg]; [now left|]. rewrite Hpg.
    fold (matches lower pg). destruct (matches lower pg) eqn:Hm.
    + exists 0%nat, id, pg. split; [reflexivity|]. split; [assumption|].
      split; [assumption|]. split; [reflexivity|]. intros j ? ? Hj. lia.
    + specialize (IH (fun x Hx => Htracked x (list_elem_of_further _ _ _ Hx))).
      destruct (switchByMatch pageTitle pageURL m lower target order) as [m' [|e|]].
      * destruct IH as (i & id' & pg' & Hi & Hp & Hmatch & Hm' & Hbefore).
        exists (S i), id', pg'. split; [assumption|]. split; [assumption|].
        split; [assumption|]. split; [assumption|].
        intros [|j] id'' pg'' Hj Hl Hp''.
        -- cbn in Hl. injection Hl as <-. congruence.
        -- apply (Hbefore j id'' pg''); [lia|assumption|assumption].
      * destruct IH as (-> & -> & Hnone). split; [reflexivity|]. split; [reflexivity|].
        intros id' pg' Hin Hp'. apply elem_of_cons in Hin as [->|Hin]; [congruence|].
        now apply (Hnone id' pg').
      * assumption.
Qed.

(** X11: a target that is not a number selects by content, and the first
    match wins: [SwitchToPage] activates the first page of the order whose
    title or URL contains the trimmed target, letter case ignored, and
    leaves the rest of the registry alone; when no tracked page matches it
    fails with "no page matches target ..." and changes nothing. *)
Theorem SwitchToPage_first_match_wins (ops : list RegistryOp) (target : string) :
  let m := fold_left applyOp ops emptyManager in
  let lower := ToLower (TrimSpace target) in
  pageOrder m <> [] ->
  TrimSpace target <> "" ->
  Atoi (TrimSpace target) = None ->
  match SwitchToPage pageTitle pageURL m Alive target with
  | (m', Ok) =>
      exists i id pg,
        pageOrder m !! i = Some id /\ pages m !! id = Some pg /\ matches lower pg = true /\
        activePageID m' = id /\ page m' = Some pg /\
        pages m' = pages m /\ pageOrder m' = pageOrder m /\
        forall j id' pg', (j < i)%nat -> pageOrder m !! j = Some id' ->
                          pages m !! id' = Some pg' -> matches lower pg' = false
  | (m', Err e) =>
      m' = m /\ e = "no page matches target " +:+ Quote (TrimSpace target) /\
      forall id pg, pages m !! id = Some pg -> matches lower pg = false
  | (_, Panic) => False
  end.
Proof.
  cbv zeta. pose proof (reachable_Inv ops) as HI.
  set (m := fold_left applyOp ops emptyManager) in *.
  intros Hpages Htarget Hatoi. unfold SwitchToPage. cbn [ensureBrowser].
  destruct (last (pageOrder m)) as [nextID|] eqn:Hlast.
  2:{ apply last_None in Hlast. contradiction. }
  destruct (String.eqb_spec (TrimSpace target) "") as [|_]; [contradiction|].
  rewrite Hatoi.
  pose proof (switchByMatch_first m (ToLower (TrimSpace target)) (TrimSpace target)
                (pageOrder m) (fun id Hid => proj1 (inv_order m HI id) Hid)) as Hfirst.
  destruct (switchByMatch _ _ _ _ _ _) as [m' [|e|]]; [| |assumption].
  - destruct Hfirst as (i & id & pg & Hi & Hp & Hmatch & -> & Hbefore).
    exists i, id, pg. split; [assumption|]. split; [assumption|]. split; [assumption|].
    destruct (setActivePage_frame m id true) as [Hps Ho].
    split; [apply setActivePage_active; eauto|].
    split; [unfold setActivePage; now rewrite Hp|].
    split; [assumption|]. split; [assumption|]. exact Hbefore.
  - destruct Hfirst as (-> & -> & Hnone). split; [reflexivity|]. split; [reflexivity|].
    intros id pg Hp. apply (Hnone id pg); [|assumption].
    apply (inv_order m HI). eauto.
Qed.


End Tabs.

(** The registrations of [rebuildPageTracking], after the first page. *)
Lemma rebuild_keeps_first (p : Page) (rest : list Page) (m : Manager) :
  Inv m -> activePageID m = pageIdentifier p -> page m = Some p -> pageOrder m <> [] ->
  let m' := fold_left
              (fun m pg =>
                 let activate := (slice_len (pageOrder m) =? 0)
                                 && String.eqb (activePageID m) "" in
                 registerPage m (Some pg) activate)
              rest m in
  Inv m' /\ activePageID m' = pageIdentifier p /\ page m' = Some p /\ pageOrder m' <> [] /\
  (forall id, id ∈ pageOrder m' <->
              id ∈ pageOrder m \/ exists q, q ∈ rest /\ pageIdentifier q = id).
Proof.
  revert m. induction rest as [|q rest IH]; intros m HI Hact Hpage Hne; cbn [fold_left].
  - cbv zeta. split; [assumption|]. split; [assumption|]. split; [assumption|].
    split; [assumption|]. intros id. split; [now left|].
    intros [Hin|(q & Hq & _)]; [assumption|inversion Hq].
  - cbv zeta.
    assert (Hfalse : (slice_len (pageOrder m) =? 0) && String.eqb (activePageID m) "" = false).
    { rewrite Hact. destruct (String.eqb_spec (pageIdentifier p) "") as [He|_].
      - now apply pageIdentifier_nonempty in He.
      - apply andb_false_r. }
    rewrite Hfalse.
    set (m1 := registerPage m (Some q) false).
    assert (H1 : Inv m1 /\ activePageID m1 = pageIdentifier p /\ page m1 = Some p /\
                 pageOrder m1 <> [] /\
                 (forall id, id ∈ pageOrder m1 <-> id ∈ pageOrder m \/ pageIdentifier q = id)).
    { split; [now apply registerPage_Inv|].
      destruct (pages m !! pageIdentifier q) as [q'|] eqn:Hq.
      - assert (Hsame : m1 = m) by (unfold m1, registerPage; now rewrite Hq).
        rewrite Hsame. split; [assumption|]. split; [assumption|]. split; [assumption|].
        intros id. split; [now left|]. intros [Hin| <-]; [assumption|].
        apply (inv_order m HI). eauto.
      - destruct (registerPage_active m q false Hq) as [Ha Hp].
        rewrite orb_false_l, Hact in Ha, Hp.
        destruct (String.eqb_spec (pageIdentifier p) "") as [He|_];
          [now apply pageIdentifier_nonempty in He|].
        fold m1 in Ha, Hp. split; [assumption|]. split; [now rewrite Hp|].
        pose proof (registerPage_order m q false Hq) as Ho. fold m1 in Ho.
        rewrite Ho. split; [now destruct (pageOrder m)|].
        intros id. rewrite elem_of_app, list_elem_of_singleton. split.
        + intros [?| ->]; auto.
        + intros [?| <-]; auto. }
    destruct H1 as (HI1 & Hact1 & Hpage1 & Hne1 & Hin1).
    destruct (IH m1 HI1 Hact1 Hpage1 Hne1) as (HI' & Hact' & Hpage' & Hne' & Hin').
    cbv zeta in *. split; [assumption|]. split; [assumption|]. split; [assumption|].
    split; [assumption|]. intros id. rewrite Hin', Hin1. split.
    + intros [[?| <-]|(x & Hx & <-)]; auto.
      * right. exists q. split; [now left|reflexivity].
      * right. exists x. split; [now right|reflexivity].
    + intros [?|(x & Hx & <-)]; auto.
      apply elem_of_cons in Hx as [->|Hx]; auto. right. now exists x.
Qed.

(** X13: [rebuildPageTracking] forgets whatever was tracked before.  From a
    context with pages it tracks exactly these pages and makes the first of
    them the active page; from a context without pages it leaves no page
    active; a nil context leaves the registry as it was. *)
Theorem rebuildPageTracking_activates_the_first_page
    (m : Manager) (p : Page) (rest : list Page) :
  let m' := rebuildPageTracking m (Some (p :: rest)) in
  activePageID m' = pageIdentifier p /\
  page m' = Some p /\
  (forall id, id ∈ pageOrder m' <-> exists q, q ∈ p :: rest /\ pageIdentifier q = id) /\
  (forall id, is_Some (pages m' !! id) <-> id ∈ pageOrder m') /\
  rebuildPageTracking m (Some []) = emptyManager /\
  rebuildPageTracking m None = m.
Proof.
  cbv zeta. unfold rebuildPageTracking. cbn [fold_left].
  change ((slice_len (pageOrder {| page := None; pageListeners := ∅; pages := ∅;
                                   pageOrder := []; activePageID := "" |}) =? 0)
          && String.eqb (activePageID {| page := None; pageListeners := ∅; pages := ∅;
                                         pageOrder := []; activePageID := "" |}) "")
    with true.
  set (m0 := registerPage _ (Some p) true).
  assert (Hfresh : pages emptyManager !! pageIdentifier p = None) by apply lookup_empty.
  destruct (registerPage_active emptyManager p true Hfresh) as [Ha Hp].
  rewrite orb_true_l in Ha, Hp.
  pose proof (registerPage_order emptyManager p true Hfresh) as Ho.
  pose proof (registerPage_Inv emptyManager (Some p) true emptyManager_Inv) as HI0.
  change (registerPage emptyManager (Some p) true) with m0 in *.
  destruct (rebuild_keeps_first p rest m0 HI0 Ha Hp) as (HI & Hact & Hpage & Hne & Hin).
  { rewrite Ho. discriminate. }
  cbv zeta in *.
  set (m1 := fold_left _ rest m0) in *.
  assert (Hfinal : match pageOrder m1 with
                   | [] => m1
                   | first :: _ =>
                       if String.eqb (activePageID m1) ""
                       then setActivePage m1 first false else m1
                   end = m1).
  { destruct (pageOrder m1); [reflexivity|]. rewrite Hact.
    destruct (String.eqb_spec (pageIdentifier p) "") as [He|_]; [|reflexivity].
    now apply pageIdentifier_nonempty in He. }
  rewrite Hfinal. split; [assumption|]. split; [assumption|]. split.
  - intros id. rewrite Hin, Ho. cbn [pageOrder emptyManager app]. split.
    + intros [Hid|(q & Hq & <-)].
      * apply list_elem_of_singleton in Hid as ->. exists p. split; [now left|reflexivity].
      * exists q. split; [now right|reflexivity].
    + intros (q & Hq & <-). apply elem_of_cons in Hq as [->|Hq].
      * left. now left.
      * right. now exists q.
  - split; [|split; reflexivity]. intros id. symmetry. apply (inv_order m1 HI).
Qed.

End registry_props.

(** ** What the agent does and does not do *)

Module conduct_props.
Import GoInt GoStrings GoFacts world ai ctxmgr world_props action_props plan_props.
Import executeAction_props iterate_props.
Local Open Scope world_scope.

(** [m] always returns, with a result satisfying [Q], having only added
    calls that satisfy [P]. *)
Definition yields (P : Call -> Prop) {A} (Q : A -> Prop) (m : M A) : Prop :=
  forall h, exists a new, m h = Some (a, new ++ h) /\ Forall P new /\ Q a.

Lemma yields_ret (P : Call -> Prop) {A} (Q : A -> Prop) (a : A) : Q a -> yields P Q (ret a).
Proof. intros Ha h. exists a, []. split; [reflexivity|]. split; [constructor|assumption]. Qed.

Lemma yields_call (P : Call -> Prop) (env : Env) (c : Call) (Q : Resp c -> Prop) :
  P c -> (forall h, Q (env h c)) -> yields P Q (call env c).
Proof.
  intros Hc HQ h. exists (env h c), [c]. split; [reflexivity|].
  split; [constructor; [assumption|constructor]|apply HQ].
Qed.

Lemma yields_bind (P : Call -> Prop) {A B} (Q : A -> Prop) (R : B -> Prop)
    (m : M A) (k : A -> M B) :
  yields P Q m -> (forall a, Q a -> yields P R (k a)) -> yields P R (bind m k).
Proof.
  intros Hm Hk h. destruct (Hm h) as (a & new & Hrun & Hnew & Ha).
  destruct (Hk a Ha (new ++ h)) as (b & new' & Hrun' & Hnew' & Hb).
  exists b, (new' ++ new). unfold bind. rewrite Hrun, Hrun'.
  split; [now rewrite app_assoc|]. split; [now apply Forall_app|assumption].
Qed.

Lemma adds_yields (P : Call -> Prop) {A} (m : M A) : adds P m -> yields P (fun _ => True) m.
Proof.
  intros Hm h. destruct (Hm h) as (a & new & Hrun & Hnew). now exists a, new.
Qed.

Lemma yields_adds (P : Call -> Prop) {A} (Q : A -> Prop) (m : M A) : yields P Q m -> adds P m.
Proof.
  intros Hm h. destruct (Hm h) as (a & new & Hrun & Hnew & _). now exists a, new.
Qed.



(** The operator's console. *)
Definition console (c : Call) : bool :=
  match c with
  | Stdout _ | StdinReadLine => true
  | _ => false
  end.

(** The calls that change something in the browser or wait for the
    operator. *)
Definition touching (c : Call) : bool :=
  match c with
  | PageGoto _ | PageClick _ | PageFill _ _ | PageFocus _ | PageType _ _
  | KeyboardPress _ | SwitchToPage _ | PageWaitForLoadState | Stdout _ | StdinReadLine => true
  | _ => false
  end.

(** Unfolds the [Manager] and validator methods, then the computation. *)
Ltac adds_all :=
  unfold manager.Click, manager.Fill, manager.Focus, manager.TypeText, manager.PressKey,
    manager.pageAction, manager.Navigate, manager.WaitForNavigation, manager.GetPageContent,
    validator.RequestConfirmation, validator.LogAction;
  repeat adds_step.

Section Conduct.
Context `{GoText} `{GoJSON}.
Variable env : Env.


(** X15: a decision without [needs_confirm] is executed without any
    confirmation, whatever its action: nothing is printed to the console
    and nothing is read from it. *)
Theorem unflagged_decision_is_never_confirmed
    (a : agent.Agent) (d : DecisionResponse) (h : Trace) :
  NeedsConfirm d = false ->
  exists r new,
    agent.executeAction env a d h = Some (r, new ++ h) /\
    Forall (fun c => console c = false) new.
Proof.
  intros Hflag. rewrite (executeAction_unconfirmed env a d h Hflag).
  revert h. cbv zeta.
  match goal with
  | |- forall h, exists r new, ?m h = _ /\ _ => change (adds (fun c => console c = false) m)
  end.
  adds_all.
Qed.

(** The operator's answer does not approve: the read fails, or the line is
    neither "yes" nor "y" once trimmed and lower-cased. *)
Definition refuses (answer : string * option error) : Prop :=
  match answer.2 with
  | Some _ => True
  | None => String.eqb (ToLower (TrimSpace answer.1)) "yes"
            || String.eqb (ToLower (TrimSpace answer.1)) "y" = false
  end.

(** X16: a decision with [needs_confirm] that the operator does not
    approve is not executed: [executeAction] returns "action denied by
    user" (or "confirmation check failed: ..." when the answer cannot be
    read) and has talked to the console only. *)
Theorem unapproved_action_is_not_executed
    (a : agent.Agent) (d : DecisionResponse) (h : Trace) :
  NeedsConfirm d = true ->
  (forall h', refuses (env h' StdinReadLine)) ->
  exists e new,
    agent.executeAction env a d h = Some (Some e, new ++ h) /\
    Forall (fun c => console c = true) new /\
    (e = "action denied by user" \/ exists e', e = "confirmation check failed: " +:+ e').
Proof.
  intros Hflag Hrefuses.
  set (Q := fun r : option error =>
              exists e, r = Some e /\
                        (e = "action denied by user" \/
                         exists e', e = "confirmation check failed: " +:+ e')).
  assert (Hrun : yields (fun c => console c = true) Q (agent.executeAction env a d)).
  { unfold agent.executeAction. rewrite Hflag.
    apply (yields_bind _ Q).
    - apply (yields_bind _ (fun r : bool * option error => r.2 <> None \/ r.1 = false)).
      + unfold validator.RequestConfirmation.
        do 5 (apply (yields_bind _ (fun _ => True));
              [apply adds_yields; repeat adds_step|intros ? _]).
        apply (yields_bind _ refuses).
        * refine (yields_call _ env StdinReadLine refuses _ _); [reflexivity|exact Hrefuses].
        * intros [response [e|]] Hr; apply yields_ret; cbn; [left; discriminate|].
          right. exact Hr.
      + intros [approved [e|]] Hr.
        * apply yields_ret. exists ("confirmation check failed: " +:+ e). split; eauto.
        * destruct Hr as [Hr|Hr]; [now contradiction Hr|]. cbn in Hr. subst approved.
          apply (yields_bind _ (fun _ => True)).
          { apply adds_yields. unfold validator.LogAction. repeat adds_step. }
          intros _ _. apply yields_ret. exists "action denied by user". split; eauto.
    - intros r (e & -> & He). apply yields_ret. exists e. split; [reflexivity|exact He]. }
  destruct (Hrun h) as (r & new & Hr & Hnew & e & -> & He).
  exists e, new. auto.
Qed.

(** X17: [analyzeAndDecide] never returns an error: whenever it returns, its
    error is [nil], whether the oracle answered, failed or sent a reply that
    does not decode; and it has asked the oracle exactly once.  So
    [ExecuteTask] never returns "decision making failed". *)
Theorem analyzeAndDecide_never_returns_an_error
    (fuel : nat) (a : agent.Agent) (pc : browser.PageContent.t) (h : Trace) :
  match agent.analyzeAndDecide env fuel a pc h with
  | Some ((_, err, _), h') =>
      err = None /\
      chatCalls h'
      = (agent.analyzeSystemPrompt,
         agent.analyzeUserInput (agent.currentTask a)
           (agent.buildPageDescription pc (env h ListOpenPages))) :: chatCalls h
  | None => True
  end.
Proof.
  unfold agent.analyzeAndDecide. rewrite bind_call. cbv zeta.
  destruct (agent.makeRoom _ _ _) as [cm|]; [|exact I].
  unfold client.MakeDecision. rewrite bind_assoc, bind_call.
  destruct (env _ (CreateChatCompletion _ _)) as [e|[|raw more]].
  - rewrite bind_ret. cbv beta iota. rewrite bind_call. split; reflexivity.
  - rewrite bind_ret. cbv beta iota. rewrite bind_call. split; reflexivity.
  - destruct (jsonUnmarshal _) as [d|e]; rewrite bind_ret; cbv beta iota.
    + destruct (Add _ _ _) as [tc [e|]].
      * destruct (Add _ _ _) as [tc' ?]. unfold when.
        destruct (agent.verbose a); rewrite ?bind_assoc, ?bind_call, ?bind_ret;
          cbv beta iota; rewrite ?bind_call, ?bind_ret; split; reflexivity.
      * unfold when. destruct (agent.verbose a); rewrite ?bind_ret, ?bind_call;
          cbv beta iota; rewrite ?bind_call, ?bind_ret; split; reflexivity.
    + rewrite bind_call. split; reflexivity.
Qed.

(** The calls that only look: the liveness check, the snapshot, the tab
    list, the oracle and the log. *)
Definition observing (c : Call) : bool :=
  match c with
  | EnsureBrowser | PageSnapshot | ListOpenPages | CreateChatCompletion _ _ | PlanTask _ _
  | Log _ => true
  | _ => false
  end.

(** The oracle answers every request with a decision that decodes and
    declares the task complete. *)
Definition oracleCompletes : Prop :=
  forall h s u, exists raw more d,
    env h (CreateChatCompletion s u) = ChatChoices (raw :: more) /\
    jsonUnmarshal (client.stripFence raw) = inl d /\
    IsComplete d = true.

(** The prompt for a page fits the budget of a zeroed counter. *)
Definition firstPromptFits (a : agent.Agent) (task : string) : Prop :=
  forall h h',
    CanAddTokens
      {| PromptTokens := 0; CompletionTokens := 0; TotalTokens := 0;
         MaxTokens := MaxTokens (tokenCounter (agent.contextMgr a)) |}
      (add (add (EstimateTokens agent.analyzeSystemPrompt)
                (EstimateTokens
                   (agent.analyzeUserInput task
                      (agent.buildPageDescription (env h PageSnapshot)
                                                  (env h' ListOpenPages)))))
           400) = true.

Lemma yields_log (P : Call -> Prop) (b : bool) (text : string) :
  P (Log text) -> yields P (fun _ => True) (when b (call env (Log text))).
Proof.
  intros HP. apply adds_yields, adds_when. refine (adds_call P env (Log text) _). exact HP.
Qed.

Lemma GetPageContent_yields (P : Call -> Prop) :
  P EnsureBrowser -> P PageSnapshot -> browserAlive env ->
  yields P (fun got => got.2 = None /\ exists hs, got.1 = env hs PageSnapshot)
    (manager.GetPageContent env).
Proof.
  intros HE HS Halive h. rewrite (GetPageContent_alive env h Halive).
  exists (env (EnsureBrowser :: h) PageSnapshot, None), [PageSnapshot; EnsureBrowser].
  split; [reflexivity|]. split; [repeat constructor; assumption|].
  split; [reflexivity|]. now eexists.
Qed.

Lemma analyzeAndDecide_completes (fuel : nat) (a : agent.Agent) (hs : Trace) :
  oracleCompletes ->
  (forall h',
      CanAddTokens (tokenCounter (agent.contextMgr a))
        (add (add (EstimateTokens agent.analyzeSystemPrompt)
                  (EstimateTokens
                     (agent.analyzeUserInput (agent.currentTask a)
                        (agent.buildPageDescription (env hs PageSnapshot)
                                                    (env h' ListOpenPages)))))
             400) = true) ->
  yields (fun c => observing c = true)
    (fun r => r.1.2 = None /\ IsComplete r.1.1 = true /\ agent.verbose r.2 = agent.verbose a)
    (agent.analyzeAndDecide env (S fuel) a (env hs PageSnapshot)).
Proof.
  intros Horacle Hroom. unfold agent.analyzeAndDecide.
  set (Q := fun tabs =>
              CanAddTokens (tokenCounter (agent.contextMgr a))
                (add (add (EstimateTokens agent.analyzeSystemPrompt)
                          (EstimateTokens
                             (agent.analyzeUserInput (agent.currentTask a)
                                (agent.buildPageDescription (env hs PageSnapshot) tabs))))
                     400) = true).
  apply (yields_bind _ Q).
  { refine (yields_call _ env ListOpenPages Q _ _); [reflexivity|exact Hroom]. }
  intros tabs Htabs. unfold Q in Htabs. cbv zeta. cbn [agent.makeRoom].
  rewrite !ctxmgr_props.AddMessage_tokenCounter, Htabs.
  apply (yields_bind _ (fun made => made.2 = None /\ IsComplete made.1 = true)).
  { intros h. destruct (Horacle h agent.analyzeSystemPrompt
                          (agent.analyzeUserInput (agent.currentTask a)
                             (agent.buildPageDescription (env hs PageSnapshot) tabs)))
      as (raw & more & d & Hreply & Hdec & Hdone).
    rewrite (MakeDecision_decoded env _ _ raw more d h Hreply Hdec).
    eexists (d, None), [_]. split; [reflexivity|].
    split; [repeat constructor|]. split; [reflexivity|exact Hdone]. }
  intros [d [e|]] [Herr Hdone]; [discriminate|]. cbn in Hdone.
  destruct (Add _ _ _) as [tc [e|]].
  - destruct (Add _ _ _) as [tc' ?].
    apply (yields_bind _ (fun _ => True)).
    { apply (yields_bind _ (fun _ => True)); [now apply yields_log|].
      intros _ _. now apply yields_ret. }
    intros cm _. apply (yields_bind _ (fun _ => True)); [now apply yields_log|].
    intros _ _. apply yields_ret. repeat split. exact Hdone.
  - apply (yields_bind _ (fun _ => True)); [now apply yields_ret|].
    intros cm _. apply (yields_bind _ (fun _ => True)); [now apply yields_log|].
    intros _ _. apply yields_ret. repeat split. exact Hdone.
Qed.

(** X18: in the fallback mode, a decision that sets [is_complete] ends the
    task with success at once and its own action is not executed:
    [ExecuteTask] returns [nil] having only looked at the page, asked the
    oracle and logged.  The task starts without navigation, the browser
    stays available, no page looks blocked and the first prompt fits the
    token budget. *)
Theorem complete_decision_is_not_executed
    (fuel : nat) (a : agent.Agent) (task initialURL : string) (h : Trace) :
  initialURL = "" \/ initialURL = "about:blank" ->
  1 <= agent.maxIterations a ->
  browserAlive env -> neverBlocked env -> planningFails env -> oracleCompletes ->
  firstPromptFits a task ->
  exists a' new,
    agent.ExecuteTask env (S fuel) a task initialURL h = Some ((None, a'), new ++ h) /\
    Forall (fun c => observing c = true) new.
Proof.
  intros Hurl Hcap Halive Hclear Hplan Horacle Hfits.
  set (P := fun c => observing c = true).
  assert (Hrun : yields P (fun r => r.1 = None) (agent.ExecuteTask env (S fuel) a task initialURL)).
  { unfold agent.ExecuteTask. cbv zeta.
    set (a0 := agent.set_contextMgr (agent.set_currentTask a task) _).
    replace (negb (String.eqb initialURL "") && negb (String.eqb initialURL "about:blank"))
      with false by (destruct Hurl as [-> | ->]; reflexivity).
    apply (yields_bind _ (fun _ => True)).
    { apply adds_yields. repeat adds_step. }
    intros _ _. apply (yields_bind _ (fun nav => nav = None)); [now apply yields_ret|].
    intros nav ->.
    apply (yields_bind _ _ _ _ _ (GetPageContent_yields P eq_refl eq_refl Halive)).
    intros [pc [e|]] [Herr _]; [discriminate|].
    apply (yields_bind _ (fun _ => True)).
    { refine (yields_call _ env ListOpenPages _ _ _); [reflexivity|trivial]. }
    intros tabs _. cbv zeta.
    apply (yields_bind _ (fun plan => exists e, plan.2 = Some e)).
    { refine (yields_call _ env (PlanTask _ _) _ _ _); [reflexivity|].
      intros h0. destruct (Hplan h0 task (agent.buildPageDescription pc tabs))
        as (steps & e & ->). now exists e. }
    intros [steps [e|]] [e' He']; [|discriminate].
    apply (yields_bind _ (fun _ => True)); [now apply yields_log|]. intros _ _.
    destruct (Z.to_nat (agent.maxIterations a0)) as [|n] eqn:Hn.
    { cbn [agent.maxIterations a0 agent.set_contextMgr agent.set_currentTask] in Hn. lia. }
    cbn [agent.iterateLoop].
    apply (yields_bind _ (fun _ => True)); [now apply yields_log|]. intros _ _.
    apply (yields_bind _ _ _ _ _ (GetPageContent_yields P eq_refl eq_refl Halive)).
    intros [pc1 [e1|]] [Herr1 [hs Hpc1]]; [discriminate|]. cbn in Hpc1. subst pc1.
    rewrite (Hclear hs).
    apply (yields_bind _ _ _ _ _ (analyzeAndDecide_completes fuel a0 hs Horacle (Hfits hs))).
    intros [[d err] a1] (Herr2 & Hdone & _). cbn in Herr2, Hdone. subst err.
    apply (yields_bind _ (fun _ => True)); [now apply yields_log|]. intros _ _.
    rewrite Hdone.
    apply (yields_bind _ (fun _ => True)); [now apply yields_log|]. intros _ _.
    now apply yields_ret. }
  destruct (Hrun h) as ([r a'] & new & Hr & Hnew & Hnone). cbn in Hnone. subst r.
  now exists a', new.
Qed.

(** X19: when the browser cannot be brought up, [ExecuteTask] fails before
    anything else happens: with "failed to navigate to initial URL: browser
    not available: ..." when an initial URL is given, with "failed to get
    page content for planning: browser not available: ..." otherwise.  No
    driver operation is issued and the oracle is not asked. *)
Theorem unavailable_browser_fails_the_task
    (fuel : nat) (a : agent.Agent) (task initialURL : string) (e : error) (h : Trace) :
  (forall h', env h' EnsureBrowser = Some e) ->
  exists a' new,
    agent.ExecuteTask env fuel a task initialURL h
    = Some ((Some ((if negb (String.eqb initialURL "")
                       && negb (String.eqb initialURL "about:blank")
                    then "failed to navigate to initial URL: "
                    else "failed to get page content for planning: ")
                   +:+ "browser not available: " +:+ e), a'), new ++ h) /\
    Forall (fun c => c = EnsureBrowser \/ isLog c = true) new.
Proof.
  intros Hdown.
  set (P := fun c => c = EnsureBrowser \/ isLog c = true).
  set (msg := (if negb (String.eqb initialURL "") && negb (String.eqb initialURL "about:blank")
               then "failed to navigate to initial URL: "
               else "failed to get page content for planning: ")
              +:+ "browser not available: " +:+ e).
  assert (Hrun : yields P (fun r => r.1 = Some msg)
                   (agent.ExecuteTask env fuel a task initialURL)).
  { unfold agent.ExecuteTask. cbv zeta.
    apply (yields_bind _ (fun _ => True)).
    { apply adds_yields, adds_when, adds_bind; [|intros ?];
        refine (adds_call P env (Log _) _); now right. }
    intros _ _. unfold msg.
    destruct (negb (String.eqb initialURL "") && negb (String.eqb initialURL "about:blank")).
    - apply (yields_bind _ (fun nav => nav = Some ("failed to navigate to initial URL: "
                                                   +:+ "browser not available: " +:+ e))).
      + unfold manager.Navigate.
        apply (yields_bind _ (fun r => r = Some ("browser not available: " +:+ e))).
        * apply (yields_bind _ (fun r => r = Some e)).
          -- refine (yields_call _ env EnsureBrowser _ _ _); [now left|exact Hdown].
          -- intros r ->. now apply yields_ret.
        * intros r ->. now apply yields_ret.
      + intros nav ->. now apply yields_ret.
    - apply (yields_bind _ (fun nav => nav = None)); [now apply yields_ret|].
      intros nav ->. unfold manager.GetPageContent.
      apply (yields_bind _ (fun got => got.2 = Some ("browser not available: " +:+ e))).
      + apply (yields_bind _ (fun r => r = Some e)).
        * refine (yields_call _ env EnsureBrowser _ _ _); [now left|exact Hdown].
        * intros r ->. now apply yields_ret.
      + intros [pc err] Herr. cbn in Herr. subst err. now apply yields_ret. }
  destruct (Hrun h) as ([r a'] & new & Hr & Hnew & Hmsg). cbn in Hmsg. subst r.
  now exists a', new.
Qed.

(** X20: an empty plan is a plan: when the planner returns no step and no
    error, [ExecuteTask] does not fall back to the iterative mode; it
    reports success without asking the oracle for a single decision (or
    fails in the initial navigation). *)
Theorem empty_plan_succeeds_without_a_decision
    (fuel : nat) (a : agent.Agent) (task initialURL : string) (h : Trace) :
  browserAlive env ->
  (forall h' t d, env h' (PlanTask t d) = ([], None)) ->
  exists r a' new,
    agent.ExecuteTask env fuel a task initialURL h = Some ((r, a'), new ++ h) /\
    Forall (fun c => isChat c = false) new /\
    (r = None \/ exists e, r = Some ("failed to navigate to initial URL: " +:+ e)).
Proof.
  intros Halive Hempty.
  set (P := fun c => isChat c = false).
  set (Q := fun r : option error =>
              r = None \/ exists e, r = Some ("failed to navigate to initial URL: " +:+ e)).
  assert (Hrun : yields P (fun r => Q r.1) (agent.ExecuteTask env fuel a task initialURL)).
  { unfold agent.ExecuteTask. cbv zeta.
    apply (yields_bind _ (fun _ => True)).
    { apply adds_yields. repeat adds_step. }
    intros _ _. apply (yields_bind _ Q).
    { destruct (_ && _); [|apply yields_ret; now left].
      apply (yields_bind _ (fun _ => True)).
      { apply adds_yields, (Navigate_adds env P). intros c Hc. now apply plain_notChat. }
      intros [e|] _; [apply yields_ret; right; now exists e|].
      apply (yields_bind _ (fun _ => True)).
      { apply adds_yields, (WaitForNavigation_adds env P). intros c Hc. now apply plain_notChat. }
      intros [e|] _; [|apply yields_ret; now left].
      apply (yields_bind _ (fun _ => True)).
      { apply adds_yields. repeat adds_step. }
      intros _ _. apply yields_ret. now left. }
    intros [e|] Hnav; [now apply yields_ret|].
    apply (yields_bind _ _ _ _ _ (GetPageContent_yields P eq_refl eq_refl Halive)).
    intros [pc [e|]] [Herr _]; [discriminate|].
    apply (yields_bind _ (fun _ => True)).
    { refine (yields_call _ env ListOpenPages _ _ _); [reflexivity|trivial]. }
    intros tabs _. cbv zeta.
    apply (yields_bind _ (fun plan => plan = ([], None))).
    { refine (yields_call _ env (PlanTask _ _) _ _ _); [reflexivity|]. intros h0. apply Hempty. }
    intros plan ->.
    apply (yields_bind _ (fun _ => True)); [now apply yields_log|]. intros _ _.
    cbn [agent.planLoop].
    apply (yields_bind _ (fun done => done.1 = None)); [now apply yields_ret|].
    intros [err a1] Hdone. cbn in Hdone. subst err.
    apply (yields_bind _ (fun _ => True)); [now apply yields_log|]. intros _ _.
    apply yields_ret. now left. }
  destruct (Hrun h) as ([r a'] & new & Hr & Hnew & HQ).
  now exists r, a', new.
Qed.



End Conduct.
End conduct_props.

(** ** Selectors *)

Module selector_props.
Import GoStrings selectors.

(** Reading an escaped attribute value back: a backslash stands for the
    byte that follows it. *)
Fixpoint unescape (s : string) : string :=
  match s with
  | EmptyString => EmptyString
  | String c rest =>
      if Ascii.eqb c backslash then
        match rest with
        | EmptyString => EmptyString
        | String c' rest' => String c' (unescape rest')
        end
      else String c (unescape rest)
  end.

Lemma append_cons (c : ascii) (s t : string) : String c s +:+ t = String c (s +:+ t).
Proof. reflexivity. Qed.

Lemma append_empty (t : string) : EmptyString +:+ t = t.
Proof. reflexivity. Qed.

Lemma unescape_cssEscapeAttrValue (value : string) :
  unescape (cssEscapeAttrValue value) = value.
Proof.
  assert (Hbq : Ascii.eqb backslash quote = false) by reflexivity.
  assert (Hqb : Ascii.eqb quote backslash = false) by reflexivity.
  unfold cssEscapeAttrValue. induction value as [|c value IH]; [reflexivity|].
  cbn [replaceByte].
  destruct (Ascii.eqb_spec c backslash) as [->|Hb].
  - rewrite !append_cons, append_empty. cbn [replaceByte]. rewrite Hbq.
    cbn [unescape]. rewrite Ascii.eqb_refl. now rewrite IH.
  - cbn [replaceByte]. destruct (Ascii.eqb_spec c quote) as [->|Hq].
    + rewrite !append_cons, append_empty. cbn [unescape].
      rewrite Ascii.eqb_refl. now rewrite IH.
    + cbn [unescape]. destruct (Ascii.eqb_spec c backslash); [contradiction|].
      now rewrite IH.
Qed.

Lemma append_inv_tail (s1 s2 t : string) : s1 +:+ t = s2 +:+ t -> s1 = s2.
Proof.
  intros Heq.
  assert (Hlen : String.length s1 = String.length s2).
  { apply (f_equal String.length) in Heq. rewrite !GoFacts.length_append in Heq. lia. }
  revert s2 Heq Hlen. induction s1 as [|c s1 IH]; intros [|c' s2] Heq Hlen;
    try discriminate; [reflexivity|].
  rewrite !append_cons in Heq. injection Heq as -> Heq. f_equal. apply IH; [assumption|].
  cbn in Hlen. lia.
Qed.

Lemma append_inv_head (t s1 s2 : string) : t +:+ s1 = t +:+ s2 -> s1 = s2.
Proof.
  induction t as [|c t IH]; rewrite ?append_empty, ?append_cons; intros Heq; [assumption|].
  injection Heq as Heq. now apply IH.
Qed.

(** X21: [cssEscapeAttrValue] loses nothing: the attribute value is read
    back from the escaped text by taking each backslash with the byte after
    it, so two values are escaped alike only when they are the same. *)
Theorem cssEscapeAttrValue_round_trip :
  (forall value, unescape (cssEscapeAttrValue value) = value) /\
  (forall a b, cssEscapeAttrValue a = cssEscapeAttrValue b -> a = b).
Proof.
  split; [exact unescape_cssEscapeAttrValue|].
  intros a b Heq. apply (f_equal unescape) in Heq.
  now rewrite !unescape_cssEscapeAttrValue in Heq.
Qed.

(** X22: an element with a non-empty [id] is selected by that id, whatever
    else the driver reports about it, and elements with different ids get
    different selectors. *)
Theorem getSelector_tells_ids_apart (e1 e2 : ElementHandle) (id1 id2 : string) :
  attrId e1 = (id1, None) -> attrId e2 = (id2, None) -> id1 <> "" -> id2 <> "" ->
  getSelector (Some e1) = ("[id=" +:+ dq +:+ cssEscapeAttrValue id1 +:+ dq +:+ "]", None) /\
  (getSelector (Some e1) = getSelector (Some e2) -> id1 = id2).
Proof.
  intros H1 H2 Hn1 Hn2.
  assert (Hsel : forall e id, attrId e = (id, None) -> id <> "" ->
                   getSelector (Some e)
                   = ("[id=" +:+ dq +:+ cssEscapeAttrValue id +:+ dq +:+ "]", None)).
  { intros e id He Hid. unfold getSelector. rewrite He.
    destruct (String.eqb_spec id "") as [|_]; [contradiction|]. reflexivity. }
  split; [now apply Hsel|].
  rewrite (Hsel e1 id1 H1 Hn1), (Hsel e2 id2 H2 Hn2). intros Heq.
  apply (f_equal fst) in Heq. cbn [fst] in Heq.
  apply (append_inv_head "[id=") in Heq. apply (append_inv_head dq) in Heq.
  apply append_inv_tail in Heq.
  apply (f_equal unescape) in Heq. now rewrite !unescape_cssEscapeAttrValue in Heq.
Qed.

(** X23: [extractElements] never fails, and what it lists depends on the
    kind: a button or a link is listed only when it has a text, every
    input, textarea and editable field is listed; and every listed element
    other than an input has a text that is not empty. *)
Theorem extractElements_lists_what_has_a_text
    (buttons links inputs textareas editables : list Queried) :
  let r := extractElements buttons links inputs textareas editables in
  r.2 = None /\
  length r.1
  = (length (List.filter (fun q => negb (String.eqb (textContent q) "")) buttons)
     + length (List.filter (fun q => negb (String.eqb (textContent q) "")) links)
     + length inputs + length textareas + length editables)%nat /\
  (forall el, el ∈ r.1 -> browser.ElementInfo.Type_ el <> "input" ->
              browser.ElementInfo.Text el <> "").
Proof.
  cbv zeta. unfold extractElements. cbn [fst snd app]. split; [reflexivity|].
  assert (HB : forall l i,
             length (extractButtons i l)
             = length (List.filter (fun q => negb (String.eqb (textContent q) "")) l) /\
             Forall (fun el => browser.ElementInfo.Text el <> "") (extractButtons i l)).
  { induction l as [|q l IH]; intros i; cbn [extractButtons List.filter];
      [split; [reflexivity|constructor]|].
    destruct (IH (i + 1)) as [Hl Hf].
    destruct (String.eqb_spec (textContent q) "") as [He|Hne]; cbn [negb length].
    - split; assumption.
    - split; [now rewrite Hl|]. constructor; [exact Hne|assumption]. }
  assert (HL : forall l i,
             length (extractLinks i l)
             = length (List.filter (fun q => negb (String.eqb (textContent q) "")) l) /\
             Forall (fun el => browser.ElementInfo.Text el <> "") (extractLinks i l)).
  { induction l as [|q l IH]; intros i; cbn [extractLinks List.filter];
      [split; [reflexivity|constructor]|].
    destruct (IH (i + 1)) as [Hl Hf].
    destruct (String.eqb_spec (textContent q) "") as [He|Hne]; cbn [negb length].
    - split; assumption.
    - split; [now rewrite Hl|]. constructor; [exact Hne|assumption]. }
  assert (HI : forall l i,
             length (extractInputs i l) = length l /\
             Forall (fun el => browser.ElementInfo.Type_ el = "input") (extractInputs i l)).
  { induction l as [|q l IH]; intros i; cbn [extractInputs length];
      [split; [reflexivity|constructor]|].
    destruct (IH (i + 1)) as [Hl Hf]. split; [now rewrite Hl|].
    constructor; [reflexivity|assumption]. }
  assert (HT : forall l i,
             length (extractTextareas i l) = length l /\
             Forall (fun el => browser.ElementInfo.Text el <> "") (extractTextareas i l)).
  { induction l as [|q l IH]; intros i; cbn [extractTextareas length];
      [split; [reflexivity|constructor]|].
    destruct (IH (i + 1)) as [Hl Hf]. split; [now rewrite Hl|].
    constructor; [|assumption]. cbn.
    destruct (String.eqb_spec (attrPlaceholder q) ""); [discriminate|assumption]. }
  assert (HE : forall l i,
             length (extractEditables i l) = length l /\
             Forall (fun el => browser.ElementInfo.Text el <> "") (extractEditables i l)).
  { induction l as [|q l IH]; intros i; cbn [extractEditables length];
      [split; [reflexivity|constructor]|].
    destruct (IH (i + 1)) as [Hl Hf]. split; [now rewrite Hl|].
    constructor; [|assumption]. cbn.
    destruct (String.eqb_spec (if String.eqb (attrAriaLabel q) "" then attrPlaceholder q
                               else attrAriaLabel q) ""); [discriminate|assumption]. }
  destruct (HB buttons 0) as [HB1 HB2], (HL links 0) as [HL1 HL2],
    (HI inputs 0) as [HI1 HI2], (HT textareas 0) as [HT1 HT2],
    (HE editables 0) as [HE1 HE2].
  split.
  - rewrite !length_app, HB1, HL1, HI1, HT1, HE1. lia.
  - intros el Hin Hkind. rewrite !elem_of_app in Hin.
    rewrite Forall_forall in HB2, HL2, HI2, HT2, HE2.
    destruct Hin as [[[[Hin|Hin]|Hin]|Hin]|Hin]; auto.
Qed.

End selector_props.

(** ** The planner *)

Module planner_props.
Import GoStrings world planner world_props.
Local Open Scope world_scope.

Section Planner.
Context `{GoText} `{GoJSONSteps}.
Variable env : Env.

(** The lines of a reply that count: trimmed, and not blank. *)
Definition countedLines (raw : string) : list string :=
  List.filter (fun l => negb (String.eqb l "")) (map TrimSpace (Split_nl raw)).

Lemma planLines_spec (steps : list string) (lines : list string) :
  planLines steps lines
  = steps ++ map cleanLine
               (List.filter (fun l => negb (String.eqb l "")) (map TrimSpace lines)).
Proof.
  revert steps. induction lines as [|l lines IH]; intros steps; cbn.
  - now rewrite app_nil_r.
  - destruct (String.eqb (TrimSpace l) ""); cbn; [apply IH|].
    rewrite IH, <- app_assoc. reflexivity.
Qed.

(** X24: a reply that is not a JSON array of strings is read line by line:
    every line that is not blank becomes a step, after what the decoder
    had already decoded.  [PlanTask] then fails, with "failed to parse plan
    JSON: ...", only when that leaves no step at all; otherwise it returns
    the steps without an error. *)
Theorem PlanTask_falls_back_to_lines
    (task pageContext content : string) (more partial : list string) (e : error)
    (h : Trace) :
  env h (CreateChatCompletion planSystemPrompt (planPrompt task pageContext))
  = ChatChoices (content :: more) ->
  unmarshalSteps (client.stripFence content) = (partial, Some e) ->
  let lines := countedLines (client.stripFence content) in
  exists steps err,
    PlanTask env task pageContext h
    = Some ((steps, err),
            CreateChatCompletion planSystemPrompt (planPrompt task pageContext) :: h) /\
    ((partial = [] /\ lines = [] /\ steps = [] /\
      err = Some ("failed to parse plan JSON: " +:+ e))
     \/
     (steps = partial ++ map cleanLine lines /\ steps <> [] /\ err = None)).
Proof.
  intros Hreply Hdec. cbv zeta. unfold PlanTask. rewrite bind_call, Hreply.
  change (if HasPrefix (TrimSpace content) "```" then _ else _)
    with (client.stripFence content).
  rewrite Hdec, planLines_spec. fold (countedLines (client.stripFence content)).
  set (steps := partial ++ map cleanLine (countedLines (client.stripFence content))).
  destruct steps as [|step steps'] eqn:Hsteps; cbn [slice_len length Z.of_nat Z.eqb].
  - eexists _, _. split; [reflexivity|]. left.
    apply app_eq_nil in Hsteps as [-> Hlines]. apply map_eq_nil in Hlines.
    repeat split; assumption.
  - replace (Z.pos (Pos.of_succ_nat (length steps')) =? 0) with false by reflexivity.
    eexists _, _. split; [reflexivity|]. right. repeat split. discriminate.
Qed.

(** What the decoder accepts is the plan, as it is: [PlanTask] returns
    it without an error even when it has no step, and makes one request. *)
Theorem PlanTask_returns_the_decoded_plan
    (task pageContext content : string) (more steps : list string) (h : Trace) :
  env h (CreateChatCompletion planSystemPrompt (planPrompt task pageContext))
  = ChatChoices (content :: more) ->
  unmarshalSteps (client.stripFence content) = (steps, None) ->
  PlanTask env task pageContext h
  = Some ((steps, None),
          CreateChatCompletion planSystemPrompt (planPrompt task pageContext) :: h).
Proof.
  intros Hreply Hdec. unfold PlanTask. rewrite bind_call, Hreply.
  change (if HasPrefix (TrimSpace content) "```" then _ else _)
    with (client.stripFence content).
  now rewrite Hdec.
Qed.

End Planner.
End planner_props.

(** ** Runs of the properties above *)

Module more_scenarios.
Import GoInt GoStrings GoFacts world ai ctxmgr browser world_props plan_props iterate_props.
Import sample sample_plans sample_more.

Lemma ExecuteTask_forgets_the_previous_task_witness :
  agent.ExecuteTask (steady scenarios.waitReply) 1 scenarios.nearlyFull
    "find the pricing page" "" []
  = agent.ExecuteTask (steady scenarios.waitReply) 1 (agent.NewAgent false)
      "find the pricing page" "" [].
Proof.
  apply (history_props.ExecuteTask_forgets_the_previous_task (steady scenarios.waitReply) 1
           scenarios.nearlyFull (agent.NewAgent false) "find the pricing page" "" []);
    reflexivity.
Defined.

Lemma open_then_close_restores_tabs_witness :
  let m := fold_left applyOp [OpPageOpened (Some tab1)] emptyManager in
  let m' := handlePageClosed (registerPage m (Some tab2) true) (Some tab2) in
  pages m' = pages m /\ pageOrder m' = pageOrder m.
Proof.
  cbv zeta.
  destruct (registry_props.open_then_close_restores_tabs [OpPageOpened (Some tab1)] tab2 true)
    as (Hpages & Horder & _); [vm_compute; reflexivity|].
  split; assumption.
Defined.

Lemma SwitchToPage_by_number_witness :
  exists m',
    SwitchToPage titleOf urlOf
      (fold_left applyOp [OpPageOpened (Some tab1); OpPageOpened (Some tab2)] emptyManager)
      Alive " 1 " = (m', Ok) /\
    forall tab, tab ∈ ListOpenPages titleOf urlOf m' ->
                (TabInfo.Active tab = true <-> TabInfo.Index tab = 1).
Proof.
  destruct (registry_props.SwitchToPage_by_number titleOf urlOf
              [OpPageOpened (Some tab1); OpPageOpened (Some tab2)] " 1 " 1)
    as (m' & Hrun & _ & _ & Hactive).
  - vm_compute. discriminate.
  - vm_compute. reflexivity.
  - vm_compute. split; discriminate.
  - exists m'. split; assumption.
Defined.

Lemma SwitchToPage_first_match_wins_witness :
  let m := fold_left applyOp [OpPageOpened (Some tab1); OpPageOpened (Some tab2)]
             emptyManager in
  let lower := ToLower (TrimSpace "TAB C00002") in
  match SwitchToPage titleOf urlOf m Alive "TAB C00002" with
  | (m', Ok) =>
      exists i id pg,
        pageOrder m !! i = Some id /\ pages m !! id = Some pg /\
        registry_props.matches titleOf urlOf lower pg = true /\
        activePageID m' = id /\ page m' = Some pg /\
        pages m' = pages m /\ pageOrder m' = pageOrder m /\
        forall j id' pg', (j < i)%nat -> pageOrder m !! j = Some id' ->
                          pages m !! id' = Some pg' ->
                          registry_props.matches titleOf urlOf lower pg' = false
  | (m', Err e) =>
      m' = m /\ e = "no page matches target " +:+ Quote (TrimSpace "TAB C00002") /\
      forall id pg, pages m !! id = Some pg ->
                    registry_props.matches titleOf urlOf lower pg = false
  | (_, Panic) => False
  end.
Proof.
  apply (registry_props.SwitchToPage_first_match_wins titleOf urlOf
           [OpPageOpened (Some tab1); OpPageOpened (Some tab2)] "TAB C00002").
  - vm_compute. discriminate.
  - vm_compute. discriminate.
  - vm_compute. reflexivity.
Defined.

(** The run above ends with the second tab active. *)
Example second_tab_is_found_by_its_title :
  activePageID
    (SwitchToPage titleOf urlOf
       (fold_left applyOp [OpPageOpened (Some tab1); OpPageOpened (Some tab2);
                           OpSwitchTab Alive "1" titleOf urlOf] emptyManager)
       Alive "TAB C00002").1
  = pageIdentifier tab2.
Proof. vm_compute. reflexivity. Qed.


Lemma unflagged_decision_is_never_confirmed_witness :
  exists r new,
    agent.executeAction (steady scenarios.waitReply) (agent.NewAgent false) clickLogin []
    = Some (r, new ++ []) /\
    Forall (fun c => conduct_props.console c = false) new.
Proof.
  apply (conduct_props.unflagged_decision_is_never_confirmed (steady scenarios.waitReply)
           (agent.NewAgent false) clickLogin []).
  reflexivity.
Defined.

Lemma unapproved_action_is_not_executed_witness :
  exists e new,
    agent.executeAction (steady scenarios.waitReply) (agent.NewAgent false) deleteAccount []
    = Some (Some e, new ++ []) /\
    Forall (fun c => conduct_props.console c = true) new /\
    (e = "action denied by user" \/ exists e', e = "confirmation check failed: " +:+ e').
Proof.
  apply (conduct_props.unapproved_action_is_not_executed (steady scenarios.waitReply)
           (agent.NewAgent false) deleteAccount []).
  - reflexivity.
  - intros h'. exact I.
Defined.

Lemma complete_decision_is_not_executed_witness :
  exists a' new,
    @agent.ExecuteTask asciiText doneJSON (steady (marshal doneDecision)) 1
      (agent.NewAgent false) "submit the form" "" []
    = Some ((None, a'), new ++ []) /\
    Forall (fun c => conduct_props.observing c = true) new.
Proof.
  apply (@conduct_props.complete_decision_is_not_executed asciiText doneJSON
           (steady (marshal doneDecision)) 0 (agent.NewAgent false) "submit the form" "" []).
  - now left.
  - vm_compute. discriminate.
  - intros h. reflexivity.
  - intros h. vm_compute. reflexivity.
  - intros h t d. now eexists _, _.
  - intros h s u. exists (marshal doneDecision), [], doneDecision.
    split; [reflexivity|]. split; vm_compute; reflexivity.
  - intros h h'. vm_compute. reflexivity.
Defined.

Lemma unavailable_browser_fails_the_task_witness :
  exists a' new,
    agent.ExecuteTask (down scenarios.waitReply) 0 (agent.NewAgent false)
      "find the pricing page" "example.com" []
    = Some ((Some ("failed to navigate to initial URL: "
                   +:+ "browser not available: "
                   +:+ "failed to restart browser context: no display"), a'), new ++ []) /\
    Forall (fun c => c = EnsureBrowser \/ isLog c = true) new.
Proof.
  apply (conduct_props.unavailable_browser_fails_the_task (down scenarios.waitReply) 0
           (agent.NewAgent false) "find the pricing page" "example.com"
           "failed to restart browser context: no display" []).
  intros h'. reflexivity.
Defined.

Lemma empty_plan_succeeds_without_a_decision_witness :
  exists r a' new,
    agent.ExecuteTask (planned [] scenarios.waitReply) 0 (agent.NewAgent true)
      "find the pricing page" "" []
    = Some ((r, a'), new ++ []) /\
    Forall (fun c => isChat c = false) new /\
    (r = None \/ exists e, r = Some ("failed to navigate to initial URL: " +:+ e)).
Proof.
  apply (conduct_props.empty_plan_succeeds_without_a_decision
           (planned [] scenarios.waitReply) 0 (agent.NewAgent true)
           "find the pricing page" "" []).
  - intros h. reflexivity.
  - intros h' t d. reflexivity.
Defined.


Lemma getSelector_tells_ids_apart_witness :
  selectors.getSelector (Some loginButton)
  = ("[id=" +:+ dq +:+ selectors.cssEscapeAttrValue "login" +:+ dq +:+ "]", None) /\
  (selectors.getSelector (Some loginButton) = selectors.getSelector (Some searchBox) ->
   "login" = "q").
Proof.
  apply (selector_props.getSelector_tells_ids_apart loginButton searchBox "login" "q");
    first [reflexivity | discriminate].
Defined.

(** A plan sent as a numbered list. *)
Definition numberedPlan : string :=
  "1. Open the login page" +:+ nl +:+ nl +:+ "2. Click the login button" +:+ nl.

Lemma PlanTask_falls_back_to_lines_witness :
  let lines := planner_props.countedLines (client.stripFence numberedPlan) in
  exists steps err,
    planner.PlanTask (steady numberedPlan) "log in" "Title: Example Domain" []
    = Some ((steps, err),
            [CreateChatCompletion planner.planSystemPrompt
               (planner.planPrompt "log in" "Title: Example Domain")]) /\
    ((@nil string = [] /\ lines = [] /\ steps = [] /\
      err = Some ("failed to parse plan JSON: " +:+ "invalid character in JSON document"))
     \/
     (steps = [] ++ map planner.cleanLine lines /\ steps <> [] /\ err = None)).
Proof.
  apply (planner_props.PlanTask_falls_back_to_lines (steady numberedPlan)
           "log in" "Title: Example Domain" numberedPlan [] []
           "invalid character in JSON document" []).
  - reflexivity.
  - vm_compute. reflexivity.
Defined.

(** The run above gives the two steps, numbers removed. *)
Example numbered_plan_is_read_line_by_line :
  planner.PlanTask (steady numberedPlan) "log in" "Title: Example Domain" []
  = Some ((["Open the login page"; "Click the login button"], None),
          [CreateChatCompletion planner.planSystemPrompt
             (planner.planPrompt "log in" "Title: Example Domain")]).
Proof. vm_compute. reflexivity. Qed.

Lemma PlanTask_returns_the_decoded_plan_witness :
  planner.PlanTask (steady (marshalSteps [])) "log in" "Title: Example Domain" []
  = Some (([], None),
          [CreateChatCompletion planner.planSystemPrompt
             (planner.planPrompt "log in" "Title: Example Domain")]).
Proof.
  apply (planner_props.PlanTask_returns_the_decoded_plan (steady (marshalSteps []))
           "log in" "Title: Example Domain" (marshalSteps []) [] [] []).
  - reflexivity.
  - vm_compute. reflexivity.
Defined.

End more_scenarios.
